(** * MVP-2: postal-code distance pipeline

    A shallow embedding of the two Flask services of the repository:

    - [api_secundaria/app.py]: the haversine distance delegate
      ([haversine_km], [calcular_distancia]);
    - [api_principal/app.py]: the orchestrator ([via_cep],
      [endereco_para_query], [geocode_osm], [distancia_por_cep]) and the
      CRUD handlers over the SQLite table [consultas].

    Python values are modelled as the decoded JSON they are at run time,
    exceptions as an error type, the remote services and the database as
    an explicit world that every handler threads. Floats are IEEE-754
    binary64 values (Rocq's primitive floats). *)

From Stdlib Require Import List ZArith NArith Bool Lia String Ascii.
From Stdlib Require Import Sorting.Sorted Permutation.
From Stdlib Require Import Floats.
Import ListNotations.

Set Warnings "-register-all".

(** ** Python strings *)

Module PyStr.

(** A Python [str] is a sequence of Unicode code points. *)
Definition char := N.
Definition str := list char.

(** ASCII literals. *)
Definition lit (s : string) : str :=
  map N_of_ascii (list_ascii_of_string s).

Definition comma : char := 44%N.
Definition hyphen : char := 45%N.

Fixpoint eqb (a b : str) : bool :=
  match a, b with
  | [], [] => true
  | x :: a', y :: b' => N.eqb x y && eqb a' b'
  | _, _ => false
  end.

(** [c.isspace()] for one code point, the set [str.strip()] removes. *)
Definition is_space (c : char) : bool :=
  ((9 <=? c) && (c <=? 13) || (28 <=? c) && (c <=? 32)
   || (c =? 133) || (c =? 160) || (c =? 5760)
   || (8192 <=? c) && (c <=? 8202)
   || (c =? 8232) || (c =? 8233) || (c =? 8239) || (c =? 8287)
   || (c =? 12288))%N.

Fixpoint lstrip (s : str) : str :=
  match s with
  | [] => []
  | c :: r => if is_space c then lstrip r else s
  end.

Definition rstrip (s : str) : str := rev (lstrip (rev s)).

(** [s.strip()] *)
Definition strip (s : str) : str := rstrip (lstrip s).

(** [s.split(sep)] for a one-character separator: never the empty list. *)
Fixpoint split (sep : char) (s : str) : list str :=
  match s with
  | [] => [[]]
  | c :: r =>
      if N.eqb c sep then [] :: split sep r
      else match split sep r with
           | h :: t => (c :: h) :: t
           | [] => [[c]]
           end
  end.

(** [sep.join(parts)] *)
Fixpoint join (sep : str) (parts : list str) : str :=
  match parts with
  | [] => []
  | [p] => p
  | p :: rest => p ++ sep ++ join sep rest
  end.

(** [s.replace(c, "")] for a one-character pattern. *)
Definition remove_char (c : char) (s : str) : str :=
  filter (fun x => negb (N.eqb x c)) s.

(** [l[-n:]] *)
Definition last_n {A : Type} (n : nat) (l : list A) : list A :=
  skipn (List.length l - n) l.

Definition is_empty (s : str) : bool :=
  match s with [] => true | _ => false end.

End PyStr.

Import PyStr.

(** ** Decoded JSON values, Python exceptions *)

Inductive json : Type :=
| JNull
| JBool (b : bool)
| JInt (z : Z)
| JFloat (f : float)
| JStr (s : str)
| JArr (items : list json)
| JObj (fields : list (str * json)).

(** The messages of the [ValueError]s the services raise themselves or
    receive from a builtin. *)
Inductive value_error : Type :=
| ViaCepHttp (status : Z)      (* "ViaCEP HTTP {status}" *)
| CepInvalido                  (* "CEP inválido no ViaCEP" *)
| GeocodeNaoEncontrado         (* "Não foi possível geocodificar ..." *)
| FloatLiteral                 (* float("abc") *)
| IntLiteral                   (* int("abc") *)
| MathDomain.                  (* "math domain error" *)

(** [requests.RequestException] and its subclasses. *)
Inductive request_error : Type :=
| Timeout
| ConnectionError
| HTTPError (status : Z).

Inductive exn : Type :=
| ValueError (why : value_error)
| RequestException (why : request_error)
| JSONDecodeError      (* requests' decoding error: a ValueError as well *)
| UnicodeEncodeError   (* a UnicodeError, hence a ValueError *)
| TypeError
| AttributeError
| KeyError
| IndexError
| OverflowError
| IntegrityError       (* sqlite3: a constraint of the table failed *)
| DatabaseError.       (* sqlite3: any other error of the database *)

(** [isinstance(e, ValueError)] *)
Definition is_ValueError (e : exn) : bool :=
  match e with
  | ValueError _ | JSONDecodeError | UnicodeEncodeError => true
  | _ => false
  end.

(** [isinstance(e, requests.RequestException)] *)
Definition is_RequestException (e : exn) : bool :=
  match e with
  | RequestException _ | JSONDecodeError => true
  | _ => false
  end.

Inductive result (A : Type) : Type :=
| Ok (a : A)
| Raise (e : exn).

Arguments Ok {A} a.
Arguments Raise {A} e.

(** What the interpreter, libm and the sqlite3 adapter contribute and the
    repository does not define. *)
Class Runtime : Type := {
  (** [float(s)] on a [str]; [None] is [ValueError]. *)
  float_of_str : str -> option float;
  (** [int(s)] on a [str]; [None] is [ValueError]. *)
  int_of_str : str -> option Z;
  (** [str(v)] on a number or a container. *)
  repr_json : json -> str;
  (** [round(x, ndigits)] on a float. *)
  py_round : float -> Z -> float;
  (** How sqlite3 binds a value that is neither [None] nor a [str] to a
      TEXT column. *)
  sqlite_text : json -> result (option str);
  (** The C library behind [math.sin], [math.cos], [math.asin] and
      float [**]. *)
  libm_sin : float -> float;
  libm_cos : float -> float;
  libm_asin : float -> float;
  libm_pow : float -> float -> float
}.

Module Py.

(** [bool(v)] *)
Definition truthy (v : json) : bool :=
  match v with
  | JNull => false
  | JBool b => b
  | JInt z => negb (Z.eqb z 0)
  | JFloat f => negb (PrimFloat.eqb f 0%float)
  | JStr s => negb (is_empty s)
  | JArr l => match l with [] => false | _ => true end
  | JObj d => match d with [] => false | _ => true end
  end.

(** Lookup in a decoded object. *)
Fixpoint lookup (k : str) (d : list (str * json)) : option json :=
  match d with
  | [] => None
  | (k', v) :: r => if PyStr.eqb k k' then Some v else lookup k r
  end.

(** [v.get(k)]: only a dict has the method; a missing key is [None]. *)
Definition get (v : json) (k : str) : result json :=
  match v with
  | JObj d => Ok (match lookup k d with Some x => x | None => JNull end)
  | _ => Raise AttributeError
  end.

(** [v.get(k, default)] *)
Definition get_default (v : json) (k : str) (default : json) : result json :=
  match v with
  | JObj d => Ok (match lookup k d with Some x => x | None => default end)
  | _ => Raise AttributeError
  end.

(** [v[k]] for a string key. *)
Definition getitem (v : json) (k : str) : result json :=
  match v with
  | JObj d => match lookup k d with Some x => Ok x | None => Raise KeyError end
  | _ => Raise TypeError
  end.

(** [v[0]] *)
Definition getitem0 (v : json) : result json :=
  match v with
  | JArr (x :: _) => Ok x
  | JArr [] => Raise IndexError
  | JStr (c :: _) => Ok (JStr [c])
  | JStr [] => Raise IndexError
  | JObj _ => Raise KeyError
  | _ => Raise TypeError
  end.

(** [k in v] for a dict. *)
Definition contains (v : list (str * json)) (k : str) : bool :=
  match lookup k v with Some _ => true | None => false end.

(** [a or b] *)
Definition or_else (a b : json) : json := if truthy a then a else b.

(** [request.get_json(silent=True) or {}]: an absent or undecodable body
    is [None]. *)
Definition body_or_empty (b : option json) : json :=
  match b with
  | Some v => or_else v (JObj [])
  | None => JObj []
  end.

(** [float(n)] for a Python int: nearest double, [OverflowError] beyond
    the range. *)
Definition float_of_int (z : Z) : result float :=
  let f := SF2Prim (binary_normalize prec emax z 0 false) in
  if is_infinity f then Raise OverflowError else Ok f.

Section WithRuntime.
Context {RT : Runtime}.

(** [float(v)] *)
Definition to_float (v : json) : result float :=
  match v with
  | JFloat f => Ok f
  | JInt z => float_of_int z
  | JBool b => Ok (if b then 1%float else 0%float)
  | JStr s =>
      match float_of_str s with
      | Some f => Ok f
      | None => Raise (ValueError FloatLiteral)
      end
  | JNull | JArr _ | JObj _ => Raise TypeError
  end.

(** [str(v)] *)
Definition to_str (v : json) : str :=
  match v with
  | JStr s => s
  | JNull => lit "None"
  | JBool true => lit "True"
  | JBool false => lit "False"
  | _ => repr_json v
  end.

(** [int(s)] on a query-string value. *)
Definition to_int (s : str) : result Z :=
  match int_of_str s with
  | Some z => Ok z
  | None => Raise (ValueError IntLiteral)
  end.

End WithRuntime.

End Py.

(** ** The record store: table [consultas] *)

Module Store.

(** One row, with the columns of [CREATE TABLE consultas]. *)
Record consulta : Type := mk_consulta {
  id : Z;
  cep_origem : str;
  cep_destino : str;
  lat1 : float;
  lon1 : float;
  lat2 : float;
  lon2 : float;
  distancia_km : float;
  criado_em : str;
  observacoes : option str
}.

(** The table, in insertion order, and the AUTOINCREMENT counter (the
    largest id ever assigned). *)
Record t : Type := mk {
  rows : list consulta;
  seq : Z
}.

Definition empty : t := {| rows := []; seq := 0 |}.

(** The integers SQLite holds: signed, 64 bits. *)
Definition int64 (z : Z) : bool :=
  ((- 9223372036854775808 <=? z) && (z <=? 9223372036854775807))%Z.

(** How sqlite3 binds a Python [int] to a [?]: beyond 64 bits it raises
    [OverflowError] and the statement is not run. *)
Definition bind_int (z : Z) : result Z :=
  if int64 z then Ok z else Raise OverflowError.

(** The code points U+D800..U+DFFF, which UTF-8 cannot encode. *)
Definition is_surrogate (c : char) : bool :=
  ((55296 <=? c) && (c <=? 57343))%N.

(** How sqlite3 binds a Python [str] to a [?]: as its UTF-8 encoding,
    which a string with a surrogate does not have. *)
Definition bind_str (s : str) : result str :=
  if existsb is_surrogate s then Raise UnicodeEncodeError else Ok s.

(** What a REAL column gives back for a stored number: SQLite keeps a
    real that is a whole number as an integer, so the sign of -0.0 is
    lost; every other number comes back as it was. *)
Definition real (x : float) : float :=
  if PrimFloat.eqb x 0%float then 0%float else x.

(** [INSERT INTO consultas (...) VALUES (...)] with its parameters
    bound; returns [lastrowid]. AUTOINCREMENT takes the counter plus one
    and fails when no 64-bit id is left; a NaN is bound as NULL, which
    the [REAL NOT NULL] columns refuse. *)
Definition insert (co cd : str) (la1 lo1 la2 lo2 d : float) (ts : str)
  (obs : option str) (s : t) : result (Z * t) :=
  let novo := (seq s + 1)%Z in
  if negb (int64 novo) then Raise DatabaseError
  else if existsb is_nan [la1; lo1; la2; lo2; d] then Raise IntegrityError
  else
    Ok (novo,
        {| rows := rows s
                   ++ [mk_consulta novo co cd (real la1) (real lo1)
                         (real la2) (real lo2) (real d) ts obs];
           seq := novo |}).

(** [SELECT * FROM consultas WHERE id = ?] with [fetchone()]. *)
Definition select_one (i : Z) (s : t) : result (option consulta) :=
  match bind_int i with
  | Raise e => Raise e
  | Ok i => Ok (find (fun r => Z.eqb (id r) i) (rows s))
  end.

Fixpoint insert_desc (r : consulta) (l : list consulta) : list consulta :=
  match l with
  | [] => [r]
  | x :: rest =>
      if (id x <=? id r)%Z then r :: l else x :: insert_desc r rest
  end.

(** [ORDER BY id DESC] *)
Definition order_by_id_desc (l : list consulta) : list consulta :=
  fold_right insert_desc [] l.

(** [LIMIT ? OFFSET ?] with both parameters bound: a negative limit is
    no limit, a negative offset is 0. *)
Definition limit_offset (limit offset : Z) (l : list consulta)
  : result (list consulta) :=
  match bind_int limit with
  | Raise e => Raise e
  | Ok limit =>
  match bind_int offset with
  | Raise e => Raise e
  | Ok offset =>
      let l' := skipn (Z.to_nat offset) l in
      Ok (if (limit <? 0)%Z then l' else firstn (Z.to_nat limit) l')
  end end.

(** [SELECT ... FROM consultas ORDER BY id DESC LIMIT ? OFFSET ?] *)
Definition select_page (limit offset : Z) (s : t)
  : result (list consulta) :=
  limit_offset limit offset (order_by_id_desc (rows s)).

Definition set_observacoes (obs : option str) (r : consulta) : consulta :=
  mk_consulta (id r) (cep_origem r) (cep_destino r) (lat1 r) (lon1 r)
    (lat2 r) (lon2 r) (distancia_km r) (criado_em r) obs.

(** [UPDATE consultas SET observacoes = ? WHERE id = ?] with the notes
    already bound; returns [rowcount]. *)
Definition update_observacoes (obs : option str) (i : Z) (s : t)
  : result (nat * t) :=
  match bind_int i with
  | Raise e => Raise e
  | Ok i =>
      Ok (List.length (filter (fun r => Z.eqb (id r) i) (rows s)),
          {| rows := map (fun r => if Z.eqb (id r) i
                                   then set_observacoes obs r
                                   else r) (rows s);
             seq := seq s |})
  end.

(** [DELETE FROM consultas WHERE id = ?]; returns [rowcount]. *)
Definition delete (i : Z) (s : t) : result (nat * t) :=
  match bind_int i with
  | Raise e => Raise e
  | Ok i =>
      Ok (List.length (filter (fun r => Z.eqb (id r) i) (rows s)),
          {| rows := filter (fun r => negb (Z.eqb (id r) i)) (rows s);
             seq := seq s |})
  end.

End Store.

(** ** API Secundária: the distance delegate *)

Module Secundaria.

Section WithRuntime.
Context {RT : Runtime}.

(** The wrapper CPython puts around a libm function of one argument: a
    NaN from a number, or an infinity from a finite number, is an error
    ([errno] plays no part on the results left). *)
Definition math_1 (f : float -> float) (can_overflow : bool) (x : float)
  : result float :=
  let r := f x in
  if is_nan r && negb (is_nan x) then Raise (ValueError MathDomain)
  else if is_infinity r && is_finite x then
    Raise (if can_overflow then OverflowError else ValueError MathDomain)
  else Ok r.

Definition sin : float -> result float := math_1 libm_sin false.
Definition cos : float -> result float := math_1 libm_cos false.
Definition asin : float -> result float := math_1 libm_asin false.
Definition sqrt : float -> result float := math_1 PrimFloat.sqrt false.

(** [math.pi / 180], the factor of [math.radians]. *)
Definition degToRad : float := (0x1.921fb54442d18p+1 / 180)%float.

Definition radians (x : float) : float := (x * degToRad)%float.

(** [x ** 2] on a float: CPython settles NaN, infinities, zero, the sign
    and 1 itself and leaves the rest to libm's [pow]. *)
Definition pow2 (x : float) : result float :=
  if is_nan x then Ok x
  else if is_infinity x then Ok (abs x)
  else if (x =? 0)%float then Ok 0%float
  else
    let iv := if (x <? 0)%float then (- x)%float else x in
    if (iv =? 1)%float then Ok 1%float
    else
      let ix := libm_pow iv 2%float in
      if is_infinity ix then Raise OverflowError else Ok ix.

Definition bind {A B : Type} (m : result A) (k : A -> result B) : result B :=
  match m with
  | Ok a => k a
  | Raise e => Raise e
  end.

Notation "x <- m ;; k" := (bind m (fun x => k))
  (at level 61, m at next level, right associativity).

(** Raio médio da Terra em km *)
Definition R : float := 6371%float.

Definition haversine_km (lat1 lon1 lat2 lon2 : float) : result float :=
  let lat1 := radians lat1 in
  let lon1 := radians lon1 in
  let lat2 := radians lat2 in
  let lon2 := radians lon2 in
  let dlat := (lat2 - lat1)%float in
  let dlon := (lon2 - lon1)%float in
  s1 <- sin (dlat / 2)%float ;;
  p1 <- pow2 s1 ;;
  c1 <- cos lat1 ;;
  c2 <- cos lat2 ;;
  s2 <- sin (dlon / 2)%float ;;
  p2 <- pow2 s2 ;;
  let a := (p1 + c1 * c2 * p2)%float in
  q <- sqrt a ;;
  h <- asin q ;;
  let c := (2 * h)%float in
  Ok (R * c)%float.

(** The two blocks a request names. *)
Inductive campo : Type := Origem | Destino.

Inductive payload : Type :=
| Distancia (lat1 lon1 lat2 lon2 : float) (distancia_km : float)
| ErroObjeto (c : campo)     (* "'{campo}' deve ser um objeto com lat e lon" *)
| ErroCampos (c : campo)     (* "'{campo}' deve conter 'lat' e 'lon'" *)
| ErroValores                (* "Valores de latitude/longitude inválidos." *)
| ErroInesperado (e : exn).  (* "Erro inesperado: ..." *)

Definition response : Type := (payload * Z)%type.

(** The two tests of the loop body on one block; [None] lets the loop go
    on. *)
Definition verifica_bloco (c : campo) (bloco : json) : option response :=
  match bloco with
  | JObj d =>
      if negb (Py.contains d (lit "lat")) || negb (Py.contains d (lit "lon"))
      then Some (ErroCampos c, 400%Z)
      else None
  | _ => Some (ErroObjeto c, 400%Z)
  end.

(** The body of the [try] block. *)
Definition calcular_distancia_try (body : option json) : result response :=
  let data := Py.body_or_empty body in
  o <- Py.get data (lit "origem") ;;
  let origem := Py.or_else o (JObj []) in
  d <- Py.get data (lit "destino") ;;
  let destino := Py.or_else d (JObj []) in
  match verifica_bloco Origem origem with
  | Some r => Ok r
  | None =>
  match verifica_bloco Destino destino with
  | Some r => Ok r
  | None =>
      v1 <- Py.getitem origem (lit "lat") ;;
      lat1 <- Py.to_float v1 ;;
      v2 <- Py.getitem origem (lit "lon") ;;
      lon1 <- Py.to_float v2 ;;
      v3 <- Py.getitem destino (lit "lat") ;;
      lat2 <- Py.to_float v3 ;;
      v4 <- Py.getitem destino (lit "lon") ;;
      lon2 <- Py.to_float v4 ;;
      distancia <- haversine_km lat1 lon1 lat2 lon2 ;;
      Ok (Distancia lat1 lon1 lat2 lon2 (py_round distancia 3), 200%Z)
  end
  end.

(** POST /calcular-distancia *)
Definition calcular_distancia (body : option json) : response :=
  match calcular_distancia_try body with
  | Ok r => r
  | Raise e =>
      if is_ValueError e then (ErroValores, 400%Z)
      else match e with
           | TypeError => (ErroValores, 400%Z)
           | _ => (ErroInesperado e, 500%Z)
           end
  end.

End WithRuntime.

End Secundaria.

(** ** API Principal: the orchestrator *)

Module Principal.

(** The outbound calls of the service. *)
Inductive request : Type :=
| GetViaCep (cep : str)       (* GET viacep.com.br/ws/{cep}/json/ *)
| GetNominatim (q : str)      (* GET nominatim.openstreetmap.org/search *)
| PostSecundaria (lat1 lon1 lat2 lon2 : float).
                              (* POST {API_SECUNDARIA_URL}/calcular-distancia *)

(** A [requests.Response]: [json_body] is [None] when [r.json()] cannot
    decode the body. *)
Record http_response : Type := mk_response {
  status_code : Z;
  json_body : option json;
  text : str
}.

(** What a call ends in: a response, or an exception of requests
    (timeout, transport error). *)
Inductive http_outcome : Type :=
| Responds (r : http_response)
| Fails (e : request_error).

(** The world a handler runs in: [remote n] is how the [n]-th outbound
    call of the process ends, [calls] the calls made so far, [db] the
    table, [utcnow] the clock read as [isoformat(timespec="seconds")]. *)
Record world : Type := mk_world {
  remote : nat -> http_outcome;
  calls : list request;
  db : Store.t;
  utcnow : str
}.

Definition M (A : Type) : Type := world -> result A * world.

Definition ret {A : Type} (a : A) : M A := fun w => (Ok a, w).

Definition raise {A : Type} (e : exn) : M A := fun w => (Raise e, w).

Definition bind {A B : Type} (m : M A) (k : A -> M B) : M B :=
  fun w =>
    match m w with
    | (Ok a, w') => k a w'
    | (Raise e, w') => (Raise e, w')
    end.

Definition lift {A : Type} (r : result A) : M A := fun w => (r, w).

Notation "x <- m ;; k" := (bind m (fun x => k))
  (at level 61, m at next level, right associativity).

Notation "' pat <- m ;; k" := (bind m (fun x => match x with pat => k end))
  (at level 61, pat pattern, m at next level, right associativity).

(** [requests.get] / [requests.post]: the call is made, then it either
    returns a response or raises. *)
Definition http (rq : request) : M http_response :=
  fun w =>
    let w' := mk_world (remote w) (calls w ++ [rq]) (db w) (utcnow w) in
    match remote w (List.length (calls w)) with
    | Responds r => (Ok r, w')
    | Fails e => (Raise (RequestException e), w')
    end.

(** [r.json()] *)
Definition json_of (r : http_response) : M json :=
  match json_body r with
  | Some v => ret v
  | None => raise JSONDecodeError
  end.

(** [r.raise_for_status()] *)
Definition raise_for_status (r : http_response) : M unit :=
  if ((400 <=? status_code r) && (status_code r <? 600))%Z
  then raise (RequestException (HTTPError (status_code r)))
  else ret tt.

(** [datetime.utcnow().isoformat(timespec="seconds") + "Z"] *)
Definition agora : M str := fun w => (Ok (utcnow w ++ lit "Z"), w).

Inductive payload : Type :=
| ErroEntrada                  (* "Informe 'origem' e 'destino' (CEPs)." *)
| ErroValor (e : exn)          (* {"erro": str(ve)} *)
| ErroExterno (e : exn)        (* "Falha ao consultar serviços externos." *)
| ErroSecundaria (status : Z) (detalhes : str)
| ErroInesperado (e : exn)     (* "Erro inesperado: ..." *)
| ErroInterno (e : exn)        (* an exception no handler catches *)
| NaoEncontrada                (* "Consulta não encontrada." *)
| Criada (novo_id : Z) (cep_origem cep_destino : str)
    (endereco_origem endereco_destino : json)
    (lat1 lon1 lat2 lon2 : float) (distancia_km : float)
    (criado_em : str) (observacoes : json)
| Lista (total : nat) (items : list Store.consulta)
| Registro (r : Store.consulta)
| Excluida (i : Z).

Definition response : Type := (payload * Z)%type.

Definition status (r : response) : Z := snd r.

Section WithRuntime.
Context {RT : Runtime}.

(** Consulta ViaCEP e retorna JSON do endereço. *)
Definition via_cep (cep : str) : M json :=
  let cep := strip (remove_char hyphen cep) in
  r <- http (GetViaCep cep) ;;
  if negb (status_code r =? 200)%Z
  then raise (ValueError (ViaCepHttp (status_code r)))
  else
    data <- json_of r ;;
    erro <- lift (Py.get data (lit "erro")) ;;
    if Py.truthy erro then raise (ValueError CepInvalido)
    else ret data.

(** [sep.join(items)]: every item has to be a [str]. *)
Fixpoint strs_of (items : list json) : result (list str) :=
  match items with
  | [] => Ok []
  | JStr s :: rest =>
      match strs_of rest with
      | Ok l => Ok (s :: l)
      | Raise e => Raise e
      end
  | _ :: _ => Raise TypeError
  end.

Definition country : str := lit "Brazil".

Definition sep : str := lit ", ".

(** Monta uma query textual amigável para geocodificação. *)
Definition endereco_para_query (endereco : json) : result str :=
  match Py.get endereco (lit "logradouro") with
  | Raise e => Raise e
  | Ok l =>
  let logradouro := Py.or_else l (JStr []) in
  match Py.get endereco (lit "bairro") with
  | Raise e => Raise e
  | Ok b =>
  let bairro := Py.or_else b (JStr []) in
  match Py.get endereco (lit "localidade") with
  | Raise e => Raise e
  | Ok c =>
  let localidade := Py.or_else c (JStr []) in
  match Py.get endereco (lit "uf") with
  | Raise e => Raise e
  | Ok u =>
  let uf := Py.or_else u (JStr []) in
  let componentes := [logradouro; bairro; localidade; uf; JStr country] in
  match strs_of (filter Py.truthy componentes) with
  | Ok l => Ok (join sep l)
  | Raise e => Raise e
  end
  end end end end.

(** The inner [_search] of [geocode_osm]: one lookup, [None] when the
    service has no match. *)
Definition _search (q : str) : M (option (float * float)) :=
  resp <- http (GetNominatim q) ;;
  _ <- raise_for_status resp ;;
  items <- json_of resp ;;
  if negb (Py.truthy items) then ret None
  else
    i0 <- lift (Py.getitem0 items) ;;
    la <- lift (Py.getitem i0 (lit "lat")) ;;
    lat <- lift (Py.to_float la) ;;
    i0' <- lift (Py.getitem0 items) ;;
    lo <- lift (Py.getitem i0' (lit "lon")) ;;
    lon <- lift (Py.to_float lo) ;;
    ret (Some (lat, lon)).

(** Geocodifica um endereço via Nominatim/OSM. *)
Definition geocode_osm (query : str) : M (float * float) :=
  (* 1ª tentativa: query completa *)
  coords <- _search query ;;
  match coords with
  | Some c => ret c
  | None =>
      (* 2ª tentativa: heurística simples (cidade/UF/país) *)
      let partes := map strip (split comma query) in
      if (3 <=? List.length partes)%nat then
        let cidade_uf := join sep (last_n 3 partes) in
        coords <- _search cidade_uf ;;
        match coords with
        | Some c => ret c
        | None => raise (ValueError GeocodeNaoEncontrado)
        end
      else raise (ValueError GeocodeNaoEncontrado)
  end.

(** The value sqlite3 stores in the TEXT column [observacoes]: [None]
    is NULL, a [str] is bound as text, anything else is left to the
    adapter. *)
Definition bind_text (v : json) : result (option str) :=
  match v with
  | JNull => Ok None
  | JStr s =>
      match Store.bind_str s with
      | Ok s => Ok (Some s)
      | Raise e => Raise e
      end
  | _ => sqlite_text v
  end.

(** [db.execute("INSERT ...", params)], [db.commit()], [cur.lastrowid]:
    the parameters are bound in their order (a float is always bound),
    then the statement runs. An exception leaves the table as it was. *)
Definition db_insert (co cd : str) (la1 lo1 la2 lo2 d : float) (ts : str)
  (observacoes : json) : M Z :=
  fun w =>
    match Store.bind_str co with
    | Raise e => (Raise e, w)
    | Ok co =>
    match Store.bind_str cd with
    | Raise e => (Raise e, w)
    | Ok cd =>
    match Store.bind_str ts with
    | Raise e => (Raise e, w)
    | Ok ts =>
    match bind_text observacoes with
    | Raise e => (Raise e, w)
    | Ok obs =>
    match Store.insert co cd la1 lo1 la2 lo2 d ts obs (db w) with
    | Raise e => (Raise e, w)
    | Ok (novo_id, s) =>
        (Ok novo_id, mk_world (remote w) (calls w) s (utcnow w))
    end end end end end.

(** The body of the [try] block of [distancia_por_cep]. *)
Definition distancia_por_cep_try (req : option json) : M response :=
  let body := Py.body_or_empty req in
  o <- lift (Py.get_default body (lit "origem") (JStr [])) ;;
  let cep_origem := strip (Py.to_str o) in
  d <- lift (Py.get_default body (lit "destino") (JStr [])) ;;
  let cep_destino := strip (Py.to_str d) in
  observacoes <- lift (Py.get body (lit "observacoes")) ;;
  if is_empty cep_origem || is_empty cep_destino
  then ret (ErroEntrada, 400%Z)
  else
    (* 1) Consulta ViaCEP *)
    end_origem <- via_cep cep_origem ;;
    end_destino <- via_cep cep_destino ;;
    (* 2) Geocodificação (Nominatim) *)
    q_origem <- lift (endereco_para_query end_origem) ;;
    q_destino <- lift (endereco_para_query end_destino) ;;
    ' (lat1, lon1) <- geocode_osm q_origem ;;
    ' (lat2, lon2) <- geocode_osm q_destino ;;
    (* 3) Chama API Secundária (Haversine) *)
    r <- http (PostSecundaria lat1 lon1 lat2 lon2) ;;
    if negb (status_code r =? 200)%Z
    then ret (ErroSecundaria (status_code r) (text r), 502%Z)
    else
      resultado <- json_of r ;;
      v <- lift (Py.get resultado (lit "distancia_km")) ;;
      distancia_km <- lift (Py.to_float v) ;;
      (* 4) Persistência em SQLite *)
      criado_em <- agora ;;
      novo_id <- db_insert cep_origem cep_destino lat1 lon1 lat2 lon2
                   distancia_km criado_em observacoes ;;
      (* 5) Resposta enriquecida *)
      ret (Criada novo_id cep_origem cep_destino end_origem end_destino
             lat1 lon1 lat2 lon2 (py_round distancia_km 3) criado_em
             observacoes, 200%Z).

(** The [except] clauses of [distancia_por_cep], in their order. *)
Definition traduz_erro (e : exn) : response :=
  if is_ValueError e then (ErroValor e, 400%Z)
  else if is_RequestException e then (ErroExterno e, 502%Z)
  else (ErroInesperado e, 500%Z).

(** POST /distancia-por-cep *)
Definition distancia_por_cep (req : option json) (w : world)
  : response * world :=
  match distancia_por_cep_try req w with
  | (Ok r, w') => (r, w')
  | (Raise e, w') => (traduz_erro e, w')
  end.

(** [max(1, min(limit, 200))] *)
Definition clamp_limit (limit : Z) : Z := Z.max 1 (Z.min limit 200).

(** [max(0, offset)] *)
Definition clamp_offset (offset : Z) : Z := Z.max 0 offset.

(** [int(request.args.get(name, default))] *)
Definition int_arg (arg : option str) (default : Z) : result Z :=
  match arg with
  | Some s => Py.to_int s
  | None => Ok default
  end.

(** GET /consultas *)
Definition listar_consultas (limit offset : option str) (w : world)
  : response * world :=
  match int_arg limit 50 with
  | Raise e => ((ErroInesperado e, 500%Z), w)
  | Ok limit =>
  match int_arg offset 0 with
  | Raise e => ((ErroInesperado e, 500%Z), w)
  | Ok offset =>
      let limit := clamp_limit limit in
      let offset := clamp_offset offset in
      match Store.select_page limit offset (db w) with
      | Raise e => ((ErroInesperado e, 500%Z), w)
      | Ok dados => ((Lista (List.length dados) dados, 200%Z), w)
      end
  end end.

(** GET /consultas/<id>: no [try] here, an exception leaves the handler
    and the framework answers 500. The converter [<int:consulta_id>]
    accepts every string of digits, so the id has no upper bound. *)
Definition obter_consulta (consulta_id : Z) (w : world) : response * world :=
  match Store.select_one consulta_id (db w) with
  | Raise e => ((ErroInterno e, 500%Z), w)
  | Ok None => ((NaoEncontrada, 404%Z), w)
  | Ok (Some row) => ((Registro row, 200%Z), w)
  end.

(** PUT /consultas/<id>: no [try] here either. The notes are bound
    before the id. *)
Definition atualizar_consulta (consulta_id : Z) (req : option json)
  (w : world) : response * world :=
  let body := Py.body_or_empty req in
  match Py.get body (lit "observacoes") with
  | Raise e => ((ErroInterno e, 500%Z), w)
  | Ok observacoes =>
  match bind_text observacoes with
  | Raise e => ((ErroInterno e, 500%Z), w)
  | Ok obs =>
  match Store.update_observacoes obs consulta_id (db w) with
  | Raise e => ((ErroInterno e, 500%Z), w)
  | Ok (rowcount, s) =>
      let w' := mk_world (remote w) (calls w) s (utcnow w) in
      if (rowcount =? 0)%nat then ((NaoEncontrada, 404%Z), w')
      else
        match Store.select_one consulta_id s with
        | Ok (Some row) => ((Registro row, 200%Z), w')
        | Ok None => ((ErroInterno TypeError, 500%Z), w')
        | Raise e => ((ErroInterno e, 500%Z), w')
        end
  end end end.

(** DELETE /consultas/<id>: no [try] here either. *)
Definition excluir_consulta (consulta_id : Z) (w : world)
  : response * world :=
  match Store.delete consulta_id (db w) with
  | Raise e => ((ErroInterno e, 500%Z), w)
  | Ok (rowcount, s) =>
      let w' := mk_world (remote w) (calls w) s (utcnow w) in
      if (rowcount =? 0)%nat then ((NaoEncontrada, 404%Z), w')
      else ((Excluida consulta_id, 200%Z), w')
  end.

End WithRuntime.

End Principal.

(** ** A runtime and worlds for closed examples *)

Module Exemplo.

Fixpoint digits (acc : Z) (s : str) : option Z :=
  match s with
  | [] => Some acc
  | c :: r =>
      if ((48 <=? c) && (c <=? 57))%N
      then digits (10 * acc + Z.of_N (c - 48)) r
      else None
  end.

(** Decimal integer literals with an optional sign: a part of what
    [int()] reads. *)
Definition int_literal (s : str) : option Z :=
  match s with
  | [] => None
  | 45%N :: ((_ :: _) as r) => option_map Z.opp (digits 0 r)
  | 43%N :: ((_ :: _) as r) => digits 0 r
  | _ => digits 0 s
  end.

(** No float literal is read, numbers print as "?", sqlite3 refuses what
    is not text, and the C library is replaced by functions simple
    enough to evaluate: [sin x = x], [cos x = 1], [asin x = x],
    [pow x y = x * x], [round] the identity. *)
#[local] Instance runtime : Runtime := {|
  float_of_str := fun _ => None;
  int_of_str := int_literal;
  repr_json := fun _ => lit "?";
  py_round := fun x _ => x;
  sqlite_text := fun _ => Raise DatabaseError;
  libm_sin := fun x => x;
  libm_cos := fun _ => 1%float;
  libm_asin := fun x => x;
  libm_pow := fun x _ => (x * x)%float
|}.

Definition viacep_ok (campos : list (str * json)) : Principal.http_outcome :=
  Principal.Responds (Principal.mk_response 200 (Some (JObj campos)) []).

Definition nominatim_ok (lat lon : float) : Principal.http_outcome :=
  Principal.Responds
    (Principal.mk_response 200
       (Some (JArr [JObj [(lit "lat", JFloat lat); (lit "lon", JFloat lon)]]))
       []).

Definition nominatim_vazio : Principal.http_outcome :=
  Principal.Responds (Principal.mk_response 200 (Some (JArr [])) []).

Definition secundaria_ok (d : float) : Principal.http_outcome :=
  Principal.Responds
    (Principal.mk_response 200
       (Some (JObj [(lit "distancia_km", JFloat d)])) []).

(** A remote side that plays a script and then times out. *)
Definition script (l : list Principal.http_outcome) (n : nat)
  : Principal.http_outcome :=
  nth n l (Principal.Fails Timeout).

Definition mundo (l : list Principal.http_outcome) (s : Store.t)
  : Principal.world :=
  Principal.mk_world (script l) [] s (lit "2024-01-01T00:00:00").

Definition praca_da_se : list (str * json) :=
  [(lit "cep", JStr (lit "01001-000"));
   (lit "logradouro", JStr (lit "Praca da Se"));
   (lit "bairro", JStr (lit "Se"));
   (lit "localidade", JStr (lit "Sao Paulo"));
   (lit "uf", JStr (lit "SP"))].

Definition centro_rio : list (str * json) :=
  [(lit "cep", JStr (lit "20040-020"));
   (lit "logradouro", JStr []);
   (lit "bairro", JStr (lit "Centro"));
   (lit "localidade", JStr (lit "Rio de Janeiro"));
   (lit "uf", JStr (lit "RJ"))].

(** The body {"origem": "01001-000", "destino": "20040-020"}. *)
Definition pedido : option json :=
  Some (JObj [(lit "origem", JStr (lit "01001-000"));
              (lit "destino", JStr (lit "20040-020"))]).

(** A stored row with the given id and notes. *)
Definition linha (i : Z) (obs : option str) : Store.consulta :=
  Store.mk_consulta i (lit "01001-000") (lit "20040-020")
    (-23.5)%float (-46.625)%float (-22.875)%float (-43.125)%float
    357.75%float (lit "2024-01-01T00:00:00Z") obs.

End Exemplo.

(** ** Vocabulary of the statements *)

Import Principal.

(** A field of a normalized address: a string, or absent or null, which
    count as the empty string. *)
Definition campo_texto (d : list (str * json)) (k : str) (s : str) : Prop :=
  match Py.lookup k d with
  | None | Some JNull => s = []
  | Some (JStr s') => s = s'
  | Some _ => False
  end.

Definition nao_vazio (s : str) : bool := negb (is_empty s).

(** The world after one more outbound call. *)
Definition registra (rq : request) (w : world) : world :=
  mk_world (remote w) (calls w ++ [rq]) (db w) (utcnow w).

(** How the next outbound call of the process ends. *)
Definition proxima (w : world) : http_outcome :=
  remote w (List.length (calls w)).


(** The postal code the handler reads under key [k] of the body [d]:
    [str(body.get(k, "")).strip()]. *)
Definition cep_do_corpo {RT : Runtime} (d : list (str * json)) (k : str)
  : str :=
  strip (Py.to_str (match Py.lookup k d with
                    | Some v => v
                    | None => JStr []
                    end)).

(** The postal code under [k] is absent, or empty once trimmed. *)
Definition cep_ausente_ou_vazio {RT : Runtime} (d : list (str * json))
  (k : str) : Prop :=
  Py.lookup k d = None
  \/ exists v, Py.lookup k d = Some v /\ strip (Py.to_str v) = [].

(** The normalisation [via_cep] applies before the call. *)
Definition cep_normalizado (cep : str) : str :=
  strip (remove_char hyphen cep).

(** A computation that leaves the table as it found it. *)
Definition mantem_db {A : Type} (m : M A) : Prop :=
  forall w, db (snd (m w)) = db w.

(** A computation that touches the table only when it answers 200: then
    it has inserted exactly the row it reports, after a call to the
    delegate with the coordinates of that row; in every other case
    (another status, an exception) the table is unchanged. *)
Definition persiste_so_no_fim {RT : Runtime} (m : M response) : Prop :=
  forall w,
    match m w with
    | (Ok r, w') =>
        if (status r =? 200)%Z then
          exists novo_id co cd e1 e2 la1 lo1 la2 lo2 d ts oj obs pre,
            r = (Criada novo_id co cd e1 e2 la1 lo1 la2 lo2
                   (py_round d 3) ts oj, 200%Z)
            /\ bind_text oj = Ok obs
            /\ Store.insert co cd la1 lo1 la2 lo2 d ts obs (db w)
               = Ok (novo_id, db w')
            /\ calls w' = pre ++ [PostSecundaria la1 lo1 la2 lo2]
        else db w' = db w
    | (Raise _, w') => db w' = db w
    end.

(** The request passes the input check: the body is an object and both
    postal codes are non-empty once trimmed. *)
Definition entrada_valida {RT : Runtime} (req : option json)
  (d : list (str * json)) : Prop :=
  Py.body_or_empty req = JObj d
  /\ is_empty (cep_do_corpo d (lit "origem")) = false
  /\ is_empty (cep_do_corpo d (lit "destino")) = false.


(** The world of the examples in which both lookups and both geocodings
    succeed and the delegate's answer is [fim]. *)
Definition mundo_ate_delegado (fim : http_outcome) : world :=
  Exemplo.mundo
    [Exemplo.viacep_ok Exemplo.praca_da_se;
     Exemplo.viacep_ok Exemplo.centro_rio;
     Exemplo.nominatim_ok (-23.5) (-46.625);
     Exemplo.nominatim_ok (-22.875) (-43.125);
     fim]
    Store.empty.

(** The notes the handler reads from the body: [body.get("observacoes")]. *)
Definition observacoes_do_corpo (d : list (str * json)) : json :=
  match Py.lookup (lit "observacoes") d with
  | Some x => x
  | None => JNull
  end.

(** Steps 3 to 5 of [distancia_por_cep], the part of its body that follows
    the two geocodings, under a name. *)
Definition etapas_finais {RT : Runtime} (cep_origem cep_destino : str)
  (end_origem end_destino : json) (lat1 lon1 lat2 lon2 : float)
  (observacoes : json) : M response :=
  r <- http (PostSecundaria lat1 lon1 lat2 lon2) ;;
  if negb (status_code r =? 200)%Z
  then ret (ErroSecundaria (status_code r) (text r), 502%Z)
  else
    resultado <- json_of r ;;
    v <- lift (Py.get resultado (lit "distancia_km")) ;;
    distancia_km <- lift (Py.to_float v) ;;
    criado_em <- agora ;;
    novo_id <- db_insert cep_origem cep_destino lat1 lon1 lat2 lon2
                 distancia_km criado_em observacoes ;;
    ret (Criada novo_id cep_origem cep_destino end_origem end_destino
           lat1 lon1 lat2 lon2 (py_round distancia_km 3) criado_em
           observacoes, 200%Z).

(** Newest id first. *)
Definition mais_novo_antes (a b : Store.consulta) : Prop :=
  (Store.id b <= Store.id a)%Z.

(** The page GET /consultas is to return for the integers [limit] and
    [offset] of the query string: the rows by descending id, without the
    first [max(0, offset)], cut after [max(1, min(limit, 200))]. *)
Definition pagina (limit offset : Z) (s : Store.t) : list Store.consulta :=
  firstn (Z.to_nat (Z.max 1 (Z.min limit 200)))
    (skipn (Z.to_nat (Z.max 0 offset))
       (Store.order_by_id_desc (Store.rows s))).

(** Two rows that agree on every column but the notes. *)
Definition mesmos_campos (a b : Store.consulta) : Prop :=
  Store.id b = Store.id a
  /\ Store.cep_origem b = Store.cep_origem a
  /\ Store.cep_destino b = Store.cep_destino a
  /\ Store.lat1 b = Store.lat1 a
  /\ Store.lon1 b = Store.lon1 a
  /\ Store.lat2 b = Store.lat2 a
  /\ Store.lon2 b = Store.lon2 a
  /\ Store.distancia_km b = Store.distancia_km a
  /\ Store.criado_em b = Store.criado_em a.


(** A table with the rows 3, 1 and 2, the second with notes. *)
Definition tres_linhas : Store.t :=
  Store.mk [Exemplo.linha 3 None; Exemplo.linha 1 (Some (lit "antiga"));
            Exemplo.linha 2 None] 3.

(** The float [x ** 2] evaluates to when it raises nothing. *)
Definition quadrado {RT : Runtime} (x : float) : float :=
  if is_nan x then x
  else if is_infinity x then abs x
  else if (x =? 0)%float then 0%float
  else
    let iv := if (x <? 0)%float then (- x)%float else x in
    if (iv =? 1)%float then 1%float else libm_pow iv 2%float.

(** The haversine formula of the specification, in binary64 arithmetic
    and with the C library's functions: the four angles go from degrees
    to radians first, then
    a = sin²(Δlat/2) + cos(lat1)·cos(lat2)·sin²(Δlon/2),
    c = 2·asin(sqrt(a)), d = R·c with R = 6371.0. No step rounds to
    decimals. *)
Definition haversine_formula {RT : Runtime} (lat1 lon1 lat2 lon2 : float)
  : float :=
  let phi1 := Secundaria.radians lat1 in
  let lambda1 := Secundaria.radians lon1 in
  let phi2 := Secundaria.radians lat2 in
  let lambda2 := Secundaria.radians lon2 in
  let a :=
    (quadrado (libm_sin ((phi2 - phi1) / 2))
     + libm_cos phi1 * libm_cos phi2
       * quadrado (libm_sin ((lambda2 - lambda1) / 2)))%float in
  let c := (2 * libm_asin (PrimFloat.sqrt a))%float in
  (6371 * c)%float.

(** The values the formula goes through: the two half-angle sines and
    their squares, the two cosines, the square root and the arc sine. *)
Definition passos_da_formula {RT : Runtime} (lat1 lon1 lat2 lon2 : float)
  : list float :=
  let phi1 := Secundaria.radians lat1 in
  let lambda1 := Secundaria.radians lon1 in
  let phi2 := Secundaria.radians lat2 in
  let lambda2 := Secundaria.radians lon2 in
  let s1 := libm_sin ((phi2 - phi1) / 2)%float in
  let s2 := libm_sin ((lambda2 - lambda1) / 2)%float in
  let a :=
    (quadrado s1 + libm_cos phi1 * libm_cos phi2 * quadrado s2)%float in
  [s1; quadrado s1; libm_cos phi1; libm_cos phi2; s2; quadrado s2;
   PrimFloat.sqrt a; libm_asin (PrimFloat.sqrt a)].

(** A request body whose two blocks carry the values [v1 .. v4] as
    origem.lat, origem.lon, destino.lat and destino.lon. *)
Definition corpo_com (body : option json) (v1 v2 v3 v4 : json) : Prop :=
  exists d o dd,
    Py.body_or_empty body = JObj d
    /\ Py.lookup (lit "origem") d = Some (JObj o)
    /\ Py.lookup (lit "destino") d = Some (JObj dd)
    /\ Py.lookup (lit "lat") o = Some v1
    /\ Py.lookup (lit "lon") o = Some v2
    /\ Py.lookup (lit "lat") dd = Some v3
    /\ Py.lookup (lit "lon") dd = Some v4.

(** The body {"origem": {"lat", "lon"}, "destino": {"lat", "lon"}} with
    four floats. *)
Definition corpo_de (lat1 lon1 lat2 lon2 : float) : option json :=
  Some (JObj [(lit "origem", JObj [(lit "lat", JFloat lat1);
                                   (lit "lon", JFloat lon1)]);
              (lit "destino", JObj [(lit "lat", JFloat lat2);
                                    (lit "lon", JFloat lon2)])]).

(** Zero or a finite number, at the level of the binary64
    specification. *)
Definition SFfinite (x : spec_float) : Prop :=
  match x with
  | S754_zero _ | S754_finite _ _ _ => True
  | _ => False
  end.

(** [sin(d / 2) ** 2], the term the formula has for each of the two
    differences. *)
Definition meio_seno_quadrado {RT : Runtime} (d : float) : result float :=
  Secundaria.bind (Secundaria.sin (d / 2)%float) Secundaria.pow2.

(** The body of [haversine_km] after its two half-angle terms [h1], [h2]
    and its two cosines [k1], [k2], taken in the order the code
    evaluates them. *)
Definition nucleo {RT : Runtime} (h1 k1 k2 h2 : result float) : result float :=
  Secundaria.bind h1 (fun p1 =>
  Secundaria.bind k1 (fun c1 =>
  Secundaria.bind k2 (fun c2 =>
  Secundaria.bind h2 (fun p2 =>
  Secundaria.bind (Secundaria.sqrt (p1 + c1 * c2 * p2)%float) (fun q =>
  Secundaria.bind (Secundaria.asin q) (fun h =>
  Ok (Secundaria.R * (2 * h))%float)))))).

(** The ids of the rows of a table. *)
Definition ids (s : Store.t) : list Z := map Store.id (Store.rows s).

(** The state AUTOINCREMENT keeps the table in: no id twice, and no id
    above the counter. *)
Definition tabela_ok (s : Store.t) : Prop :=
  NoDup (ids s) /\ Forall (fun i => (i <= Store.seq s)%Z) (ids s).

(** The world of the examples in which the whole pipeline succeeds, the
    delegate answering 357.75 km. *)
Definition mundo_feliz : world :=
  mundo_ate_delegado (Exemplo.secundaria_ok 357.75).




(** The trimmed segments [geocode_osm] cuts a query into. *)
Definition partes_de (query : str) : list str :=
  map strip (split comma query).

(** The query of the fallback lookup. *)
Definition cidade_uf_de (query : str) : str :=
  join sep (last_n 3 (partes_de query)).

(** A string that neither starts nor ends with whitespace. *)
Definition aparado (s : str) : Prop :=
  match s with [] => True | c :: _ => is_space c = false end
  /\ match rev s with [] => True | c :: _ => is_space c = false end.

(** The four keys of an address [endereco_para_query] reads. *)
Definition chave_de_endereco (k : str) : Prop :=
  k = lit "logradouro" \/ k = lit "bairro" \/ k = lit "localidade"
  \/ k = lit "uf".

(** The world [w'] is [w] after the outbound calls [l], the services
    and the clock being the same. *)
Definition estende (w w' : world) (l : list request) : Prop :=
  remote w' = remote w /\ utcnow w' = utcnow w
  /\ calls w' = calls w ++ l.

Definition e_viacep (rq : request) : bool :=
  match rq with GetViaCep _ => true | _ => false end.

Definition e_nominatim (rq : request) : bool :=
  match rq with GetNominatim _ => true | _ => false end.

Definition e_secundaria (rq : request) : bool :=
  match rq with PostSecundaria _ _ _ _ => true | _ => false end.

(** The outbound calls of one request, by service: at most two postal
    lookups [vs], then at most four geocoder lookups [gs], then at most
    one call [ps] to the delegate; no geocoder lookup before both postal
    lookups, no call to the delegate before two geocoder lookups. *)
Definition roteiro (vs gs ps : list request) : Prop :=
  forallb e_viacep vs = true
  /\ forallb e_nominatim gs = true
  /\ forallb e_secundaria ps = true
  /\ (List.length vs <= 2)%nat
  /\ (List.length gs <= 4)%nat
  /\ (List.length ps <= 1)%nat
  /\ (gs <> [] -> List.length vs = 2%nat)
  /\ (ps <> [] -> (2 <= List.length gs)%nat).




(** The block the delegate reads under [k]: [data.get(k) or {}]. *)
Definition bloco_de (d : list (str * json)) (k : str) : json :=
  Py.or_else (match Py.lookup k d with Some x => x | None => JNull end)
    (JObj []).

(** A block that is an object with both coordinates. *)
Definition bloco_completo (b : json) : Prop :=
  exists o, b = JObj o
            /\ Py.contains o (lit "lat") = true
            /\ Py.contains o (lit "lon") = true.

(** The first exception of conversions made in order. *)
Fixpoint primeira_falha (l : list (result float)) : option exn :=
  match l with
  | [] => None
  | Ok _ :: r => primeira_falha r
  | Raise e :: _ => Some e
  end.

(** A runtime as that of the examples, with a sine and a cosine that
    follow the C standard on the special values: NaN on an infinity and
    on NaN. *)
Definition runtime_c : Runtime := {|
  float_of_str := fun _ => None;
  int_of_str := Exemplo.int_literal;
  repr_json := fun _ => lit "?";
  py_round := fun x _ => x;
  sqlite_text := fun _ => Raise DatabaseError;
  libm_sin := fun x => if is_finite x then x else nan;
  libm_cos := fun x => if is_finite x then 1%float else nan;
  libm_asin := fun x => x;
  libm_pow := fun x _ => (x * x)%float
|}.

(** A computation that, outside the table, only appends outbound calls
    to the log. *)
Definition so_acrescenta {A : Type} (m : M A) : Prop :=
  forall w, exists l, estende w (snd (m w)) l.

(** The table once the rows with id [i] carry the notes [obs]. *)
Definition com_observacoes (obs : option str) (i : Z) (s : Store.t)
  : Store.t :=
  Store.mk
    (map (fun r => if (Store.id r =? i)%Z then Store.set_observacoes obs r
                   else r) (Store.rows s))
    (Store.seq s).

(** The table without the rows with id [i]. *)
Definition sem_linha (i : Z) (s : Store.t) : Store.t :=
  Store.mk (filter (fun r => negb (Store.id r =? i)%Z) (Store.rows s))
    (Store.seq s).

(** * Properties *)

(** ** Strings *)


(** ** QueryBuilder: [endereco_para_query] *)

Lemma campo_texto_or_else (d : list (str * json)) (k s : str) :
  campo_texto d k s ->
  exists v, Py.get (JObj d) k = Ok v /\ Py.or_else v (JStr []) = JStr s.
Proof.
  unfold campo_texto, Py.get. intros H.
  destruct (Py.lookup k d) as [v|]; [|subst s; now exists JNull].
  exists v. split; [reflexivity|].
  destruct v; try contradiction; subst; [reflexivity|].
  unfold Py.or_else. simpl. now destruct s0.
Qed.

Lemma strs_of_truthy (l : list str) :
  strs_of (filter Py.truthy (map JStr l)) = Ok (filter nao_vazio l).
Proof.
  induction l as [|s l IH]; simpl; [reflexivity|].
  unfold nao_vazio at 1. destruct (negb (is_empty s)); simpl.
  - now rewrite IH.
  - exact IH.
Qed.

Lemma query_of_fields (d : list (str * json)) (s1 s2 s3 s4 : str) :
  campo_texto d (lit "logradouro") s1 ->
  campo_texto d (lit "bairro") s2 ->
  campo_texto d (lit "localidade") s3 ->
  campo_texto d (lit "uf") s4 ->
  endereco_para_query (JObj d)
  = Ok (join sep (filter nao_vazio [s1; s2; s3; s4; country])).
Proof.
  intros H1 H2 H3 H4.
  destruct (campo_texto_or_else _ _ _ H1) as (v1 & G1 & O1).
  destruct (campo_texto_or_else _ _ _ H2) as (v2 & G2 & O2).
  destruct (campo_texto_or_else _ _ _ H3) as (v3 & G3 & O3).
  destruct (campo_texto_or_else _ _ _ H4) as (v4 & G4 & O4).
  unfold endereco_para_query.
  rewrite G1, G2, G3, G4, O1, O2, O3, O4.
  change [JStr s1; JStr s2; JStr s3; JStr s4; JStr country]
    with (map JStr [s1; s2; s3; s4; country]).
  now rewrite strs_of_truthy.
Qed.

(** C7. For every normalized address (each of street, neighborhood,
    locality and region-code a string, null or absent) the query builder
    returns, without failing, the non-empty ones among street,
    neighborhood, locality, region-code and "Brazil", in that order,
    joined with ", "; an all-empty address gives "Brazil" alone; locality
    "São Paulo" with region "SP" gives "São Paulo, SP, Brazil". *)
Theorem endereco_para_query_spec :
  (forall (d : list (str * json)) (s1 s2 s3 s4 : str),
      campo_texto d (lit "logradouro") s1 ->
      campo_texto d (lit "bairro") s2 ->
      campo_texto d (lit "localidade") s3 ->
      campo_texto d (lit "uf") s4 ->
      endereco_para_query (JObj d)
      = Ok (join sep (filter nao_vazio [s1; s2; s3; s4; country])))
  /\ (forall d : list (str * json),
      campo_texto d (lit "logradouro") [] ->
      campo_texto d (lit "bairro") [] ->
      campo_texto d (lit "localidade") [] ->
      campo_texto d (lit "uf") [] ->
      endereco_para_query (JObj d) = Ok (lit "Brazil"))
  /\ endereco_para_query
       (JObj [(lit "localidade", JStr (lit "S" ++ [227%N] ++ lit "o Paulo"));
              (lit "uf", JStr (lit "SP"))])
     = Ok (lit "S" ++ [227%N] ++ lit "o Paulo, SP, Brazil").
Proof.
  split; [|split].
  - intros. now apply query_of_fields.
  - intros d H1 H2 H3 H4.
    now rewrite (query_of_fields _ _ _ _ _ H1 H2 H3 H4).
  - reflexivity.
Qed.

(** The builder applied to the address ViaCEP returns for 01001-000. *)
Lemma endereco_para_query_spec_witness :
  endereco_para_query (JObj Exemplo.praca_da_se)
  = Ok (lit "Praca da Se, Se, Sao Paulo, SP, Brazil").
Proof.
  rewrite (proj1 endereco_para_query_spec
             Exemplo.praca_da_se (lit "Praca da Se") (lit "Se")
             (lit "Sao Paulo") (lit "SP"));
    reflexivity.
Defined.

(** ** Geocoder: [geocode_osm] *)

Section Geocoder.
Context {RT : Runtime}.

Lemma http_world (rq : request) (w : world) :
  snd (http rq w) = registra rq w.
Proof. unfold http. now destruct (remote w (List.length (calls w))). Qed.

Lemma http_responds (rq : request) (w : world) (r : http_response) :
  proxima w = Responds r -> http rq w = (Ok r, registra rq w).
Proof. unfold http, proxima. now intros ->. Qed.

Lemma http_fails (rq : request) (w : world) (e : request_error) :
  proxima w = Fails e ->
  http rq w = (Raise (RequestException e), registra rq w).
Proof. unfold http, proxima. now intros ->. Qed.

Lemma proxima_registra (rq : request) (w : world) :
  proxima (registra rq w) = remote w (S (List.length (calls w))).
Proof.
  unfold proxima, registra. simpl. rewrite length_app. simpl.
  now rewrite Nat.add_1_r.
Qed.

(** One lookup is one call, whatever it ends in. *)
Lemma search_world (q : str) (w : world) :
  snd (_search q w) = registra (GetNominatim q) w.
Proof.
  unfold _search, bind. rewrite <- (http_world (GetNominatim q) w).
  destruct (http (GetNominatim q) w) as [[r|e] w1]; [|reflexivity]. simpl.
  unfold raise_for_status.
  destruct ((400 <=? status_code r) && (status_code r <? 600))%Z;
    [reflexivity|]. simpl.
  unfold json_of. destruct (json_body r) as [items|]; [|reflexivity]. simpl.
  destruct (Py.truthy items); [|reflexivity]. simpl.
  unfold lift.
  destruct (Py.getitem0 items) as [i0|]; [|reflexivity].
  destruct (Py.getitem i0 (lit "lat")) as [la|]; [|reflexivity].
  destruct (Py.to_float la); [|reflexivity].
  destruct (Py.getitem i0 (lit "lon")) as [lo|]; [|reflexivity].
  destruct (Py.to_float lo); reflexivity.
Qed.



End Geocoder.


(** ** The pipeline: [via_cep] and [distancia_por_cep] *)

Section Pipeline.
Context {RT : Runtime}.

Lemma via_cep_world (cep : str) (w : world) :
  snd (via_cep cep w) = registra (GetViaCep (cep_normalizado cep)) w.
Proof.
  unfold via_cep, bind, cep_normalizado.
  rewrite <- (http_world (GetViaCep (strip (remove_char hyphen cep))) w).
  destruct (http (GetViaCep (strip (remove_char hyphen cep))) w)
    as [[r|e] w1]; [|reflexivity]. simpl.
  destruct (negb (status_code r =? 200)%Z); [reflexivity|].
  unfold json_of. destruct (json_body r) as [data|]; [|reflexivity]. simpl.
  unfold lift. destruct (Py.get data (lit "erro")) as [erro|]; [|reflexivity].
  now destruct (Py.truthy erro).
Qed.

Lemma via_cep_fails (cep : str) (w : world) (e : request_error) :
  proxima w = Fails e ->
  via_cep cep w
  = (Raise (RequestException e), registra (GetViaCep (cep_normalizado cep)) w).
Proof.
  intros P. unfold via_cep, bind. now rewrite (http_fails _ _ _ P).
Qed.

Lemma via_cep_status (cep : str) (w : world) (r : http_response) :
  proxima w = Responds r ->
  status_code r <> 200%Z ->
  via_cep cep w
  = (Raise (ValueError (ViaCepHttp (status_code r))),
     registra (GetViaCep (cep_normalizado cep)) w).
Proof.
  intros P S. unfold via_cep, bind. rewrite (http_responds _ _ _ P).
  apply Z.eqb_neq in S. now rewrite S.
Qed.

Lemma via_cep_erro (cep : str) (w : world) (r : http_response)
  (data erro : json) :
  proxima w = Responds r ->
  status_code r = 200%Z ->
  json_body r = Some data ->
  Py.get data (lit "erro") = Ok erro ->
  via_cep cep w
  = (if Py.truthy erro then Raise (ValueError CepInvalido) else Ok data,
     registra (GetViaCep (cep_normalizado cep)) w).
Proof.
  intros P S B E. unfold via_cep, bind. rewrite (http_responds _ _ _ P).
  rewrite S. simpl. unfold json_of. rewrite B. simpl. unfold lift.
  rewrite E. now destruct (Py.truthy erro).
Qed.

Lemma mantem_db_ret {A : Type} (a : A) : mantem_db (ret a).
Proof. now intros w. Qed.

Lemma mantem_db_raise {A : Type} (e : exn) : mantem_db (@raise A e).
Proof. now intros w. Qed.

Lemma mantem_db_lift {A : Type} (r : result A) : mantem_db (lift r).
Proof. now intros w. Qed.

Lemma mantem_db_bind {A B : Type} (m : M A) (k : A -> M B) :
  mantem_db m -> (forall a, mantem_db (k a)) -> mantem_db (bind m k).
Proof.
  intros Hm Hk w. unfold bind. specialize (Hm w).
  destruct (m w) as [[a|e] w1]; simpl in *; [|exact Hm].
  now rewrite Hk.
Qed.

Lemma bind_str_ok (s s' : str) : Store.bind_str s = Ok s' -> s' = s.
Proof.
  unfold Store.bind_str. destruct (existsb _ s); [discriminate|].
  now intros [= <-].
Qed.

Lemma mantem_db_via_cep (cep : str) : mantem_db (via_cep cep).
Proof. intros w. now rewrite via_cep_world. Qed.

Lemma mantem_db_search (q : str) : mantem_db (_search q).
Proof. intros w. now rewrite search_world. Qed.

Lemma mantem_db_geocode (q : str) : mantem_db (geocode_osm q).
Proof.
  unfold geocode_osm. apply mantem_db_bind; [apply mantem_db_search|].
  intros [c|]; [apply mantem_db_ret|].
  destruct (3 <=? _)%nat; [|apply mantem_db_raise].
  apply mantem_db_bind; [apply mantem_db_search|].
  intros [c|]; [apply mantem_db_ret | apply mantem_db_raise].
Qed.

Lemma persiste_bind {A : Type} (m : M A) (k : A -> M response) :
  mantem_db m ->
  (forall a, persiste_so_no_fim (k a)) ->
  persiste_so_no_fim (bind m k).
Proof.
  intros Hm Hk w. unfold bind. specialize (Hm w).
  destruct (m w) as [[a|e] w1]; simpl in Hm; [|exact Hm].
  specialize (Hk a w1). rewrite Hm in Hk. exact Hk.
Qed.

Lemma persiste_ret (p : payload) (st : Z) :
  st <> 200%Z -> persiste_so_no_fim (ret (p, st)).
Proof.
  intros H w. unfold ret, status. simpl.
  apply Z.eqb_neq in H. now rewrite H.
Qed.

(** The tail of the handler, from the delegate's answer on. *)
Lemma persiste_delegado (co cd : str) (e1 e2 : json)
  (la1 lo1 la2 lo2 : float) (oj : json) :
  persiste_so_no_fim
    (r <- http (PostSecundaria la1 lo1 la2 lo2) ;;
     if negb (status_code r =? 200)%Z
     then ret (ErroSecundaria (status_code r) (text r), 502%Z)
     else
       resultado <- json_of r ;;
       v <- lift (Py.get resultado (lit "distancia_km")) ;;
       distancia_km <- lift (Py.to_float v) ;;
       criado_em <- agora ;;
       novo_id <- db_insert co cd la1 lo1 la2 lo2 distancia_km criado_em oj ;;
       ret (Criada novo_id co cd e1 e2 la1 lo1 la2 lo2
              (py_round distancia_km 3) criado_em oj, 200%Z)).
Proof.
  intros w. unfold bind at 1.
  pose proof (http_world (PostSecundaria la1 lo1 la2 lo2) w) as W.
  destruct (http (PostSecundaria la1 lo1 la2 lo2) w) as [[r|e] w1];
    simpl in W; subst w1; [|reflexivity].
  destruct (negb (status_code r =? 200)%Z); [reflexivity|].
  unfold bind, json_of, lift, agora, db_insert, ret, raise.
  destruct (json_body r) as [resultado|]; [|reflexivity].
  destruct (Py.get resultado (lit "distancia_km")) as [v|]; [|reflexivity].
  destruct (Py.to_float v) as [d|]; [|reflexivity].
  cbn [db utcnow registra].
  destruct (Store.bind_str co) as [co'|] eqn:Bo; [|reflexivity].
  apply bind_str_ok in Bo. subst co'.
  destruct (Store.bind_str cd) as [cd'|] eqn:Bd; [|reflexivity].
  apply bind_str_ok in Bd. subst cd'.
  destruct (Store.bind_str (utcnow w ++ lit "Z")) as [ts|] eqn:Bt;
    [|reflexivity].
  apply bind_str_ok in Bt. subst ts.
  destruct (bind_text oj) as [obs|] eqn:B; [|reflexivity].
  destruct (Store.insert _ _ _ _ _ _ _ _ _ _) as [[novo s]|] eqn:I;
    [|reflexivity].
  simpl.
  exists novo, co, cd, e1, e2, la1, lo1, la2, lo2, d,
    (utcnow w ++ lit "Z"), oj, obs, (calls w).
  repeat split; assumption.
Qed.

Lemma persiste_try (req : option json) :
  persiste_so_no_fim (distancia_por_cep_try req).
Proof.
  unfold distancia_por_cep_try.
  apply persiste_bind; [apply mantem_db_lift|]. intros o.
  apply persiste_bind; [apply mantem_db_lift|]. intros d.
  apply persiste_bind; [apply mantem_db_lift|]. intros oj.
  destruct (is_empty _ || is_empty _); [now apply persiste_ret|].
  apply persiste_bind; [apply mantem_db_via_cep|]. intros e1.
  apply persiste_bind; [apply mantem_db_via_cep|]. intros e2.
  apply persiste_bind; [apply mantem_db_lift|]. intros q1.
  apply persiste_bind; [apply mantem_db_lift|]. intros q2.
  apply persiste_bind; [apply mantem_db_geocode|]. intros [la1 lo1].
  apply persiste_bind; [apply mantem_db_geocode|]. intros [la2 lo2].
  apply persiste_delegado.
Qed.

Lemma traduz_erro_status (e : exn) : status (traduz_erro e) <> 200%Z.
Proof.
  unfold traduz_erro.
  destruct (is_ValueError e); [discriminate|].
  destruct (is_RequestException e); discriminate.
Qed.

(** What the handler computes before it looks at the postal codes. *)
Lemma distancia_por_cep_try_corpo (req : option json)
  (d : list (str * json)) (w : world) :
  Py.body_or_empty req = JObj d ->
  distancia_por_cep_try req w
  = (if is_empty (cep_do_corpo d (lit "origem"))
        || is_empty (cep_do_corpo d (lit "destino"))
     then ret (ErroEntrada, 400%Z)
     else
       end_origem <- via_cep (cep_do_corpo d (lit "origem")) ;;
       end_destino <- via_cep (cep_do_corpo d (lit "destino")) ;;
       q_origem <- lift (endereco_para_query end_origem) ;;
       q_destino <- lift (endereco_para_query end_destino) ;;
       ' (lat1, lon1) <- geocode_osm q_origem ;;
       ' (lat2, lon2) <- geocode_osm q_destino ;;
       r <- http (PostSecundaria lat1 lon1 lat2 lon2) ;;
       if negb (status_code r =? 200)%Z
       then ret (ErroSecundaria (status_code r) (text r), 502%Z)
       else
         resultado <- json_of r ;;
         v <- lift (Py.get resultado (lit "distancia_km")) ;;
         distancia_km <- lift (Py.to_float v) ;;
         criado_em <- agora ;;
         novo_id <- db_insert (cep_do_corpo d (lit "origem"))
                      (cep_do_corpo d (lit "destino")) lat1 lon1 lat2 lon2
                      distancia_km criado_em
                      (match Py.lookup (lit "observacoes") d with
                       | Some x => x
                       | None => JNull
                       end) ;;
         ret (Criada novo_id (cep_do_corpo d (lit "origem"))
                (cep_do_corpo d (lit "destino")) end_origem end_destino
                lat1 lon1 lat2 lon2 (py_round distancia_km 3) criado_em
                (match Py.lookup (lit "observacoes") d with
                 | Some x => x
                 | None => JNull
                 end), 200%Z)) w.
Proof.
  intros B. unfold distancia_por_cep_try. rewrite B. reflexivity.
Qed.

Lemma cep_vazio (d : list (str * json)) (k : str) :
  cep_ausente_ou_vazio d k -> is_empty (cep_do_corpo d k) = true.
Proof.
  unfold cep_ausente_ou_vazio, cep_do_corpo.
  intros [N | (v & L & E)].
  - now rewrite N.
  - now rewrite L, E.
Qed.

(** C3, as the code has it. When the body is a JSON object (an absent,
    undecodable or empty body counts as the empty object) in which
    either postal code has no key or is empty once [str()] of its value
    is trimmed, POST /distancia-por-cep answers 400 with the
    missing-input message and the world is exactly as before: no
    outbound call was made, no row stored. A body that decodes to a
    non-empty value other than an object has no postal code at all and
    is answered 500, the world again exactly as before. And for every
    request and world, the table changes only when the answer is 200, by
    the insertion of the one row the answer reports, made after the call
    to the delegate with that row's coordinates; with any other status
    the table is unchanged. *)
Theorem distancia_por_cep_persistencia :
  (forall (req : option json) (d : list (str * json)) (w : world),
      Py.body_or_empty req = JObj d ->
      cep_ausente_ou_vazio d (lit "origem")
      \/ cep_ausente_ou_vazio d (lit "destino") ->
      distancia_por_cep req w = ((ErroEntrada, 400%Z), w))
  /\ (forall (req : option json) (w : world),
      (forall d, Py.body_or_empty req <> JObj d) ->
      distancia_por_cep req w = ((ErroInesperado AttributeError, 500%Z), w))
  /\ (forall (req : option json) (w : world),
      let r := fst (distancia_por_cep req w) in
      let w' := snd (distancia_por_cep req w) in
      (status r <> 200%Z -> db w' = db w)
      /\ (status r = 200%Z ->
          exists novo_id co cd e1 e2 la1 lo1 la2 lo2 d ts oj obs pre,
            r = (Criada novo_id co cd e1 e2 la1 lo1 la2 lo2
                   (py_round d 3) ts oj, 200%Z)
            /\ bind_text oj = Ok obs
            /\ Store.insert co cd la1 lo1 la2 lo2 d ts obs (db w)
               = Ok (novo_id, db w')
            /\ calls w' = pre ++ [PostSecundaria la1 lo1 la2 lo2])).
Proof.
  split; [|split].
  - intros req d w B H. unfold distancia_por_cep.
    rewrite (distancia_por_cep_try_corpo req d w B).
    destruct H as [H | H]; apply cep_vazio in H; rewrite H; simpl.
    + reflexivity.
    + now rewrite orb_true_r.
  - intros req w H. unfold distancia_por_cep, distancia_por_cep_try.
    destruct (Py.body_or_empty req); try reflexivity.
    now elim (H fields).
  - intros req w r w'. subst r w'. unfold distancia_por_cep.
    pose proof (persiste_try req w) as P.
    destruct (distancia_por_cep_try req w) as [[r|e] w1]; simpl.
    + destruct (status r =? 200)%Z eqn:S.
      * split; [intros N; apply Z.eqb_eq in S; contradiction|].
        intros _. exact P.
      * split; [intros _; exact P|].
        intros E. apply Z.eqb_neq in S. contradiction.
    + split; [intros _; exact P|].
      intros E. now apply traduz_erro_status in E.
Qed.

End Pipeline.

(** A body that is the list [1] carries no postal code, and the answer
    is 500, not the 400 of a missing input. *)
Lemma distancia_por_cep_corpo_lista :
  distancia_por_cep (RT := Exemplo.runtime) (Some (JArr [JInt 1]))
    (Exemplo.mundo [] Store.empty)
  = ((ErroInesperado AttributeError, 500%Z), Exemplo.mundo [] Store.empty)
  /\ (ErroInesperado AttributeError, 500%Z) <> (ErroEntrada, 400%Z).
Proof. split; [reflexivity | discriminate]. Qed.

(** The spec's example, an empty origin, is refused before any call; and
    a run in which the geocoder finds nothing for the origin ends with
    the table as it was. *)
Lemma distancia_por_cep_persistencia_witness :
  distancia_por_cep (RT := Exemplo.runtime)
    (Some (JObj [(lit "origem", JStr []);
                 (lit "destino", JStr (lit "20040-020"))]))
    (Exemplo.mundo [] Store.empty)
  = ((ErroEntrada, 400%Z), Exemplo.mundo [] Store.empty)
  /\ db (snd (distancia_por_cep (RT := Exemplo.runtime) Exemplo.pedido
                (Exemplo.mundo
                   [Exemplo.viacep_ok Exemplo.praca_da_se;
                    Exemplo.viacep_ok Exemplo.centro_rio;
                    Exemplo.nominatim_vazio; Exemplo.nominatim_vazio]
                   tres_linhas)))
     = tres_linhas.
Proof.
  split.
  - apply (proj1 (distancia_por_cep_persistencia (RT := Exemplo.runtime)))
      with (d := [(lit "origem", JStr []);
                  (lit "destino", JStr (lit "20040-020"))]).
    + reflexivity.
    + left. right. exists (JStr []). split; reflexivity.
  - apply (proj2 (proj2 (distancia_por_cep_persistencia
                           (RT := Exemplo.runtime)))
             Exemplo.pedido
             (Exemplo.mundo
                [Exemplo.viacep_ok Exemplo.praca_da_se;
                 Exemplo.viacep_ok Exemplo.centro_rio;
                 Exemplo.nominatim_vazio; Exemplo.nominatim_vazio]
                tres_linhas)).
    vm_compute. discriminate.
Defined.

(** ** Failures of the address lookup *)

Section FalhasDoViaCep.
Context {RT : Runtime}.

Lemma falha_na_origem (req : option json) (d : list (str * json))
  (w w1 : world) (e : exn) :
  entrada_valida req d ->
  via_cep (cep_do_corpo d (lit "origem")) w = (Raise e, w1) ->
  distancia_por_cep req w = (traduz_erro e, w1).
Proof.
  intros (B & O & D) V. unfold distancia_por_cep.
  rewrite (distancia_por_cep_try_corpo req d w B), O, D. simpl.
  unfold bind at 1. now rewrite V.
Qed.

Lemma falha_no_destino (req : option json) (d : list (str * json))
  (w w1 w2 : world) (e1 : json) (e : exn) :
  entrada_valida req d ->
  via_cep (cep_do_corpo d (lit "origem")) w = (Ok e1, w1) ->
  via_cep (cep_do_corpo d (lit "destino")) w1 = (Raise e, w2) ->
  distancia_por_cep req w = (traduz_erro e, w2).
Proof.
  intros (B & O & D) V1 V2. unfold distancia_por_cep.
  rewrite (distancia_por_cep_try_corpo req d w B), O, D. simpl.
  unfold bind at 1. rewrite V1. unfold bind at 1. now rewrite V2.
Qed.

(** How one lookup that does not succeed ends, by the outcome of its
    call. *)
Lemma via_cep_falha (cep : str) (w : world) :
  (forall e, proxima w = Fails e ->
     exists x,
       via_cep cep w
       = (Raise x, registra (GetViaCep (cep_normalizado cep)) w)
               /\ traduz_erro x = (ErroExterno (RequestException e), 502%Z))
  /\ (forall r, proxima w = Responds r -> status_code r <> 200%Z ->
     exists x,
       via_cep cep w
       = (Raise x, registra (GetViaCep (cep_normalizado cep)) w)
               /\ traduz_erro x
                  = (ErroValor (ValueError (ViaCepHttp (status_code r))),
                     400%Z))
  /\ (forall r data erro, proxima w = Responds r -> status_code r = 200%Z ->
     json_body r = Some data -> Py.get data (lit "erro") = Ok erro ->
     Py.truthy erro = true ->
     exists x,
       via_cep cep w
       = (Raise x, registra (GetViaCep (cep_normalizado cep)) w)
               /\ traduz_erro x = (ErroValor (ValueError CepInvalido), 400%Z)).
Proof.
  split; [|split].
  - intros e P. exists (RequestException e).
    split; [exact (via_cep_fails cep w e P) | reflexivity].
  - intros r P S. exists (ValueError (ViaCepHttp (status_code r))).
    split; [exact (via_cep_status cep w r P S) | reflexivity].
  - intros r data erro P S B E T. exists (ValueError CepInvalido).
    split; [|reflexivity].
    rewrite (via_cep_erro cep w r data erro P S B E). now rewrite T.
Qed.

(** C1, as the code has it. For a request that passes the input check:
    when the call to ViaCEP for the origin times out or fails in
    transport, POST /distancia-por-cep answers 502; when ViaCEP answers
    with a status other than 200, it answers 400, with the [ValueError]
    that names the status; when ViaCEP answers 200 and flags the code
    ("erro" truthy), it answers 400 with the invalid-code message. The
    same three hold for the destination's lookup once the origin's has
    succeeded. *)
Theorem distancia_por_cep_falha_viacep (req : option json)
  (d : list (str * json)) (w : world) :
  entrada_valida req d ->
  ((forall e, proxima w = Fails e ->
      fst (distancia_por_cep req w)
      = (ErroExterno (RequestException e), 502%Z))
   /\ (forall r, proxima w = Responds r -> status_code r <> 200%Z ->
      fst (distancia_por_cep req w)
      = (ErroValor (ValueError (ViaCepHttp (status_code r))), 400%Z))
   /\ (forall r data erro, proxima w = Responds r ->
      status_code r = 200%Z -> json_body r = Some data ->
      Py.get data (lit "erro") = Ok erro -> Py.truthy erro = true ->
      fst (distancia_por_cep req w)
      = (ErroValor (ValueError CepInvalido), 400%Z)))
  /\ (forall r1 e1 erro1,
      proxima w = Responds r1 -> status_code r1 = 200%Z ->
      json_body r1 = Some e1 -> Py.get e1 (lit "erro") = Ok erro1 ->
      Py.truthy erro1 = false ->
      let segunda := remote w (S (List.length (calls w))) in
      (forall e, segunda = Fails e ->
         fst (distancia_por_cep req w)
         = (ErroExterno (RequestException e), 502%Z))
      /\ (forall r, segunda = Responds r -> status_code r <> 200%Z ->
         fst (distancia_por_cep req w)
         = (ErroValor (ValueError (ViaCepHttp (status_code r))), 400%Z))
      /\ (forall r data erro, segunda = Responds r ->
         status_code r = 200%Z -> json_body r = Some data ->
         Py.get data (lit "erro") = Ok erro -> Py.truthy erro = true ->
         fst (distancia_por_cep req w)
         = (ErroValor (ValueError CepInvalido), 400%Z))).
Proof.
  intros V.
  destruct (via_cep_falha (cep_do_corpo d (lit "origem")) w)
    as (F1 & F2 & F3).
  split; [split; [|split]|].
  - intros e P. destruct (F1 e P) as (x & R & T).
    now rewrite (falha_na_origem req d w _ x V R), <- T.
  - intros r P S. destruct (F2 r P S) as (x & R & T).
    now rewrite (falha_na_origem req d w _ x V R), <- T.
  - intros r data erro P S B E Tr.
    destruct (F3 r data erro P S B E Tr) as (x & R & T).
    now rewrite (falha_na_origem req d w _ x V R), <- T.
  - intros r1 e1 erro1 P1 S1 B1 E1 T1 segunda.
    pose proof (via_cep_erro (cep_do_corpo d (lit "origem")) w r1 e1 erro1
                  P1 S1 B1 E1) as R1.
    rewrite T1 in R1.
    set (w1 := registra
                 (GetViaCep (cep_normalizado (cep_do_corpo d (lit "origem"))))
                 w) in *.
    assert (P2 : proxima w1 = segunda) by apply proxima_registra.
    destruct (via_cep_falha (cep_do_corpo d (lit "destino")) w1)
      as (G1 & G2 & G3).
    split; [|split].
    + intros e P. rewrite <- P2 in P. destruct (G1 e P) as (x & R & T).
      now rewrite (falha_no_destino req d w w1 _ e1 x V R1 R), <- T.
    + intros r P S. rewrite <- P2 in P. destruct (G2 r P S) as (x & R & T).
      now rewrite (falha_no_destino req d w w1 _ e1 x V R1 R), <- T.
    + intros r data erro P S B E Tr. rewrite <- P2 in P.
      destruct (G3 r data erro P S B E Tr) as (x & R & T).
      now rewrite (falha_no_destino req d w w1 _ e1 x V R1 R), <- T.
Qed.

End FalhasDoViaCep.

(** ViaCEP answers the origin's lookup with HTTP 503: the endpoint
    answers 400, not 502. *)
Lemma distancia_por_cep_viacep_503 :
  proxima (Exemplo.mundo
             [Responds (mk_response 503 None (lit "Service Unavailable"))]
             Store.empty)
  = Responds (mk_response 503 None (lit "Service Unavailable"))
  /\ fst (distancia_por_cep (RT := Exemplo.runtime) Exemplo.pedido
            (Exemplo.mundo
               [Responds (mk_response 503 None (lit "Service Unavailable"))]
               Store.empty))
     = (ErroValor (ValueError (ViaCepHttp 503)), 400%Z)
  /\ status (fst (distancia_por_cep (RT := Exemplo.runtime) Exemplo.pedido
                    (Exemplo.mundo
                       [Responds (mk_response 503 None
                                    (lit "Service Unavailable"))]
                       Store.empty)))
     <> 502%Z.
Proof.
  split; [reflexivity|]. split; [reflexivity|]. vm_compute. discriminate.
Qed.

(** The same run through the theorem: status 503 from ViaCEP, 400 from
    the endpoint. *)
Lemma distancia_por_cep_falha_viacep_witness :
  fst (distancia_por_cep (RT := Exemplo.runtime) Exemplo.pedido
         (Exemplo.mundo
            [Responds (mk_response 503 None (lit "Service Unavailable"))]
            Store.empty))
  = (ErroValor (ValueError (ViaCepHttp 503)), 400%Z).
Proof.
  refine (proj1 (proj2 (proj1
            (distancia_por_cep_falha_viacep (RT := Exemplo.runtime)
               Exemplo.pedido
               [(lit "origem", JStr (lit "01001-000"));
                (lit "destino", JStr (lit "20040-020"))]
               (Exemplo.mundo
                  [Responds (mk_response 503 None
                               (lit "Service Unavailable"))]
                  Store.empty) _)))
            (mk_response 503 None (lit "Service Unavailable")) _ _).
  - repeat split.
  - reflexivity.
  - discriminate.
Defined.

(** ** The answer of the distance delegate *)

Section Delegado.
Context {RT : Runtime}.



End Delegado.



(** ** The record store *)

Lemma insert_desc_perm (r : Store.consulta) (l : list Store.consulta) :
  Permutation (Store.insert_desc r l) (r :: l).
Proof.
  induction l as [|x l IH]; simpl; [apply Permutation_refl|].
  destruct (Store.id x <=? Store.id r)%Z; [apply Permutation_refl|].
  eapply perm_trans; [apply perm_skip, IH | apply perm_swap].
Qed.

Lemma order_by_id_desc_perm (l : list Store.consulta) :
  Permutation (Store.order_by_id_desc l) l.
Proof.
  induction l as [|x l IH]; simpl; [apply perm_nil|].
  eapply perm_trans; [apply insert_desc_perm | now apply perm_skip].
Qed.

Lemma insert_desc_forall (P : Store.consulta -> Prop) (r : Store.consulta)
  (l : list Store.consulta) :
  P r -> Forall P l -> Forall P (Store.insert_desc r l).
Proof.
  intros Hr Hl. eapply Permutation_Forall.
  - apply Permutation_sym, insert_desc_perm.
  - now constructor.
Qed.

Lemma insert_desc_sorted (r : Store.consulta) (l : list Store.consulta) :
  StronglySorted mais_novo_antes l ->
  StronglySorted mais_novo_antes (Store.insert_desc r l).
Proof.
  induction 1 as [|x l Hs IH Hx]; simpl.
  - constructor; constructor.
  - destruct (Store.id x <=? Store.id r)%Z eqn:E.
    + apply Z.leb_le in E. constructor; [now constructor|].
      constructor; [exact E|].
      eapply Forall_impl; [|exact Hx].
      intros a Ha. unfold mais_novo_antes in *. lia.
    + apply Z.leb_gt in E. constructor; [exact IH|].
      apply insert_desc_forall; [|exact Hx].
      unfold mais_novo_antes. lia.
Qed.

Lemma order_by_id_desc_sorted (l : list Store.consulta) :
  StronglySorted mais_novo_antes (Store.order_by_id_desc l).
Proof.
  induction l as [|x l IH]; simpl; [constructor|].
  now apply insert_desc_sorted.
Qed.

Lemma sorted_skipn (n : nat) (l : list Store.consulta) :
  StronglySorted mais_novo_antes l ->
  StronglySorted mais_novo_antes (skipn n l).
Proof.
  revert l. induction n as [|n IH]; intros l H; [exact H|].
  destruct l as [|x l]; [constructor|]. simpl. apply IH.
  now inversion H.
Qed.

Lemma sorted_firstn (n : nat) (l : list Store.consulta) :
  StronglySorted mais_novo_antes l ->
  StronglySorted mais_novo_antes (firstn n l).
Proof.
  revert l. induction n as [|n IH]; intros l H; [constructor|].
  destruct l as [|x l]; [constructor|]. simpl.
  inversion H as [|? ? Hs Hx]; subst. constructor; [now apply IH|].
  apply Forall_forall. intros a Ha.
  rewrite Forall_forall in Hx. apply Hx.
  rewrite <- (firstn_skipn n l). apply in_or_app. now left.
Qed.

Lemma bind_int_ok (z : Z) :
  (- 9223372036854775808 <= z <= 9223372036854775807)%Z ->
  Store.bind_int z = Ok z.
Proof.
  intros [A B]. unfold Store.bind_int, Store.int64.
  apply Z.leb_le in A, B. now rewrite A, B.
Qed.

Lemma bind_int_raise (z : Z) :
  (z < - 9223372036854775808 \/ 9223372036854775807 < z)%Z ->
  Store.bind_int z = Raise OverflowError.
Proof.
  intros H. unfold Store.bind_int, Store.int64.
  destruct (Z.leb_spec (- 9223372036854775808) z);
    destruct (Z.leb_spec z 9223372036854775807); try reflexivity; lia.
Qed.

Lemma bind_int_cases (z z' : Z) :
  Store.bind_int z = Ok z' ->
  z' = z /\ (- 9223372036854775808 <= z <= 9223372036854775807)%Z.
Proof.
  unfold Store.bind_int, Store.int64.
  destruct (Z.leb_spec (- 9223372036854775808) z);
    destruct (Z.leb_spec z 9223372036854775807); try discriminate.
  intros [= <-]. split; [reflexivity | lia].
Qed.

Section Consultas.
Context {RT : Runtime}.

Lemma select_page_pagina (l o : Z) (s : Store.t) :
  (o <= 9223372036854775807)%Z ->
  Store.select_page (clamp_limit l) (clamp_offset o) s = Ok (pagina l o s).
Proof.
  intros H.
  unfold Store.select_page, Store.limit_offset, pagina, clamp_limit,
    clamp_offset.
  rewrite !bind_int_ok by lia.
  destruct (Z.max 1 (Z.min l 200) <? 0)%Z eqn:E; [|reflexivity].
  apply Z.ltb_lt in E. lia.
Qed.

Lemma select_page_overflow (l o : Z) (s : Store.t) :
  (9223372036854775807 < o)%Z ->
  Store.select_page (clamp_limit l) (clamp_offset o) s
  = Raise OverflowError.
Proof.
  intros H.
  unfold Store.select_page, Store.limit_offset, clamp_limit, clamp_offset.
  rewrite bind_int_ok by lia. now rewrite bind_int_raise by lia.
Qed.

(** C8, as the code has it. For every integer [limit] and every integer
    [offset] below 2^63 given in the query string (50 and 0 when
    absent), GET /consultas answers 200 with the rows by descending id,
    without the first [offset'] and cut after [limit'], where [limit'] is
    [limit] clamped into 1..200 and [offset'] is [offset] clamped to be
    at least 0; the world is unchanged. So limit=9999 returns at most 200
    items and limit=0 at most 1 (exactly 1 when a row is left after the
    offset). The offset has no upper clamp: from 2^63 on sqlite3 cannot
    bind it and the answer is 500, the world unchanged. *)
Theorem listar_consultas_spec (limit offset : option str) (l o : Z)
  (w : world) :
  int_arg limit 50 = Ok l ->
  int_arg offset 0 = Ok o ->
  let itens := pagina l o (db w) in
  let limit' := clamp_limit l in
  let offset' := clamp_offset o in
  ((o <= 9223372036854775807)%Z ->
   listar_consultas limit offset w
   = ((Lista (List.length itens) itens, 200%Z), w))
  /\ ((9223372036854775807 < o)%Z ->
      listar_consultas limit offset w
      = ((ErroInesperado OverflowError, 500%Z), w))
  /\ (limit = None -> l = 50%Z) /\ (offset = None -> o = 0%Z)
  /\ (1 <= limit' <= 200)%Z
  /\ ((1 <= l <= 200)%Z -> limit' = l)
  /\ ((l < 1)%Z -> limit' = 1%Z) /\ ((200 < l)%Z -> limit' = 200%Z)
  /\ (0 <= offset')%Z
  /\ ((0 <= o)%Z -> offset' = o) /\ ((o < 0)%Z -> offset' = 0%Z)
  /\ itens = firstn (Z.to_nat limit')
               (skipn (Z.to_nat offset')
                  (Store.order_by_id_desc (Store.rows (db w))))
  /\ StronglySorted mais_novo_antes
       (Store.order_by_id_desc (Store.rows (db w)))
  /\ Permutation (Store.order_by_id_desc (Store.rows (db w)))
       (Store.rows (db w))
  /\ StronglySorted mais_novo_antes itens
  /\ (List.length itens <= Z.to_nat limit')%nat
  /\ (l = 9999%Z -> (List.length itens <= 200)%nat)
  /\ (l = 0%Z -> (List.length itens <= 1)%nat)
  /\ (l = 0%Z ->
      (Z.to_nat offset' < List.length (Store.rows (db w)))%nat ->
      List.length itens = 1%nat).
Proof.
  intros Hl Ho itens limit' offset'.
  assert (Hlen : (List.length itens <= Z.to_nat limit')%nat)
    by (unfold itens, pagina; apply firstn_le_length).
  split.
  { intros B. unfold listar_consultas. rewrite Hl, Ho.
    now rewrite (select_page_pagina l o (db w) B). }
  split.
  { intros B. unfold listar_consultas. rewrite Hl, Ho.
    now rewrite (select_page_overflow l o (db w) B). }
  split. { intros ->. simpl in Hl. now injection Hl as <-. }
  split. { intros ->. simpl in Ho. now injection Ho as <-. }
  unfold limit', offset', clamp_limit, clamp_offset in *.
  split; [lia|]. split; [lia|]. split; [lia|]. split; [lia|].
  split; [lia|]. split; [lia|]. split; [lia|].
  split; [reflexivity|].
  split; [apply order_by_id_desc_sorted|].
  split; [apply order_by_id_desc_perm|].
  split.
  { apply sorted_firstn, sorted_skipn, order_by_id_desc_sorted. }
  split; [exact Hlen|].
  split. { intros ->. simpl in Hlen. lia. }
  split. { intros ->. simpl in Hlen. lia. }
  intros -> Hoff. unfold itens, pagina. simpl Z.to_nat.
  rewrite length_firstn, length_skipn.
  rewrite (Permutation_length (order_by_id_desc_perm _)).
  change (Z.to_nat (Z.max 1 (Z.min 0 200))) with 1%nat. lia.
Qed.

End Consultas.

(** GET /consultas?offset=9223372036854775808, the integer 2^63, on a
    table of three rows: the answer is 500, not a page. *)
Lemma listar_consultas_offset_2_63 :
  int_arg (RT := Exemplo.runtime) (Some (lit "9223372036854775808")) 0
  = Ok 9223372036854775808%Z
  /\ fst (listar_consultas (RT := Exemplo.runtime) None
            (Some (lit "9223372036854775808"))
            (Exemplo.mundo [] tres_linhas))
     = (ErroInesperado OverflowError, 500%Z)
  /\ status (fst (listar_consultas (RT := Exemplo.runtime) None
                    (Some (lit "9223372036854775808"))
                    (Exemplo.mundo [] tres_linhas))) <> 200%Z.
Proof.
  split; [reflexivity|]. split; [reflexivity|]. vm_compute. discriminate.
Qed.

(** GET /consultas?limit=9999 and ?limit=0 on a table of three rows. *)
Lemma listar_consultas_spec_witness :
  fst (listar_consultas (RT := Exemplo.runtime) (Some (lit "9999")) None
         (Exemplo.mundo [] tres_linhas))
  = (Lista 3 [Exemplo.linha 3 None; Exemplo.linha 2 None;
              Exemplo.linha 1 (Some (lit "antiga"))], 200%Z)
  /\ fst (listar_consultas (RT := Exemplo.runtime) (Some (lit "0")) None
            (Exemplo.mundo [] tres_linhas))
     = (Lista 1 [Exemplo.linha 3 None], 200%Z).
Proof.
  split.
  - rewrite (proj1 (listar_consultas_spec (RT := Exemplo.runtime)
                      (Some (lit "9999")) None 9999 0
                      (Exemplo.mundo [] tres_linhas) eq_refl eq_refl));
      [reflexivity | vm_compute; discriminate].
  - rewrite (proj1 (listar_consultas_spec (RT := Exemplo.runtime)
                      (Some (lit "0")) None 0 0
                      (Exemplo.mundo [] tres_linhas) eq_refl eq_refl));
      [reflexivity | vm_compute; discriminate].
Defined.

(** ** PUT /consultas/<id> *)

Lemma set_observacoes_campos (obs : option str) (a : Store.consulta) :
  mesmos_campos a (Store.set_observacoes obs a)
  /\ Store.observacoes (Store.set_observacoes obs a) = obs.
Proof. repeat split. Qed.

Lemma mesmos_campos_refl (a : Store.consulta) : mesmos_campos a a.
Proof. repeat split. Qed.

Lemma update_frame (obs : option str) (i : Z) (l : list Store.consulta) :
  Forall2 (fun a b => mesmos_campos a b /\ (Store.id a <> i -> b = a)) l
    (map (fun r => if (Store.id r =? i)%Z then Store.set_observacoes obs r
                   else r) l).
Proof.
  induction l as [|a l IH]; simpl; constructor; [|exact IH].
  destruct (Store.id a =? i)%Z eqn:E.
  - split; [apply set_observacoes_campos|].
    intros N. apply Z.eqb_eq in E. contradiction.
  - split; [apply mesmos_campos_refl | reflexivity].
Qed.

Lemma forall2_same (l : list Store.consulta) (i : Z) :
  Forall2 (fun a b => mesmos_campos a b /\ (Store.id a <> i -> b = a)) l l.
Proof.
  induction l as [|a l IH]; constructor; [|exact IH].
  split; [apply mesmos_campos_refl | reflexivity].
Qed.

Lemma find_update (obs : option str) (i : Z) (l : list Store.consulta) :
  find (fun r => (Store.id r =? i)%Z)
    (map (fun r => if (Store.id r =? i)%Z then Store.set_observacoes obs r
                   else r) l)
  = option_map (Store.set_observacoes obs)
      (find (fun r => (Store.id r =? i)%Z) l).
Proof.
  induction l as [|a l IH]; simpl; [reflexivity|].
  destruct (Store.id a =? i)%Z eqn:E; simpl; rewrite E; [reflexivity|].
  exact IH.
Qed.

Lemma filter_find_some (i : Z) (l : list Store.consulta)
  (row : Store.consulta) :
  find (fun r => (Store.id r =? i)%Z) l = Some row ->
  List.length (filter (fun r => (Store.id r =? i)%Z) l) <> 0%nat.
Proof.
  induction l as [|a l IH]; simpl; [discriminate|].
  destruct (Store.id a =? i)%Z; [discriminate | exact IH].
Qed.

Lemma filter_find_none (i : Z) (l : list Store.consulta) :
  find (fun r => (Store.id r =? i)%Z) l = None ->
  filter (fun r => (Store.id r =? i)%Z) l = []
  /\ map (fun r => if (Store.id r =? i)%Z
                   then Store.set_observacoes None r else r) l = l.
Proof.
  induction l as [|a l IH]; simpl; [now split|].
  destruct (Store.id a =? i)%Z; [discriminate|].
  intros H. destruct (IH H) as [F M]. split; [exact F|].
  now rewrite M.
Qed.

Lemma map_update_none (obs : option str) (i : Z) (l : list Store.consulta) :
  find (fun r => (Store.id r =? i)%Z) l = None ->
  map (fun r => if (Store.id r =? i)%Z
                then Store.set_observacoes obs r else r) l = l.
Proof.
  induction l as [|a l IH]; simpl; [reflexivity|].
  destruct (Store.id a =? i)%Z; [discriminate|].
  intros H. now rewrite (IH H).
Qed.

Lemma select_one_ok (i : Z) (s : Store.t) :
  (- 9223372036854775808 <= i <= 9223372036854775807)%Z ->
  Store.select_one i s
  = Ok (find (fun r => (Store.id r =? i)%Z) (Store.rows s)).
Proof. intros H. unfold Store.select_one. now rewrite (bind_int_ok i H). Qed.

Lemma select_one_cases (i : Z) (s : Store.t) (x : option Store.consulta) :
  Store.select_one i s = Ok x ->
  (- 9223372036854775808 <= i <= 9223372036854775807)%Z
  /\ find (fun r => (Store.id r =? i)%Z) (Store.rows s) = x.
Proof.
  unfold Store.select_one.
  destruct (Store.bind_int i) as [j|] eqn:B; [|discriminate].
  apply bind_int_cases in B. destruct B as [-> R].
  intros [= <-]. now split.
Qed.

Lemma select_one_raise (i : Z) (s : Store.t) :
  (i < - 9223372036854775808 \/ 9223372036854775807 < i)%Z ->
  Store.select_one i s = Raise OverflowError.
Proof.
  intros H. unfold Store.select_one. now rewrite (bind_int_raise i H).
Qed.

Lemma update_observacoes_ok (obs : option str) (i : Z) (s : Store.t) :
  (- 9223372036854775808 <= i <= 9223372036854775807)%Z ->
  Store.update_observacoes obs i s
  = Ok (List.length (filter (fun r => (Store.id r =? i)%Z) (Store.rows s)),
        com_observacoes obs i s).
Proof.
  intros H. unfold Store.update_observacoes. now rewrite (bind_int_ok i H).
Qed.

Lemma update_observacoes_raise (obs : option str) (i : Z) (s : Store.t) :
  (i < - 9223372036854775808 \/ 9223372036854775807 < i)%Z ->
  Store.update_observacoes obs i s = Raise OverflowError.
Proof.
  intros H. unfold Store.update_observacoes.
  now rewrite (bind_int_raise i H).
Qed.

Lemma int64_or_not (i : Z) :
  (- 9223372036854775808 <= i <= 9223372036854775807)%Z
  \/ (i < - 9223372036854775808 \/ 9223372036854775807 < i)%Z.
Proof. lia. Qed.

Section Atualizar.
Context {RT : Runtime}.

(** The handler once the notes are read and bound. *)
Lemma atualizar_consulta_run (cid : Z) (req : option json)
  (d : list (str * json)) (obs : option str) (w : world) :
  Py.body_or_empty req = JObj d ->
  bind_text (observacoes_do_corpo d) = Ok obs ->
  atualizar_consulta cid req w
  = let w' := mk_world (remote w) (calls w)
                (com_observacoes obs cid (db w)) (utcnow w) in
    match Store.select_one cid (db w) with
    | Raise e => ((ErroInterno e, 500%Z), w)
    | Ok (Some row) =>
        ((Registro (Store.set_observacoes obs row), 200%Z), w')
    | Ok None => ((NaoEncontrada, 404%Z), w')
    end.
Proof.
  intros B T. unfold atualizar_consulta. rewrite B.
  unfold Py.get, observacoes_do_corpo in *. rewrite T.
  destruct (int64_or_not cid) as [R | R].
  - rewrite (update_observacoes_ok obs cid _ R), (select_one_ok cid _ R).
    rewrite (select_one_ok cid _ R). unfold com_observacoes.
    cbn [Store.rows]. rewrite find_update.
    destruct (find (fun r => (Store.id r =? cid)%Z) (Store.rows (db w)))
      as [row|] eqn:F.
    + apply filter_find_some in F. apply Nat.eqb_neq in F. now rewrite F.
    + apply filter_find_none in F. destruct F as [F _]. now rewrite F.
  - now rewrite (update_observacoes_raise obs cid _ R),
      (select_one_raise cid _ R).
Qed.

(** C9, as the code has it. PUT /consultas/<id> never changes anything
    but notes: for every request, each row of the table is afterwards
    the same row in every column except [observacoes], rows with another
    id are identical, and the id counter, the remote side and the clock
    are untouched. When the body is an object whose notes sqlite3 can
    bind (null, and a string without a surrogate, always are) and a row
    with the id is stored, the answer is 200 with that row carrying the
    new notes, which is also what a read of the id then finds; when the
    id is below 2^63 and no row has it, the answer is 404 and the world
    is unchanged. An id from 2^63 on, which sqlite3 cannot bind, and
    notes that are a string with a surrogate are answered 500, the world
    unchanged. *)
Theorem atualizar_consulta_frame (cid : Z) (req : option json) (w : world) :
  let r := fst (atualizar_consulta cid req w) in
  let w' := snd (atualizar_consulta cid req w) in
  (Forall2 (fun a b => mesmos_campos a b /\ (Store.id a <> cid -> b = a))
     (Store.rows (db w)) (Store.rows (db w'))
   /\ Store.seq (db w') = Store.seq (db w)
   /\ remote w' = remote w /\ calls w' = calls w /\ utcnow w' = utcnow w)
  /\ (forall d obs,
      Py.body_or_empty req = JObj d ->
      bind_text (observacoes_do_corpo d) = Ok obs ->
      (forall row, Store.select_one cid (db w) = Ok (Some row) ->
         r = (Registro (Store.set_observacoes obs row), 200%Z)
         /\ mesmos_campos row (Store.set_observacoes obs row)
         /\ Store.observacoes (Store.set_observacoes obs row) = obs
         /\ obter_consulta cid w'
            = ((Registro (Store.set_observacoes obs row), 200%Z), w'))
      /\ (Store.select_one cid (db w) = Ok None ->
          r = (NaoEncontrada, 404%Z) /\ w' = w)
      /\ ((9223372036854775807 < cid)%Z ->
          r = (ErroInterno OverflowError, 500%Z) /\ w' = w))
  /\ (forall d s,
      Py.body_or_empty req = JObj d ->
      (observacoes_do_corpo d = JStr s
       /\ existsb Store.is_surrogate s = false)
      \/ observacoes_do_corpo d = JNull ->
      exists obs, bind_text (observacoes_do_corpo d) = Ok obs)
  /\ (forall d s,
      Py.body_or_empty req = JObj d ->
      observacoes_do_corpo d = JStr s ->
      existsb Store.is_surrogate s = true ->
      r = (ErroInterno UnicodeEncodeError, 500%Z) /\ w' = w).
Proof.
  intros r w'. split; [|split; [|split]].
  - subst r w'. unfold atualizar_consulta.
    destruct (Py.get (Py.body_or_empty req) (lit "observacoes")) as [v|e];
      [|simpl; repeat split; apply forall2_same].
    destruct (bind_text v) as [obs|e];
      [|simpl; repeat split; apply forall2_same].
    destruct (int64_or_not cid) as [R | R].
    + rewrite (update_observacoes_ok obs cid _ R).
      destruct (List.length _ =? 0)%nat; simpl.
      * repeat split. apply update_frame.
      * destruct (Store.select_one cid _) as [[row|]|e]; simpl;
          repeat split; apply update_frame.
    + rewrite (update_observacoes_raise obs cid _ R). simpl.
      repeat split. apply forall2_same.
  - intros d obs B T. subst r w'.
    rewrite (atualizar_consulta_run cid req d obs w B T). cbv zeta.
    split; [|split].
    + intros row F. rewrite F. cbn [fst snd]. repeat split.
      apply select_one_cases in F. destruct F as [R F].
      unfold obter_consulta. rewrite (select_one_ok cid _ R).
      cbn [db com_observacoes Store.rows].
      rewrite find_update, F. reflexivity.
    + intros F. rewrite F. cbn [fst snd]. split; [reflexivity|].
      apply select_one_cases in F. destruct F as [_ F].
      unfold com_observacoes. rewrite (map_update_none obs cid _ F).
      now destruct w as [rm cs [rs sq] ck].
    + intros R. rewrite (select_one_raise cid (db w)) by lia. now split.
  - intros d s B [[E S] | E]; rewrite E; simpl.
    + unfold Store.bind_str. rewrite S. eexists; reflexivity.
    + eexists; reflexivity.
  - intros d s B E S. subst r w'. unfold atualizar_consulta. rewrite B.
    unfold Py.get. fold (observacoes_do_corpo d). rewrite E.
    unfold bind_text, Store.bind_str. rewrite S. now split.
Qed.


End Atualizar.

(** PUT /consultas/9223372036854775808, an id no row of the table of
    three rows has, is answered 500 and not 404; and notes that are the
    lone surrogate U+D800 are answered 500 for the stored id 1. Nothing
    is changed in either case. *)
Lemma atualizar_consulta_2_63 :
  ~ In 9223372036854775808%Z (ids tres_linhas)
  /\ atualizar_consulta (RT := Exemplo.runtime) 9223372036854775808
       (Some (JObj [(lit "observacoes", JStr (lit "nova"))]))
       (Exemplo.mundo [] tres_linhas)
     = ((ErroInterno OverflowError, 500%Z), Exemplo.mundo [] tres_linhas)
  /\ atualizar_consulta (RT := Exemplo.runtime) 1
       (Some (JObj [(lit "observacoes", JStr [55296%N])]))
       (Exemplo.mundo [] tres_linhas)
     = ((ErroInterno UnicodeEncodeError, 500%Z),
        Exemplo.mundo [] tres_linhas)
  /\ (500 <> 404 /\ 500 <> 200)%Z.
Proof.
  split; [|split; [reflexivity | split; [reflexivity|]]].
  - simpl. intros [H | [H | [H | []]]]; discriminate.
  - split; discriminate.
Qed.

(** PUT /consultas/1 with {"observacoes": "nova"} on the table of three
    rows. *)
Lemma atualizar_consulta_frame_witness :
  fst (atualizar_consulta (RT := Exemplo.runtime) 1
         (Some (JObj [(lit "observacoes", JStr (lit "nova"))]))
         (Exemplo.mundo [] tres_linhas))
  = (Registro (Exemplo.linha 1 (Some (lit "nova"))), 200%Z).
Proof.
  destruct (proj1 (proj2 (atualizar_consulta_frame (RT := Exemplo.runtime) 1
                            (Some (JObj [(lit "observacoes",
                                          JStr (lit "nova"))]))
                            (Exemplo.mundo [] tres_linhas)))
              [(lit "observacoes", JStr (lit "nova"))] (Some (lit "nova"))
              eq_refl eq_refl) as [H _].
  exact (proj1 (H (Exemplo.linha 1 (Some (lit "antiga"))) eq_refl)).
Defined.


(** ** The distance delegate: [haversine_km] and [calcular_distancia] *)

Section Haversine.
Context {RT : Runtime}.

Lemma is_finite_split (x : float) :
  is_finite x = true -> is_nan x = false /\ is_infinity x = false.
Proof.
  unfold is_finite. intros H. apply negb_true_iff, orb_false_iff in H.
  exact H.
Qed.

Lemma math_1_ok (f : float -> float) (b : bool) (x y : float) :
  Secundaria.math_1 f b x = Ok y -> y = f x.
Proof.
  unfold Secundaria.math_1.
  destruct (is_nan (f x) && negb (is_nan x)); [discriminate|].
  destruct (is_infinity (f x) && is_finite x);
    [destruct b; discriminate|].
  now intros [= <-].
Qed.

Lemma math_1_finite (f : float -> float) (b : bool) (x : float) :
  is_finite (f x) = true -> Secundaria.math_1 f b x = Ok (f x).
Proof.
  intros H. apply is_finite_split in H. destruct H as [N I].
  unfold Secundaria.math_1. now rewrite N, I.
Qed.

Lemma math_1_raise (f : float -> float) (x : float) (e : exn) :
  Secundaria.math_1 f false x = Raise e -> e = ValueError MathDomain.
Proof.
  unfold Secundaria.math_1.
  destruct (is_nan (f x) && negb (is_nan x)); [now intros [= <-]|].
  destruct (is_infinity (f x) && is_finite x); [now intros [= <-]|].
  discriminate.
Qed.

Lemma pow2_cases (x : float) :
  Secundaria.pow2 x = Ok (quadrado x)
  \/ (Secundaria.pow2 x = Raise OverflowError
      /\ is_infinity (quadrado x) = true).
Proof.
  unfold Secundaria.pow2, quadrado.
  destruct (is_nan x); [now left|].
  destruct (is_infinity x); [now left|].
  destruct (x =? 0)%float; [now left|].
  destruct ((if (x <? 0)%float then (- x)%float else x) =? 1)%float;
    [now left|].
  destruct (is_infinity (libm_pow _ 2)) eqn:E; [right | left]; auto.
Qed.

Lemma pow2_ok (x y : float) : Secundaria.pow2 x = Ok y -> y = quadrado x.
Proof.
  destruct (pow2_cases x) as [H | [H _]]; rewrite H;
    [now intros [= <-] | discriminate].
Qed.

Lemma pow2_finite (x : float) :
  is_finite (quadrado x) = true -> Secundaria.pow2 x = Ok (quadrado x).
Proof.
  intros F. apply is_finite_split in F. destruct F as [_ I].
  destruct (pow2_cases x) as [H | [_ H]]; [exact H | congruence].
Qed.

Lemma pow2_raise (x : float) (e : exn) :
  Secundaria.pow2 x = Raise e -> e = OverflowError.
Proof.
  destruct (pow2_cases x) as [H | [H _]]; rewrite H;
    [discriminate | now intros [= <-]].
Qed.

(** What the code returns is the formula's value. *)
Lemma haversine_km_ok (lat1 lon1 lat2 lon2 d : float) :
  Secundaria.haversine_km lat1 lon1 lat2 lon2 = Ok d ->
  d = haversine_formula lat1 lon1 lat2 lon2.
Proof.
  unfold Secundaria.haversine_km, haversine_formula, Secundaria.bind,
    Secundaria.sin, Secundaria.cos, Secundaria.asin, Secundaria.sqrt.
  destruct (Secundaria.math_1 libm_sin false _) as [s1|] eqn:S1;
    [|discriminate]. apply math_1_ok in S1. subst s1.
  destruct (Secundaria.pow2 _) as [p1|] eqn:P1; [|discriminate].
  apply pow2_ok in P1. subst p1.
  destruct (Secundaria.math_1 libm_cos false _) as [c1|] eqn:C1;
    [|discriminate]. apply math_1_ok in C1. subst c1.
  destruct (Secundaria.math_1 libm_cos false _) as [c2|] eqn:C2;
    [|discriminate]. apply math_1_ok in C2. subst c2.
  destruct (Secundaria.math_1 libm_sin false _) as [s2|] eqn:S2;
    [|discriminate]. apply math_1_ok in S2. subst s2.
  destruct (Secundaria.pow2 _) as [p2|] eqn:P2; [|discriminate].
  apply pow2_ok in P2. subst p2.
  destruct (Secundaria.math_1 PrimFloat.sqrt false _) as [q|] eqn:Q;
    [|discriminate]. apply math_1_ok in Q. subst q.
  destruct (Secundaria.math_1 libm_asin false _) as [h|] eqn:H;
    [|discriminate]. apply math_1_ok in H. subst h.
  now intros [= <-].
Qed.

(** The code returns whenever the formula stays among finite numbers. *)
Lemma haversine_km_finite (lat1 lon1 lat2 lon2 : float) :
  forallb is_finite (passos_da_formula lat1 lon1 lat2 lon2) = true ->
  Secundaria.haversine_km lat1 lon1 lat2 lon2
  = Ok (haversine_formula lat1 lon1 lat2 lon2).
Proof.
  unfold passos_da_formula. cbn [forallb].
  rewrite !andb_true_iff.
  intros (S1 & P1 & C1 & C2 & S2 & P2 & Q & H & _).
  unfold Secundaria.haversine_km, haversine_formula, Secundaria.bind,
    Secundaria.sin, Secundaria.cos, Secundaria.asin, Secundaria.sqrt.
  rewrite (math_1_finite libm_sin false _ S1), (pow2_finite _ P1).
  rewrite (math_1_finite libm_cos false _ C1).
  rewrite (math_1_finite libm_cos false _ C2).
  rewrite (math_1_finite libm_sin false _ S2), (pow2_finite _ P2).
  rewrite (math_1_finite PrimFloat.sqrt false _ Q).
  rewrite (math_1_finite libm_asin false _ H).
  reflexivity.
Qed.

(** The only exceptions of the computation are those of [math] and of
    float [**]. *)
Lemma haversine_km_raise (lat1 lon1 lat2 lon2 : float) (e : exn) :
  Secundaria.haversine_km lat1 lon1 lat2 lon2 = Raise e ->
  e = ValueError MathDomain \/ e = OverflowError.
Proof.
  unfold Secundaria.haversine_km, Secundaria.bind, Secundaria.sin,
    Secundaria.cos, Secundaria.asin, Secundaria.sqrt.
  destruct (Secundaria.math_1 libm_sin false _) as [s1|] eqn:S1;
    [clear S1|intros [= <-]; left; eapply math_1_raise; eassumption].
  destruct (Secundaria.pow2 s1) as [p1|] eqn:P1;
    [clear P1|intros [= <-]; right; eapply pow2_raise; eassumption].
  destruct (Secundaria.math_1 libm_cos false _) as [c1|] eqn:C1;
    [clear C1|intros [= <-]; left; eapply math_1_raise; eassumption].
  destruct (Secundaria.math_1 libm_cos false _) as [c2|] eqn:C2;
    [clear C2|intros [= <-]; left; eapply math_1_raise; eassumption].
  destruct (Secundaria.math_1 libm_sin false _) as [s2|] eqn:S2;
    [clear S2|intros [= <-]; left; eapply math_1_raise; eassumption].
  destruct (Secundaria.pow2 s2) as [p2|] eqn:P2;
    [clear P2|intros [= <-]; right; eapply pow2_raise; eassumption].
  destruct (Secundaria.math_1 PrimFloat.sqrt false _) as [q|] eqn:Q;
    [clear Q|intros [= <-]; left; eapply math_1_raise; eassumption].
  destruct (Secundaria.math_1 libm_asin false _) as [h|] eqn:H;
    [clear H|intros [= <-]; left; eapply math_1_raise; eassumption].
  discriminate.
Qed.

(** The handler on a body with four values [float()] accepts. *)
Lemma calcular_distancia_run (body : option json) (v1 v2 v3 v4 : json)
  (lat1 lon1 lat2 lon2 : float) :
  corpo_com body v1 v2 v3 v4 ->
  Py.to_float v1 = Ok lat1 -> Py.to_float v2 = Ok lon1 ->
  Py.to_float v3 = Ok lat2 -> Py.to_float v4 = Ok lon2 ->
  Secundaria.calcular_distancia body
  = match Secundaria.haversine_km lat1 lon1 lat2 lon2 with
    | Ok d =>
        (Secundaria.Distancia lat1 lon1 lat2 lon2 (py_round d 3), 200%Z)
    | Raise (ValueError _) => (Secundaria.ErroValores, 400%Z)
    | Raise e => (Secundaria.ErroInesperado e, 500%Z)
    end.
Proof.
  intros (d & o & dd & B & O & D & L1 & L2 & L3 & L4) F1 F2 F3 F4.
  unfold Secundaria.calcular_distancia, Secundaria.calcular_distancia_try.
  rewrite B. unfold Py.get, Secundaria.bind. rewrite O, D.
  assert (To : Py.or_else (JObj o) (JObj []) = JObj o).
  { unfold Py.or_else. destruct o; [discriminate | reflexivity]. }
  assert (Td : Py.or_else (JObj dd) (JObj []) = JObj dd).
  { unfold Py.or_else. destruct dd; [discriminate | reflexivity]. }
  rewrite To, Td. unfold Secundaria.verifica_bloco, Py.contains.
  rewrite L1, L2, L3, L4. simpl. unfold Py.getitem.
  rewrite L1, L2, L3, L4, F1, F2, F3, F4.
  destruct (Secundaria.haversine_km lat1 lon1 lat2 lon2) as [x|e] eqn:H;
    [reflexivity|].
  destruct (haversine_km_raise _ _ _ _ _ H) as [-> | ->]; reflexivity.
Qed.

(** C5. The delegate computes the haversine formula with R = 6371.0 on
    the angles converted to radians, at full binary64 precision: what
    [haversine_km] returns is the formula's value, it returns whenever
    every intermediate value of the formula is a finite number, and
    otherwise raises only a math domain or overflow error. For a body
    with four values [float()] accepts, POST /calcular-distancia answers
    200 with the coordinates and [round(d, 3)] of that unrounded value
    [d]; a domain error gives 400 and an overflow 500. *)
Theorem calcular_distancia_haversine :
  (forall lat1 lon1 lat2 lon2 d,
      Secundaria.haversine_km lat1 lon1 lat2 lon2 = Ok d ->
      d = haversine_formula lat1 lon1 lat2 lon2)
  /\ (forall lat1 lon1 lat2 lon2,
      forallb is_finite (passos_da_formula lat1 lon1 lat2 lon2) = true ->
      Secundaria.haversine_km lat1 lon1 lat2 lon2
      = Ok (haversine_formula lat1 lon1 lat2 lon2))
  /\ (forall lat1 lon1 lat2 lon2 e,
      Secundaria.haversine_km lat1 lon1 lat2 lon2 = Raise e ->
      e = ValueError MathDomain \/ e = OverflowError)
  /\ (forall body v1 v2 v3 v4 lat1 lon1 lat2 lon2,
      corpo_com body v1 v2 v3 v4 ->
      Py.to_float v1 = Ok lat1 -> Py.to_float v2 = Ok lon1 ->
      Py.to_float v3 = Ok lat2 -> Py.to_float v4 = Ok lon2 ->
      (forallb is_finite (passos_da_formula lat1 lon1 lat2 lon2) = true ->
       Secundaria.calcular_distancia body
       = (Secundaria.Distancia lat1 lon1 lat2 lon2
            (py_round (haversine_formula lat1 lon1 lat2 lon2) 3), 200%Z))
      /\ (forall d,
          Secundaria.haversine_km lat1 lon1 lat2 lon2 = Ok d ->
          Secundaria.calcular_distancia body
          = (Secundaria.Distancia lat1 lon1 lat2 lon2
               (py_round (haversine_formula lat1 lon1 lat2 lon2) 3),
             200%Z))
      /\ (Secundaria.haversine_km lat1 lon1 lat2 lon2
          = Raise (ValueError MathDomain) ->
          Secundaria.calcular_distancia body
          = (Secundaria.ErroValores, 400%Z))
      /\ (Secundaria.haversine_km lat1 lon1 lat2 lon2
          = Raise OverflowError ->
          Secundaria.calcular_distancia body
          = (Secundaria.ErroInesperado OverflowError, 500%Z))).
Proof.
  split; [exact haversine_km_ok|].
  split; [exact haversine_km_finite|].
  split; [exact haversine_km_raise|].
  intros body v1 v2 v3 v4 lat1 lon1 lat2 lon2 C F1 F2 F3 F4.
  rewrite (calcular_distancia_run body v1 v2 v3 v4 _ _ _ _ C F1 F2 F3 F4).
  split; [|split; [|split]].
  - intros F. now rewrite (haversine_km_finite _ _ _ _ F).
  - intros d H. rewrite H. now rewrite (haversine_km_ok _ _ _ _ _ H).
  - now intros ->.
  - now intros ->.
Qed.

End Haversine.

(** POST /calcular-distancia with the coordinates of the Swagger example,
    under the runtime of the examples. *)
Lemma calcular_distancia_haversine_witness :
  Secundaria.calcular_distancia (RT := Exemplo.runtime)
    (corpo_de (-22.90625) (-43.171875) (-23.546875) (-46.6328125))
  = (Secundaria.Distancia (-22.90625) (-43.171875) (-23.546875)
       (-46.6328125)
       (haversine_formula (RT := Exemplo.runtime) (-22.90625) (-43.171875)
          (-23.546875) (-46.6328125)), 200%Z).
Proof.
  refine (proj1 (proj2 (proj2 (proj2
            (calcular_distancia_haversine (RT := Exemplo.runtime))))
            (corpo_de (-22.90625) (-43.171875) (-23.546875) (-46.6328125))
            (JFloat (-22.90625)) (JFloat (-43.171875))
            (JFloat (-23.546875)) (JFloat (-46.6328125))
            _ _ _ _ _ eq_refl eq_refl eq_refl eq_refl) _).
  - do 3 eexists. repeat split; reflexivity.
  - vm_compute. reflexivity.
Defined.

(** ** Binary64 arithmetic: signs, and products that cannot overflow *)

Section Binary64.
Local Open Scope float_scope.

Lemma binary_round_aux_opp (s : bool) (m e : Z) (l : location) :
  binary_round_aux prec emax (negb s) m e l
  = SFopp (binary_round_aux prec emax s m e l).
Proof.
  unfold binary_round_aux.
  destruct (shr_fexp prec emax m e l) as [mrs' e'].
  destruct (shr_fexp prec emax _ e' loc_Exact) as [mrs'' e''].
  destruct (shr_m mrs''); simpl; try reflexivity.
  now destruct (Z.leb _ _).
Qed.

Lemma binary_round_opp (s : bool) (m : positive) (e : Z) :
  binary_round prec emax (negb s) m e
  = SFopp (binary_round prec emax s m e).
Proof.
  unfold binary_round.
  destruct (shl_align m e _) as [mz ez]. apply binary_round_aux_opp.
Qed.

Lemma binary_normalize_opp (m e : Z) :
  binary_normalize prec emax (- m) e false
  = SFopp (binary_normalize prec emax m e false)
  \/ binary_normalize prec emax (- m) e false
     = binary_normalize prec emax m e false.
Proof.
  destruct m as [|p|p]; simpl.
  - now right.
  - left. apply (binary_round_opp false).
  - left. apply (binary_round_opp true).
Qed.

Lemma SFsub_swap (x y : spec_float) :
  SFsub prec emax y x = SFopp (SFsub prec emax x y)
  \/ SFsub prec emax y x = SFsub prec emax x y.
Proof.
  destruct x as [sx|sx| |sx mx ex], y as [sy|sy| |sy my ey];
    try (destruct sx, sy; simpl; auto; fail);
    try (destruct sx; simpl; auto; fail);
    try (destruct sy; simpl; auto; fail);
    try (simpl; auto; fail).
  unfold SFsub. rewrite (Z.min_comm ey ex).
  set (ez := Z.min ex ey).
  set (a := cond_Zopp sx (Z.pos (fst (shl_align mx ex ez)))).
  set (b := cond_Zopp sy (Z.pos (fst (shl_align my ey ez)))).
  replace (b - a)%Z with (- (a - b))%Z by lia.
  apply binary_normalize_opp.
Qed.

Lemma float_sub_swap (x y : float) : y - x = - (x - y) \/ y - x = x - y.
Proof.
  destruct (SFsub_swap (Prim2SF x) (Prim2SF y)) as [H | H].
  - left. apply Prim2SF_inj. now rewrite opp_spec, !sub_spec.
  - right. apply Prim2SF_inj. now rewrite !sub_spec.
Qed.

(** Division by two. *)
Lemma SFdiv_opp_l (x y : spec_float) :
  y <> S754_nan ->
  SFdiv prec emax (SFopp x) y = SFopp (SFdiv prec emax x y).
Proof.
  intros Hy.
  destruct x as [sx|sx| |sx mx ex], y as [sy|sy| |sy my ey]; simpl;
    try reflexivity; try contradiction;
    try (now destruct sx, sy).
  destruct (SFdiv_core_binary prec emax (Z.pos mx) ex (Z.pos my) ey)
    as [[mz ez] lz].
  rewrite <- binary_round_aux_opp. now destruct sx, sy.
Qed.

Lemma float_div_opp_2 (x : float) : (- x) / 2 = - (x / 2).
Proof.
  apply Prim2SF_inj. rewrite opp_spec, !div_spec, opp_spec.
  apply SFdiv_opp_l. vm_compute. discriminate.
Qed.

Lemma SFabs_opp (x : spec_float) : SFabs (SFopp x) = SFabs x.
Proof. now destruct x. Qed.

Lemma float_abs_opp (x : float) : abs (- x) = abs x.
Proof.
  apply Prim2SF_inj. rewrite !abs_spec, opp_spec. apply SFabs_opp.
Qed.

Lemma SFeqb_refl (x : spec_float) :
  SFeqb x x = match x with S754_nan => false | _ => true end.
Proof.
  destruct x as [s|s| |s m e]; try reflexivity.
  - now destruct s.
  - unfold SFeqb, SFcompare. rewrite Z.compare_refl.
    fold (Pos.compare m m). rewrite Pos.compare_refl. now destruct s.
Qed.

Lemma SFeqb_opp_self (x : spec_float) :
  SFeqb (SFopp x) (SFopp x) = SFeqb x x.
Proof. rewrite !SFeqb_refl. now destruct x. Qed.

Lemma is_nan_opp (x : float) : is_nan (- x) = is_nan x.
Proof.
  unfold is_nan. rewrite !eqb_spec, opp_spec. now rewrite SFeqb_opp_self.
Qed.

Lemma is_infinity_opp (x : float) : is_infinity (- x) = is_infinity x.
Proof. unfold is_infinity. now rewrite float_abs_opp. Qed.

Lemma is_finite_opp (x : float) : is_finite (- x) = is_finite x.
Proof. unfold is_finite. now rewrite is_nan_opp, is_infinity_opp. Qed.

Lemma eqb_zero_opp (x : float) : (- x =? 0) = (x =? 0).
Proof.
  rewrite !eqb_spec, opp_spec.
  change (Prim2SF 0) with (S754_zero false).
  destruct (Prim2SF x) as [s|s| |s m e]; try reflexivity;
    destruct s; reflexivity.
Qed.

(** The base CPython hands to libm's pow. *)
Lemma base_abs (x : float) :
  is_nan x = false -> (x =? 0) = false ->
  (if x <? 0 then - x else x) = abs x.
Proof.
  unfold is_nan. rewrite !eqb_spec, ltb_spec.
  change (Prim2SF 0) with (S754_zero false).
  intros N Z. apply Prim2SF_inj.
  rewrite abs_spec.
  destruct (Prim2SF x) as [s|s| |s m e] eqn:E.
  - destruct s; discriminate.
  - destruct s; simpl; rewrite ?opp_spec, E; reflexivity.
  - discriminate.
  - destruct s; simpl; rewrite ?opp_spec, E; reflexivity.
Qed.

Lemma SFmul_comm (x y : spec_float) :
  SFmul prec emax x y = SFmul prec emax y x.
Proof.
  destruct x as [sx|sx| |sx mx ex], y as [sy|sy| |sy my ey]; simpl;
    try reflexivity; try (now rewrite xorb_comm).
  now rewrite xorb_comm, Pos.mul_comm, Z.add_comm.
Qed.

Lemma float_mul_comm (x y : float) : x * y = y * x.
Proof. apply Prim2SF_inj. rewrite !mul_spec. apply SFmul_comm. Qed.

Lemma is_finite_SF (x : float) :
  is_finite x = true <-> SFfinite (Prim2SF x).
Proof.
  unfold is_finite, is_nan, is_infinity.
  rewrite !eqb_spec, abs_spec, SFeqb_refl.
  change (Prim2SF infinity) with (S754_infinity false).
  destruct (Prim2SF x) as [s|s| |s m e]; simpl; split;
    try easy; try (now destruct s).
Qed.

Lemma SFsub_diag (x : spec_float) :
  SFfinite x -> SFsub prec emax x x = S754_zero false.
Proof.
  destruct x as [s|s| |s m e]; simpl; try contradiction; intros _.
  - now destruct s.
  - now rewrite Z.sub_diag.
Qed.

Lemma float_sub_diag (x : float) : is_finite x = true -> x - x = 0.
Proof.
  intros F. apply is_finite_SF in F. apply Prim2SF_inj.
  rewrite sub_spec. unfold SF64sub. now rewrite (SFsub_diag _ F).
Qed.

(** Digits of a mantissa. *)
Lemma pow2_double (d : Z) : (1 <= d)%Z -> (2 ^ d = 2 * 2 ^ (d - 1))%Z.
Proof.
  intros H. rewrite <- Z.pow_succ_r by lia. f_equal. lia.
Qed.

Lemma digits2_pos_bounds (p : positive) :
  (2 ^ (Z.pos (digits2_pos p) - 1) <= Z.pos p < 2 ^ Z.pos (digits2_pos p))%Z.
Proof.
  induction p as [p IH|p IH|]; simpl digits2_pos.
  - rewrite Pos2Z.inj_succ, (Pos2Z.inj_xI p).
    pose proof (pow2_double (Z.pos (digits2_pos p)) ltac:(lia)) as E.
    replace (Z.succ (Z.pos (digits2_pos p)) - 1)%Z
      with (Z.pos (digits2_pos p)) by lia.
    rewrite Z.pow_succ_r by lia. lia.
  - rewrite Pos2Z.inj_succ, (Pos2Z.inj_xO p).
    pose proof (pow2_double (Z.pos (digits2_pos p)) ltac:(lia)) as E.
    replace (Z.succ (Z.pos (digits2_pos p)) - 1)%Z
      with (Z.pos (digits2_pos p)) by lia.
    rewrite Z.pow_succ_r by lia. lia.
  - simpl. lia.
Qed.

Lemma Zdigits2_le (z k : Z) :
  (0 <= k)%Z -> (0 <= z < 2 ^ k)%Z -> (Zdigits2 z <= k)%Z.
Proof.
  intros Hk [H0 Hz]. destruct z as [|p|p]; simpl; [lia| |lia].
  pose proof (digits2_pos_bounds p) as [L _].
  destruct (Z_lt_le_dec k (Z.pos (digits2_pos p))) as [C|C]; [|exact C].
  exfalso.
  assert (2 ^ k <= 2 ^ (Z.pos (digits2_pos p) - 1))%Z
    by (apply Z.pow_le_mono_r; lia).
  lia.
Qed.

Lemma Zdigits2_lt (z : Z) : (0 <= z)%Z -> (z < 2 ^ Zdigits2 z)%Z.
Proof.
  destruct z as [|p|p]; simpl; intros H; [lia| |lia].
  apply digits2_pos_bounds.
Qed.

Lemma Zdigits2_nonneg (z : Z) : (0 <= Zdigits2 z)%Z.
Proof. destruct z; simpl; lia. Qed.

Lemma Zdigits2_mul (p q : positive) :
  (Zdigits2 (Z.pos (p * q)) <= Z.pos (digits2_pos p) + Z.pos (digits2_pos q))%Z.
Proof.
  apply Zdigits2_le; [lia|]. split; [lia|].
  rewrite Z.pow_add_r by lia. rewrite Pos2Z.inj_mul.
  pose proof (digits2_pos_bounds p) as [_ Hp].
  pose proof (digits2_pos_bounds q) as [_ Hq].
  apply Z.mul_lt_mono_nonneg; lia.
Qed.

(** One shift to the right. *)
Lemma shr_1_digits (mrs : shr_record) :
  (0 <= shr_m mrs)%Z ->
  (0 <= shr_m (shr_1 mrs))%Z
  /\ Zdigits2 (shr_m (shr_1 mrs)) = Z.max 0 (Zdigits2 (shr_m mrs) - 1).
Proof.
  destruct mrs as [m r s]. cbn [shr_m]. intros H.
  destruct m as [|p|p]; [cbn; lia| |lia].
  destruct p as [p|p|]; cbn [shr_1 shr_m Zdigits2 digits2_pos];
    rewrite ?Pos2Z.inj_succ; split; lia.
Qed.

Lemma iter_shr_1_digits (p : positive) :
  forall mrs,
    (0 <= shr_m mrs)%Z ->
    (0 <= shr_m (iter_pos shr_1 p mrs))%Z
    /\ Zdigits2 (shr_m (iter_pos shr_1 p mrs))
       = Z.max 0 (Zdigits2 (shr_m mrs) - Z.pos p).
Proof.
  induction p as [p IH|p IH|]; intros mrs H; simpl iter_pos.
  - destruct (shr_1_digits mrs H) as [H1 D1].
    destruct (IH _ H1) as [H2 D2]. destruct (IH _ H2) as [H3 D3].
    split; [exact H3|]. rewrite D3, D2, D1. lia.
  - destruct (IH _ H) as [H2 D2]. destruct (IH _ H2) as [H3 D3].
    split; [exact H3|]. rewrite D3, D2. lia.
  - apply shr_1_digits, H.
Qed.

(** [shr_fexp] on a non-negative mantissa: the exponent it returns and
    the digits it leaves. *)
Lemma shr_fexp_bounds (m e : Z) (l : location) :
  (0 <= m)%Z ->
  let r := shr_fexp prec emax m e l in
  (0 <= shr_m (fst r))%Z
  /\ snd r = Z.max e (fexp prec emax (Zdigits2 m + e))
  /\ Zdigits2 (shr_m (fst r))
     = Z.max 0 (Zdigits2 m - (snd r - e)).
Proof.
  intros H. unfold shr_fexp, shr.
  assert (M : shr_m (shr_record_of_loc m l) = m)
    by (destruct l as [|[ | | ]]; reflexivity).
  destruct (fexp prec emax (Zdigits2 m + e) - e)%Z as [|p|p] eqn:N; simpl.
  - rewrite M. pose proof (Zdigits2_nonneg m). repeat split; lia.
  - destruct (iter_shr_1_digits p (shr_record_of_loc m l)) as [H1 D1];
      [now rewrite M|].
    rewrite M in D1. split; [exact H1|]. split; [lia|].
    rewrite D1. f_equal. lia.
  - rewrite M. pose proof (Zdigits2_nonneg m). repeat split; lia.
Qed.

Lemma round_nearest_even_bounds (m : Z) (l : location) :
  (0 <= m)%Z ->
  (m <= round_nearest_even m l <= m + 1)%Z.
Proof.
  intros H. destruct l as [|[ | | ]]; simpl; try lia.
  destruct (Z.even m); lia.
Qed.

(** No overflow: rounding a mantissa whose magnitude stays below 2^1023
    gives zero or a finite number. *)
Lemma fexp_64 (z : Z) : fexp prec emax z = Z.max (z - 53) (-1074).
Proof. reflexivity. Qed.

Lemma binary_round_aux_finite (s : bool) (m : positive) (e : Z) :
  (e <= 970)%Z ->
  (Z.pos (digits2_pos m) + e <= 1023)%Z ->
  binary_round_aux prec emax s (Z.pos m) e loc_Exact = S754_zero s
  \/ exists m' e',
      binary_round_aux prec emax s (Z.pos m) e loc_Exact
      = S754_finite s m' e'.
Proof.
  intros He Hd. unfold binary_round_aux.
  destruct (shr_fexp_bounds (Z.pos m) e loc_Exact) as (P1 & E1 & D1);
    [lia|].
  destruct (shr_fexp prec emax (Z.pos m) e loc_Exact) as [mrs1 e1].
  cbn [fst snd Zdigits2] in P1, E1, D1.
  set (m2 := round_nearest_even (shr_m mrs1) (loc_of_shr_record mrs1)).
  pose proof (round_nearest_even_bounds (shr_m mrs1)
                (loc_of_shr_record mrs1) P1) as R. fold m2 in R.
  destruct (shr_fexp_bounds m2 e1 loc_Exact) as (P2 & E2 & D2); [lia|].
  destruct (shr_fexp prec emax m2 e1 loc_Exact) as [mrs2 e2].
  cbn [fst snd] in P2, E2, D2.
  rewrite fexp_64 in E1, E2.
  assert (B1 : (Zdigits2 (shr_m mrs1) <= 53)%Z) by lia.
  assert (B2 : (Zdigits2 m2 <= 54)%Z).
  { apply Zdigits2_le; [lia|]. split; [lia|].
    pose proof (Zdigits2_lt (shr_m mrs1) P1) as L.
    assert (2 ^ Zdigits2 (shr_m mrs1) <= 2 ^ 53)%Z
      by (apply Z.pow_le_mono_r; lia).
    change (2 ^ 54)%Z with (2 * 2 ^ 53)%Z. lia. }
  assert (B3 : (e2 <= 971)%Z) by lia.
  destruct (shr_m mrs2) as [|p|p]; [now left| |lia].
  right. exists p, e2.
  replace (e2 <=? emax - prec)%Z with true; [reflexivity|].
  symmetry. apply Z.leb_le. change (emax - prec)%Z with 971%Z. lia.
Qed.

Lemma valid_digits (s : bool) (m : positive) (e : Z) :
  valid_binary (S754_finite s m e) = true ->
  (Z.pos (digits2_pos m) <= 53 /\ e <= 971)%Z.
Proof.
  simpl. unfold bounded, canonical_mantissa. intros H.
  apply andb_true_iff in H. destruct H as [C B].
  apply Z.eqb_eq in C. apply Z.leb_le in B.
  change (emax - prec)%Z with 971%Z in B.
  rewrite fexp_64 in C. lia.
Qed.

(** The product of two finite numbers, when exponents and digits leave
    room. *)
Lemma SFmul_finite (sx sy : bool) (mx my : positive) (ex ey : Z) :
  (ex + ey <= 970)%Z ->
  (Z.pos (digits2_pos mx) + ex + (Z.pos (digits2_pos my) + ey) <= 1023)%Z ->
  SFmul prec emax (S754_finite sx mx ex) (S754_finite sy my ey)
  = S754_zero (xorb sx sy)
  \/ exists m' e',
      SFmul prec emax (S754_finite sx mx ex) (S754_finite sy my ey)
      = S754_finite (xorb sx sy) m' e'.
Proof.
  intros He Hd. simpl. apply binary_round_aux_finite; [exact He|].
  pose proof (Zdigits2_mul mx my) as D. simpl in D. lia.
Qed.

End Binary64.

(** ** Symmetry and the degenerate case of [haversine_km] *)

Section Simetria.
Context {RT : Runtime}.
Local Open Scope float_scope.

Lemma is_nan_SF (x : float) :
  is_nan x = true -> Prim2SF x = S754_nan.
Proof.
  unfold is_nan. rewrite eqb_spec, SFeqb_refl.
  now destruct (Prim2SF x).
Qed.

Lemma nan_opp (x : float) : is_nan x = true -> - x = x.
Proof.
  intros N. apply is_nan_SF in N. apply Prim2SF_inj.
  rewrite opp_spec, N. reflexivity.
Qed.

Lemma pow2_opp (x : float) : Secundaria.pow2 (- x) = Secundaria.pow2 x.
Proof.
  unfold Secundaria.pow2.
  rewrite is_nan_opp, is_infinity_opp, float_abs_opp, eqb_zero_opp.
  destruct (is_nan x) eqn:N; [now rewrite (nan_opp x N)|].
  destruct (is_infinity x); [reflexivity|].
  destruct (x =? 0) eqn:Z; [reflexivity|].
  rewrite (base_abs x N Z).
  rewrite (base_abs (- x)), float_abs_opp;
    [reflexivity | now rewrite is_nan_opp | now rewrite eqb_zero_opp].
Qed.

Lemma math_1_opp (f : float -> float) (b : bool) (x : float) :
  (forall y, f (- y) = - f y) ->
  Secundaria.math_1 f b (- x)
  = match Secundaria.math_1 f b x with
    | Ok r => Ok (- r)
    | Raise e => Raise e
    end.
Proof.
  intros Hf. unfold Secundaria.math_1.
  rewrite Hf, !is_nan_opp, is_infinity_opp, is_finite_opp.
  destruct (is_nan (f x) && negb (is_nan x)); [reflexivity|].
  now destruct (is_infinity (f x) && is_finite x).
Qed.

Lemma meio_seno_quadrado_opp (d : float) :
  (forall y, libm_sin (- y) = - libm_sin y) ->
  meio_seno_quadrado (- d) = meio_seno_quadrado d.
Proof.
  intros Hs. unfold meio_seno_quadrado, Secundaria.bind, Secundaria.sin.
  rewrite float_div_opp_2, (math_1_opp libm_sin false (d / 2) Hs).
  destruct (Secundaria.math_1 libm_sin false (d / 2)) as [r|e];
    [apply pow2_opp | reflexivity].
Qed.

Lemma meio_seno_quadrado_swap (x y : float) :
  (forall z, libm_sin (- z) = - libm_sin z) ->
  meio_seno_quadrado (y - x) = meio_seno_quadrado (x - y).
Proof.
  intros Hs. destruct (float_sub_swap x y) as [E | E]; rewrite E;
    [now apply meio_seno_quadrado_opp | reflexivity].
Qed.

Lemma haversine_km_nucleo (lat1 lon1 lat2 lon2 : float) :
  Secundaria.haversine_km lat1 lon1 lat2 lon2
  = nucleo
      (meio_seno_quadrado
         (Secundaria.radians lat2 - Secundaria.radians lat1))
      (Secundaria.cos (Secundaria.radians lat1))
      (Secundaria.cos (Secundaria.radians lat2))
      (meio_seno_quadrado
         (Secundaria.radians lon2 - Secundaria.radians lon1)).
Proof.
  unfold Secundaria.haversine_km, nucleo, meio_seno_quadrado,
    Secundaria.bind.
  destruct (Secundaria.sin _) as [s1|e]; [|reflexivity].
  destruct (Secundaria.pow2 s1) as [p1|e]; [|reflexivity].
  destruct (Secundaria.cos _) as [c1|e]; [|reflexivity].
  destruct (Secundaria.cos _) as [c2|e]; [|reflexivity].
  destruct (Secundaria.sin _) as [s2|e]; reflexivity.
Qed.

Lemma nucleo_swap (h1 k1 k2 h2 : result float) :
  (forall e, k1 = Raise e -> e = ValueError MathDomain) ->
  (forall e, k2 = Raise e -> e = ValueError MathDomain) ->
  nucleo h1 k1 k2 h2 = nucleo h1 k2 k1 h2.
Proof.
  intros E1 E2. unfold nucleo, Secundaria.bind.
  destruct h1 as [p1|e]; [|reflexivity].
  destruct k1 as [c1|e1], k2 as [c2|e2].
  - destruct h2 as [p2|e]; [|reflexivity].
    now rewrite (float_mul_comm c1 c2).
  - reflexivity.
  - reflexivity.
  - now rewrite (E1 e1 eq_refl), (E2 e2 eq_refl).
Qed.

Lemma haversine_km_sym (lat1 lon1 lat2 lon2 : float) :
  (forall x, libm_sin (- x) = - libm_sin x) ->
  Secundaria.haversine_km lat1 lon1 lat2 lon2
  = Secundaria.haversine_km lat2 lon2 lat1 lon1.
Proof.
  intros Hs. rewrite !haversine_km_nucleo.
  rewrite (meio_seno_quadrado_swap (Secundaria.radians lat1)
             (Secundaria.radians lat2) Hs).
  rewrite (meio_seno_quadrado_swap (Secundaria.radians lon1)
             (Secundaria.radians lon2) Hs).
  apply nucleo_swap; intros e; apply math_1_raise.
Qed.

(** [math.radians] of a finite number is finite. *)
Lemma radians_finite (x : float) :
  is_finite x = true -> is_finite (Secundaria.radians x) = true.
Proof.
  rewrite !is_finite_SF. unfold Secundaria.radians. rewrite mul_spec.
  change (Prim2SF Secundaria.degToRad)
    with (S754_finite false 5030569068109113 (-58)).
  pose proof (Prim2SF_valid x) as V.
  destruct (Prim2SF x) as [s|s| |s m e]; try contradiction; intros _.
  - exact I.
  - apply valid_digits in V. destruct V as [D E].
    destruct (SFmul_finite s false m 5030569068109113 e (-58)) as [H | H].
    + lia.
    + change (Z.pos (digits2_pos 5030569068109113)) with 53%Z. lia.
    + unfold SF64mul. now rewrite H.
    + destruct H as (m' & e' & H). unfold SF64mul. now rewrite H.
Qed.

(** A number of magnitude at most 1 is finite, and its square times zero
    is zero. *)
Lemma abs_le_1 (c : float) :
  (abs c <=? 1) = true ->
  is_finite c = true /\ c * c * 0 = 0.
Proof.
  rewrite leb_spec, abs_spec, is_finite_SF.
  change (Prim2SF 1) with (S754_finite false 4503599627370496 (-52)).
  intros L.
  assert (Q : SFfinite (Prim2SF c)
              /\ SFmul prec emax (Prim2SF c) (Prim2SF c) = S754_zero false
                 \/ SFfinite (Prim2SF c)
                    /\ exists m' e', SFmul prec emax (Prim2SF c) (Prim2SF c)
                                    = S754_finite false m' e').
  { pose proof (Prim2SF_valid c) as V.
    destruct (Prim2SF c) as [s|s| |s m e]; try discriminate.
    - left. split; [exact I|]. now destruct s.
    - apply valid_digits in V. destruct V as [D _].
      assert (E : (e <= -52)%Z).
      { unfold SFleb, SFabs, SFcompare in L.
        destruct (Z.compare_spec e (-52)) as [C | C | C];
          [lia | lia | discriminate]. }
      destruct (SFmul_finite s s m m e e) as [H | H]; [lia | lia | |];
        rewrite xorb_nilpotent in H; [left | right]; split;
        try exact I; exact H. }
  assert (M : Prim2SF (c * c * 0) = S754_zero false).
  { rewrite mul_spec, mul_spec. unfold SF64mul.
    change (Prim2SF 0) with (S754_zero false).
    destruct Q as [[_ H] | [_ (m' & e' & H)]]; now rewrite H. }
  split.
  - destruct Q as [[F _] | [F _]]; exact F.
  - apply Prim2SF_inj. now rewrite M.
Qed.

Lemma haversine_km_zero (lat lon : float) :
  libm_sin 0 = 0 ->
  libm_asin 0 = 0 ->
  (forall x, is_finite x = true -> (abs (libm_cos x) <=? 1) = true) ->
  is_finite lat = true -> is_finite lon = true ->
  Secundaria.haversine_km lat lon lat lon = Ok 0.
Proof.
  intros Hsin Hasin Hcos Flat Flon.
  pose proof (radians_finite lat Flat) as Rlat.
  pose proof (radians_finite lon Flon) as Rlon.
  destruct (abs_le_1 _ (Hcos _ Rlat)) as [Fc Z].
  rewrite haversine_km_nucleo.
  rewrite (float_sub_diag _ Rlat), (float_sub_diag _ Rlon).
  assert (H0 : meio_seno_quadrado 0 = Ok 0).
  { unfold meio_seno_quadrado, Secundaria.bind, Secundaria.sin,
      Secundaria.math_1.
    change (0 / 2) with 0. rewrite Hsin. reflexivity. }
  rewrite H0. unfold nucleo, Secundaria.bind, Secundaria.cos.
  rewrite (math_1_finite libm_cos false _ Fc), Z.
  change (0 + 0) with 0.
  unfold Secundaria.sqrt, Secundaria.asin, Secundaria.math_1.
  change (PrimFloat.sqrt 0) with 0. cbn [is_nan]. 
  change (is_nan 0 && negb (is_nan 0)) with false.
  change (is_infinity 0 && is_finite 0) with false. cbv iota.
  rewrite Hasin.
  change (is_nan 0 && negb (is_nan 0)) with false.
  change (is_infinity 0 && is_finite 0) with false. cbv iota.
  reflexivity.
Qed.

(** C6. With a C library whose sine is odd, [haversine_km] is exactly
    symmetric: on swapped points it ends in the same way, with the same
    binary64 value or the same exception, so that [==] holds between the
    two values whenever the value is a number. With a C library that has
    sin(0) = 0 and asin(0) = 0 and a cosine of magnitude at most 1 on
    finite arguments, the distance from a point with finite coordinates
    to itself is exactly 0.0. *)
Theorem haversine_km_simetrica_e_nula :
  ((forall x, libm_sin (- x) = - libm_sin x) ->
   forall lat1 lon1 lat2 lon2,
     Secundaria.haversine_km lat1 lon1 lat2 lon2
     = Secundaria.haversine_km lat2 lon2 lat1 lon1
     /\ (forall d1 d2,
         Secundaria.haversine_km lat1 lon1 lat2 lon2 = Ok d1 ->
         Secundaria.haversine_km lat2 lon2 lat1 lon1 = Ok d2 ->
         is_nan d1 = false -> (d1 =? d2) = true))
  /\ (libm_sin 0 = 0 ->
      libm_asin 0 = 0 ->
      (forall x, is_finite x = true -> (abs (libm_cos x) <=? 1) = true) ->
      forall lat lon,
        is_finite lat = true -> is_finite lon = true ->
        Secundaria.haversine_km lat lon lat lon = Ok 0).
Proof.
  split.
  - intros Hs lat1 lon1 lat2 lon2.
    pose proof (haversine_km_sym lat1 lon1 lat2 lon2 Hs) as E.
    split; [exact E|].
    intros d1 d2 H1 H2 N. rewrite E, H2 in H1. injection H1 as ->.
    unfold is_nan in N. now apply negb_false_iff in N.
  - intros Hsin Hasin Hcos lat lon Flat Flon.
    now apply haversine_km_zero.
Qed.

End Simetria.

(** Rio de Janeiro and São Paulo in both orders, and Rio to itself,
    under the runtime of the examples. *)
Lemma haversine_km_simetrica_e_nula_witness :
  Secundaria.haversine_km (RT := Exemplo.runtime)
    (-22.90625) (-43.171875) (-23.546875) (-46.6328125)
  = Secundaria.haversine_km (RT := Exemplo.runtime)
      (-23.546875) (-46.6328125) (-22.90625) (-43.171875)
  /\ Secundaria.haversine_km (RT := Exemplo.runtime)
       (-22.90625) (-43.171875) (-22.90625) (-43.171875)
     = Ok 0%float.
Proof.
  split.
  - apply (proj1 (haversine_km_simetrica_e_nula (RT := Exemplo.runtime))).
    intros x. reflexivity.
  - apply (proj2 (haversine_km_simetrica_e_nula (RT := Exemplo.runtime)));
      reflexivity.
Defined.

(** ** The table under the handlers: ids, round trips, pages *)

Lemma insert_cases (co cd : str) (la1 lo1 la2 lo2 d : float) (ts : str)
  (obs : option str) (s s' : Store.t) (i : Z) :
  Store.insert co cd la1 lo1 la2 lo2 d ts obs s = Ok (i, s') ->
  i = (Store.seq s + 1)%Z
  /\ (- 9223372036854775808 <= i <= 9223372036854775807)%Z
  /\ existsb is_nan [la1; lo1; la2; lo2; d] = false
  /\ s' = Store.mk
            (Store.rows s
             ++ [Store.mk_consulta i co cd (Store.real la1) (Store.real lo1)
                   (Store.real la2) (Store.real lo2) (Store.real d) ts obs])
            i.
Proof.
  unfold Store.insert.
  destruct (Store.int64 (Store.seq s + 1)) eqn:R; [|discriminate].
  cbn [negb]. cbv iota.
  destruct (existsb is_nan _) eqn:N; [discriminate|].
  intros [= <- <-]. unfold Store.int64 in R.
  apply andb_true_iff in R. destruct R as [R1 R2].
  apply Z.leb_le in R1, R2. repeat split; auto.
Qed.


Lemma tabela_ok_insert (co cd : str) (la1 lo1 la2 lo2 d : float) (ts : str)
  (obs : option str) (s s' : Store.t) (i : Z) :
  tabela_ok s ->
  Store.insert co cd la1 lo1 la2 lo2 d ts obs s = Ok (i, s') ->
  tabela_ok s'.
Proof.
  intros [N F] I. apply insert_cases in I.
  destruct I as (-> & _ & _ & ->).
  unfold tabela_ok, ids in *. simpl.
  rewrite map_app. simpl. split.
  - apply NoDup_app; [exact N | repeat constructor; intros [] |].
    intros a Ha [E | []]. subst a.
    rewrite Forall_forall in F. specialize (F _ Ha). lia.
  - apply Forall_app. split.
    + eapply Forall_impl; [|exact F]. intros a Ha. simpl in Ha. lia.
    + repeat constructor. lia.
Qed.

Lemma ids_update (obs : option str) (i : Z) (s : Store.t) :
  ids (com_observacoes obs i s) = ids s.
Proof.
  unfold ids, com_observacoes. simpl. rewrite map_map.
  apply map_ext. intros r. now destruct (Store.id r =? i)%Z.
Qed.

Lemma tabela_ok_update (obs : option str) (i : Z) (s : Store.t) :
  tabela_ok s -> tabela_ok (com_observacoes obs i s).
Proof.
  unfold tabela_ok. rewrite ids_update. now simpl.
Qed.

Lemma update_observacoes_cases (obs : option str) (i : Z) (s s' : Store.t)
  (n : nat) :
  Store.update_observacoes obs i s = Ok (n, s') ->
  s' = com_observacoes obs i s.
Proof.
  unfold Store.update_observacoes.
  destruct (Store.bind_int i) as [j|] eqn:B; [|discriminate].
  apply bind_int_cases in B. destruct B as [-> _]. now intros [= _ <-].
Qed.

Lemma delete_ok (i : Z) (s : Store.t) :
  (- 9223372036854775808 <= i <= 9223372036854775807)%Z ->
  Store.delete i s
  = Ok (List.length (filter (fun r => (Store.id r =? i)%Z) (Store.rows s)),
        sem_linha i s).
Proof. intros H. unfold Store.delete. now rewrite (bind_int_ok i H). Qed.

Lemma delete_raise (i : Z) (s : Store.t) :
  (i < - 9223372036854775808 \/ 9223372036854775807 < i)%Z ->
  Store.delete i s = Raise OverflowError.
Proof. intros H. unfold Store.delete. now rewrite (bind_int_raise i H). Qed.

Lemma NoDup_map_filter {A : Type} (f : A -> Z) (p : A -> bool)
  (l : list A) :
  NoDup (map f l) -> NoDup (map f (filter p l)).
Proof.
  induction l as [|a l IH]; simpl; [intros; constructor|].
  intros N. inversion N as [|? ? Hn Hr]; subst.
  destruct (p a); simpl; [|now apply IH].
  constructor; [|now apply IH].
  intros Hin. apply Hn. apply in_map_iff in Hin.
  destruct Hin as (x & E & Hx). apply filter_In in Hx.
  apply in_map_iff. exists x. tauto.
Qed.

Lemma Forall_map_filter {A : Type} (f : A -> Z) (p : A -> bool)
  (P : Z -> Prop) (l : list A) :
  Forall P (map f l) -> Forall P (map f (filter p l)).
Proof.
  rewrite !Forall_forall. intros H x Hin. apply H.
  apply in_map_iff in Hin. destruct Hin as (a & E & Ha).
  apply filter_In in Ha. apply in_map_iff. exists a. tauto.
Qed.

Lemma tabela_ok_delete (i : Z) (s : Store.t) :
  tabela_ok s -> tabela_ok (sem_linha i s).
Proof.
  unfold tabela_ok, ids, sem_linha. simpl. intros [N F]. split.
  - now apply NoDup_map_filter.
  - now apply Forall_map_filter.
Qed.

Section Tabela.
Context {RT : Runtime}.

(** X1. Every handler of the API Principal keeps the table in the state
    AUTOINCREMENT promises: if no id occurs twice and none is above the
    counter before a request, the same holds after it, whatever the
    request and however the remote services answer. *)
Theorem handlers_mantem_tabela_ok (w : world) :
  tabela_ok (db w) ->
  (forall req, tabela_ok (db (snd (distancia_por_cep req w))))
  /\ (forall limit offset,
      tabela_ok (db (snd (listar_consultas limit offset w))))
  /\ (forall cid, tabela_ok (db (snd (obter_consulta cid w))))
  /\ (forall cid req, tabela_ok (db (snd (atualizar_consulta cid req w))))
  /\ (forall cid, tabela_ok (db (snd (excluir_consulta cid w)))).
Proof.
  intros T. split; [|split; [|split; [|split]]].
  - intros req. unfold distancia_por_cep.
    pose proof (persiste_try req w) as P.
    destruct (distancia_por_cep_try req w) as [[r|e] w1]; simpl;
      [|now rewrite P].
    destruct (status r =? 200)%Z; [|now rewrite P].
    destruct P as (i & co & cd & e1 & e2 & la1 & lo1 & la2 & lo2 & d & ts
                   & oj & obs & pre & _ & _ & I & _).
    exact (tabela_ok_insert co cd la1 lo1 la2 lo2 d ts obs (db w) _ i T I).
  - intros limit offset. unfold listar_consultas.
    destruct (int_arg limit 50); [|exact T].
    destruct (int_arg offset 0); [|exact T].
    now destruct (Store.select_page _ _ _).
  - intros cid. unfold obter_consulta.
    now destruct (Store.select_one cid (db w)) as [[row|]|e].
  - intros cid req. unfold atualizar_consulta.
    destruct (Py.get _ _) as [v|]; [|exact T].
    destruct (bind_text v) as [obs|]; [|exact T].
    destruct (Store.update_observacoes obs cid (db w)) as [[n s]|e] eqn:U;
      [|exact T].
    apply update_observacoes_cases in U. subst s.
    pose proof (tabela_ok_update obs cid (db w) T) as T'.
    destruct (n =? 0)%nat; [exact T'|].
    now destruct (Store.select_one cid _) as [[row|]|e].
  - intros cid. unfold excluir_consulta.
    destruct (int64_or_not cid) as [R | R].
    + rewrite (delete_ok cid _ R).
      pose proof (tabela_ok_delete cid (db w) T) as T'.
      now destruct (_ =? 0)%nat.
    + now rewrite (delete_raise cid _ R).
Qed.

End Tabela.

Lemma tabela_ok_tres_linhas : tabela_ok tres_linhas.
Proof.
  split.
  - repeat constructor; simpl; intuition discriminate.
  - repeat constructor; simpl; discriminate.
Qed.

(** The table of three rows through GET, PUT and DELETE. *)
Lemma handlers_mantem_tabela_ok_witness :
  tabela_ok (db (snd (excluir_consulta 1 (Exemplo.mundo [] tres_linhas))))
  /\ tabela_ok
       (db (snd (distancia_por_cep (RT := Exemplo.runtime) Exemplo.pedido
                   (Exemplo.mundo [] tres_linhas)))).
Proof.
  destruct (handlers_mantem_tabela_ok (RT := Exemplo.runtime)
              (Exemplo.mundo [] tres_linhas) tabela_ok_tres_linhas)
    as (H1 & _ & _ & _ & H5).
  split; [apply H5 | apply H1].
Defined.

Lemma find_snoc {A : Type} (f : A -> bool) (l : list A) (x : A) :
  find f (l ++ [x])
  = match find f l with
    | Some y => Some y
    | None => if f x then Some x else None
    end.
Proof.
  induction l as [|a l IH]; simpl; [reflexivity|].
  now destruct (f a).
Qed.

Lemma find_id_none (i : Z) (l : list Store.consulta) :
  Forall (fun j => (j < i)%Z) (map Store.id l) ->
  find (fun r => (Store.id r =? i)%Z) l = None.
Proof.
  induction l as [|a l IH]; simpl; [reflexivity|].
  intros F. inversion F as [|? ? Ha Hl]; subst.
  destruct (Z.eqb_spec (Store.id a) i); [lia | now apply IH].
Qed.

Lemma abaixo_do_novo (s : Store.t) :
  tabela_ok s ->
  Forall (fun j => (j < Store.seq s + 1)%Z) (map Store.id (Store.rows s)).
Proof.
  intros [_ F]. eapply Forall_impl; [|exact F].
  intros a Ha. simpl in Ha. lia.
Qed.

Lemma fold_insert_desc_head (x : Store.consulta) (l : list Store.consulta) :
  Forall (fun j => (j < Store.id x)%Z) (map Store.id l) ->
  fold_right Store.insert_desc [x] l = x :: Store.order_by_id_desc l.
Proof.
  unfold Store.order_by_id_desc.
  induction l as [|a l IH]; simpl; [reflexivity|].
  intros F. inversion F as [|? ? Ha Hl]; subst.
  rewrite (IH Hl). simpl.
  destruct (Z.leb_spec (Store.id x) (Store.id a)); [lia | reflexivity].
Qed.

Lemma order_by_id_desc_snoc (x : Store.consulta) (l : list Store.consulta) :
  Forall (fun j => (j < Store.id x)%Z) (map Store.id l) ->
  Store.order_by_id_desc (l ++ [x]) = x :: Store.order_by_id_desc l.
Proof.
  intros F. unfold Store.order_by_id_desc at 1. rewrite fold_right_app.
  simpl. now apply fold_insert_desc_head.
Qed.

Section DepoisDoPost.
Context {RT : Runtime}.

(** What a 200 answer of POST /distancia-por-cep says about the table. *)
Lemma post_200 (req : option json) (w : world) :
  status (fst (distancia_por_cep req w)) = 200%Z ->
  exists i co cd e1 e2 la1 lo1 la2 lo2 d ts oj obs,
    fst (distancia_por_cep req w)
    = (Criada i co cd e1 e2 la1 lo1 la2 lo2 (py_round d 3) ts oj, 200%Z)
    /\ bind_text oj = Ok obs
    /\ i = (Store.seq (db w) + 1)%Z
    /\ (- 9223372036854775808 <= i <= 9223372036854775807)%Z
    /\ db (snd (distancia_por_cep req w))
       = Store.mk
           (Store.rows (db w)
            ++ [Store.mk_consulta i co cd (Store.real la1) (Store.real lo1)
                  (Store.real la2) (Store.real lo2) (Store.real d) ts obs])
           i.
Proof.
  unfold distancia_por_cep. pose proof (persiste_try req w) as P.
  destruct (distancia_por_cep_try req w) as [[r|e] w1]; simpl.
  - intros S. apply Z.eqb_eq in S. rewrite S in P.
    destruct P as (i & co & cd & e1 & e2 & la1 & lo1 & la2 & lo2 & d & ts
                   & oj & obs & pre & R & B & I & _).
    exists i, co, cd, e1, e2, la1, lo1, la2, lo2, d, ts, oj, obs.
    apply insert_cases in I. destruct I as (Hi & Hr & _ & Hd).
    repeat split; auto; lia.
  - intros S. now apply traduz_erro_status in S.
Qed.

(** X2. Insert, then read. After a 200 answer of POST
    /distancia-por-cep on a table in the AUTOINCREMENT state, the id in
    the answer is the counter plus one, above every id stored before, and
    GET /consultas/<id> finds the row with the postal codes and timestamp
    of the answer and with its coordinates and the distance read from the
    delegate (of which the POST answer shows [round(d, 3)]) as a REAL
    column gives them back: unchanged, except that -0.0 reads as 0.0.
    Every other id reads as it did before. *)
Theorem post_depois_get (req : option json) (w : world) :
  tabela_ok (db w) ->
  status (fst (distancia_por_cep req w)) = 200%Z ->
  let w' := snd (distancia_por_cep req w) in
  exists i co cd e1 e2 la1 lo1 la2 lo2 d ts oj obs,
    fst (distancia_por_cep req w)
    = (Criada i co cd e1 e2 la1 lo1 la2 lo2 (py_round d 3) ts oj, 200%Z)
    /\ bind_text oj = Ok obs
    /\ i = (Store.seq (db w) + 1)%Z
    /\ Forall (fun j => (j < i)%Z) (ids (db w))
    /\ obter_consulta i w'
       = ((Registro
             (Store.mk_consulta i co cd (Store.real la1) (Store.real lo1)
                (Store.real la2) (Store.real lo2) (Store.real d) ts obs),
           200%Z), w')
    /\ (forall x, (x =? 0)%float = false -> Store.real x = x)
    /\ (forall x, (x =? 0)%float = true -> Store.real x = 0%float)
    /\ (forall j, j <> i ->
        fst (obter_consulta j w') = fst (obter_consulta j w)).
Proof.
  intros T S w'. subst w'.
  destruct (post_200 req w S)
    as (i & co & cd & e1 & e2 & la1 & lo1 & la2 & lo2 & d & ts & oj & obs
        & R & B & I & Rg & D).
  exists i, co, cd, e1, e2, la1, lo1, la2, lo2, d, ts, oj, obs.
  pose proof (abaixo_do_novo (db w) T) as F. rewrite <- I in F.
  split; [exact R|]. split; [exact B|]. split; [exact I|].
  split; [exact F|]. split; [|split; [|split]].
  - unfold obter_consulta. rewrite (select_one_ok i _ Rg), D.
    cbn [Store.rows].
    rewrite find_snoc, (find_id_none i _ F). cbn [Store.id].
    now rewrite Z.eqb_refl.
  - intros x E. unfold Store.real. now rewrite E.
  - intros x E. unfold Store.real. now rewrite E.
  - intros j N. unfold obter_consulta, Store.select_one.
    destruct (Store.bind_int j) as [j'|] eqn:Bj; [|reflexivity].
    apply bind_int_cases in Bj. destruct Bj as [-> _].
    rewrite D. cbn [Store.rows].
    rewrite find_snoc. cbn [Store.id].
    destruct (find (fun r => (Store.id r =? j)%Z) (Store.rows (db w)));
      [reflexivity|].
    destruct (Z.eqb_spec i j); [congruence | reflexivity].
Qed.

(** X3. Newest first. After a 200 answer of POST /distancia-por-cep on
    a table in the AUTOINCREMENT state, GET /consultas without
    parameters lists the new record first, followed by the records the
    same request listed before (as far as the limit of 50 allows). *)
Theorem post_depois_listar (req : option json) (w : world) :
  tabela_ok (db w) ->
  status (fst (distancia_por_cep req w)) = 200%Z ->
  let w' := snd (distancia_por_cep req w) in
  exists novo antes,
    Store.select_one (Store.seq (db w) + 1) (db w') = Ok (Some novo)
    /\ fst (listar_consultas None None w)
       = (Lista (List.length antes) antes, 200%Z)
    /\ fst (listar_consultas None None w')
       = (Lista (List.length (firstn 50 (novo :: antes)))
            (firstn 50 (novo :: antes)), 200%Z).
Proof.
  intros T St w'. subst w'.
  destruct (post_200 req w St)
    as (i & co & cd & e1 & e2 & la1 & lo1 & la2 & lo2 & d & ts & oj & obs
        & R & B & I & Rg & D).
  pose proof (abaixo_do_novo (db w) T) as F. rewrite <- I in F.
  set (novo := Store.mk_consulta i co cd (Store.real la1) (Store.real lo1)
                 (Store.real la2) (Store.real lo2) (Store.real d) ts obs)
    in *.
  assert (Z0 : (0 <= 9223372036854775807)%Z) by lia.
  exists novo, (firstn 50 (Store.order_by_id_desc (Store.rows (db w)))).
  split; [|split].
  - rewrite <- I, (select_one_ok i _ Rg), D. cbn [Store.rows].
    rewrite find_snoc, (find_id_none i _ F). cbn [Store.id novo].
    now rewrite Z.eqb_refl.
  - unfold listar_consultas. simpl int_arg. cbv iota.
    now rewrite (select_page_pagina 50 0 _ Z0).
  - unfold listar_consultas. simpl int_arg. cbv iota.
    rewrite (select_page_pagina 50 0 _ Z0). unfold pagina.
    rewrite D. simpl Store.rows.
    rewrite (order_by_id_desc_snoc novo _ F).
    change (Z.to_nat (Z.max 0 0)) with 0%nat.
    change (Z.to_nat (Z.max 1 (Z.min 50 200))) with 50%nat.
    simpl skipn.
    assert (E : firstn 50 (novo :: firstn 50 (Store.order_by_id_desc
                                                (Store.rows (db w))))
                = firstn 50 (novo :: Store.order_by_id_desc
                                       (Store.rows (db w)))).
    { change 50%nat with (S 49). rewrite !firstn_cons. f_equal.
      rewrite firstn_firstn. reflexivity. }
    rewrite E. reflexivity.
Qed.

End DepoisDoPost.

Lemma tabela_ok_empty : tabela_ok Store.empty.
Proof. split; constructor. Qed.

(** The successful run of the examples, then GET /consultas/1. *)
Lemma post_depois_get_witness :
  exists i co cd e1 e2 la1 lo1 la2 lo2 d ts oj obs,
    fst (distancia_por_cep (RT := Exemplo.runtime) Exemplo.pedido
           mundo_feliz)
    = (Criada i co cd e1 e2 la1 lo1 la2 lo2 d ts oj, 200%Z)
    /\ i = 1%Z
    /\ obter_consulta i
         (snd (distancia_por_cep (RT := Exemplo.runtime) Exemplo.pedido
                 mundo_feliz))
       = ((Registro
             (Store.mk_consulta i co cd (Store.real la1) (Store.real lo1)
                (Store.real la2) (Store.real lo2) (Store.real d) ts obs),
           200%Z),
          snd (distancia_por_cep (RT := Exemplo.runtime) Exemplo.pedido
                 mundo_feliz)).
Proof.
  destruct (post_depois_get (RT := Exemplo.runtime) Exemplo.pedido
              mundo_feliz tabela_ok_empty eq_refl)
    as (i & co & cd & e1 & e2 & la1 & lo1 & la2 & lo2 & d & ts & oj & obs
        & R & _ & I & _ & G & _).
  exists i, co, cd, e1, e2, la1, lo1, la2, lo2, d, ts, oj, obs.
  split; [exact R|]. split; [exact I | exact G].
Defined.

(** The successful run of the examples, then GET /consultas. *)
Lemma post_depois_listar_witness :
  exists novo antes,
    Store.select_one 1
      (db (snd (distancia_por_cep (RT := Exemplo.runtime) Exemplo.pedido
                  mundo_feliz)))
    = Ok (Some novo)
    /\ fst (listar_consultas (RT := Exemplo.runtime) None None
              (snd (distancia_por_cep (RT := Exemplo.runtime)
                      Exemplo.pedido mundo_feliz)))
       = (Lista (List.length (firstn 50 (novo :: antes)))
            (firstn 50 (novo :: antes)), 200%Z).
Proof.
  destruct (post_depois_listar (RT := Exemplo.runtime) Exemplo.pedido
              mundo_feliz tabela_ok_empty eq_refl)
    as (novo & antes & S1 & _ & L).
  exists novo, antes. split; [exact S1 | exact L].
Defined.

(** ** DELETE /consultas/<id> *)

Lemma find_filter_neq (i j : Z) (l : list Store.consulta) :
  j <> i ->
  find (fun r => (Store.id r =? j)%Z)
    (filter (fun r => negb (Store.id r =? i)%Z) l)
  = find (fun r => (Store.id r =? j)%Z) l.
Proof.
  intros N. induction l as [|a l IH]; simpl; [reflexivity|].
  destruct (Z.eqb_spec (Store.id a) i) as [E | E]; simpl.
  - destruct (Z.eqb_spec (Store.id a) j); [congruence | exact IH].
  - destruct (Store.id a =? j)%Z; [reflexivity | exact IH].
Qed.

Lemma find_filter_eq (i : Z) (l : list Store.consulta) :
  find (fun r => (Store.id r =? i)%Z)
    (filter (fun r => negb (Store.id r =? i)%Z) l) = None.
Proof.
  induction l as [|a l IH]; simpl; [reflexivity|].
  destruct (Store.id a =? i)%Z eqn:E; simpl; [exact IH|].
  now rewrite E.
Qed.

Lemma filter_id_nil (i : Z) (l : list Store.consulta) :
  find (fun r => (Store.id r =? i)%Z) l = None ->
  filter (fun r => (Store.id r =? i)%Z) l = []
  /\ filter (fun r => negb (Store.id r =? i)%Z) l = l.
Proof.
  induction l as [|a l IH]; simpl; [now split|].
  destruct (Store.id a =? i)%Z; [discriminate|]. simpl.
  intros H. destruct (IH H) as [F G]. split; [exact F | now rewrite G].
Qed.

Lemma find_some_id (i : Z) (l : list Store.consulta) (row : Store.consulta) :
  find (fun r => (Store.id r =? i)%Z) l = Some row ->
  Store.id row = i /\ In row l.
Proof.
  intros H. apply find_some in H. destruct H as [I E].
  apply Z.eqb_eq in E. now split.
Qed.

Section Excluir.
Context {RT : Runtime}.

Lemma excluir_consulta_run (cid : Z) (w : world) :
  (- 9223372036854775808 <= cid <= 9223372036854775807)%Z ->
  excluir_consulta cid w
  = (if (List.length (filter (fun r => (Store.id r =? cid)%Z)
                        (Store.rows (db w))) =? 0)%nat
     then (NaoEncontrada, 404%Z) else (Excluida cid, 200%Z),
     mk_world (remote w) (calls w) (sem_linha cid (db w)) (utcnow w)).
Proof.
  intros R. unfold excluir_consulta. rewrite (delete_ok cid _ R).
  now destruct (_ =? 0)%nat.
Qed.

(** X4. DELETE /consultas/<id> of a stored id answers 200 and removes
    the record for good: a GET of the id then answers 404 and so does a
    second DELETE, while every other id reads as before and the id
    counter, the remote side and the clock are untouched. Of an id
    below 2^63 that is not stored it answers 404 and leaves the world as
    it is; an id from 2^63 on, which sqlite3 cannot bind, is answered
    500, the world again as it is. *)
Theorem excluir_consulta_spec (cid : Z) (w : world) :
  let w' := snd (excluir_consulta cid w) in
  (forall row, Store.select_one cid (db w) = Ok (Some row) ->
     fst (excluir_consulta cid w) = (Excluida cid, 200%Z)
     /\ obter_consulta cid w' = ((NaoEncontrada, 404%Z), w')
     /\ excluir_consulta cid w' = ((NaoEncontrada, 404%Z), w')
     /\ (List.length (Store.rows (db w'))
         < List.length (Store.rows (db w)))%nat)
  /\ (Store.select_one cid (db w) = Ok None ->
      excluir_consulta cid w = ((NaoEncontrada, 404%Z), w))
  /\ ((9223372036854775807 < cid)%Z ->
      excluir_consulta cid w = ((ErroInterno OverflowError, 500%Z), w))
  /\ (forall j, j <> cid ->
      fst (obter_consulta j w') = fst (obter_consulta j w))
  /\ ((- 9223372036854775808 <= cid <= 9223372036854775807)%Z ->
      Store.rows (db w')
      = filter (fun r => negb (Store.id r =? cid)%Z) (Store.rows (db w)))
  /\ Store.seq (db w') = Store.seq (db w)
  /\ remote w' = remote w /\ calls w' = calls w /\ utcnow w' = utcnow w.
Proof.
  intros w'.
  assert (W : (- 9223372036854775808 <= cid <= 9223372036854775807)%Z ->
              w' = mk_world (remote w) (calls w) (sem_linha cid (db w))
                     (utcnow w)).
  { intros R. subst w'. now rewrite (excluir_consulta_run cid w R). }
  assert (V : (cid < - 9223372036854775808
               \/ 9223372036854775807 < cid)%Z ->
              excluir_consulta cid w
              = ((ErroInterno OverflowError, 500%Z), w)).
  { intros R. unfold excluir_consulta. now rewrite (delete_raise cid _ R). }
  split; [|split; [|split; [|split; [|split]]]].
  - intros row F. apply select_one_cases in F. destruct F as [R F].
    specialize (W R).
    pose proof (filter_find_some cid _ row F) as L.
    split; [|split; [|split]].
    + rewrite (excluir_consulta_run cid w R).
      apply Nat.eqb_neq in L. now rewrite L.
    + rewrite W. unfold obter_consulta. rewrite (select_one_ok cid _ R).
      cbn [db sem_linha Store.rows]. now rewrite find_filter_eq.
    + rewrite W. rewrite (excluir_consulta_run cid _ R).
      cbn [db sem_linha Store.rows Store.seq remote calls utcnow].
      pose proof (find_filter_eq cid (Store.rows (db w))) as N.
      destruct (filter_id_nil cid _ N) as [E1 E2].
      unfold sem_linha. cbn [Store.rows Store.seq].
      rewrite E1, E2. reflexivity.
    + rewrite W. cbn [db sem_linha Store.rows].
      pose proof (filter_length (fun r => (Store.id r =? cid)%Z)
                    (Store.rows (db w))) as FL.
      destruct (filter (fun r => (Store.id r =? cid)%Z)
                  (Store.rows (db w))); [now elim L|].
      simpl in FL. lia.
  - intros F. apply select_one_cases in F. destruct F as [R F].
    destruct (filter_id_nil cid _ F) as [E1 E2].
    rewrite (excluir_consulta_run cid w R). unfold sem_linha.
    rewrite E1, E2. simpl.
    now destruct w as [rm cs [rs sq] ck].
  - intros R. apply V. lia.
  - intros j N. destruct (int64_or_not cid) as [R | R].
    + rewrite (W R). unfold obter_consulta, Store.select_one.
      destruct (Store.bind_int j) as [j'|] eqn:Bj; [|reflexivity].
      apply bind_int_cases in Bj. destruct Bj as [-> _].
      cbn [db sem_linha Store.rows].
      rewrite (find_filter_neq cid j _ N).
      now destruct (find _ _).
    + subst w'. now rewrite (V R).
  - intros R. now rewrite (W R).
  - destruct (int64_or_not cid) as [R | R].
    + rewrite (W R). simpl. repeat split.
    + subst w'. rewrite (V R). simpl. repeat split.
Qed.

(** X5. Ids are not reused. On a table in the AUTOINCREMENT state,
    once a stored record is deleted, no later successful POST
    /distancia-por-cep on that table gets its id again: the new id is
    above the deleted one. *)
Theorem id_excluido_nao_volta (cid : Z) (w w2 : world)
  (row : Store.consulta) (req : option json) :
  tabela_ok (db w) ->
  Store.select_one cid (db w) = Ok (Some row) ->
  db w2 = db (snd (excluir_consulta cid w)) ->
  status (fst (distancia_por_cep req w2)) = 200%Z ->
  exists i co cd e1 e2 la1 lo1 la2 lo2 d ts oj,
    fst (distancia_por_cep req w2)
    = (Criada i co cd e1 e2 la1 lo1 la2 lo2 d ts oj, 200%Z)
    /\ (cid < i)%Z
    /\ Store.select_one cid (db (snd (distancia_por_cep req w2)))
       = Ok None.
Proof.
  intros [_ T] F D St.
  destruct (post_200 req w2 St)
    as (i & co & cd & e1 & e2 & la1 & lo1 & la2 & lo2 & d & ts & oj & obs
        & R & _ & I & _ & D2).
  exists i, co, cd, e1, e2, la1, lo1, la2, lo2, (py_round d 3), ts, oj.
  apply select_one_cases in F. destruct F as [Rg F].
  assert (Q : Store.seq (db w2) = Store.seq (db w)
              /\ Store.rows (db w2)
                 = filter (fun r => negb (Store.id r =? cid)%Z)
                     (Store.rows (db w))).
  { rewrite D, (excluir_consulta_run cid w Rg). now split. }
  destruct Q as [Q1 Q2].
  apply find_some_id in F.
  destruct F as [Fi Fin].
  assert (C : (cid <= Store.seq (db w))%Z).
  { rewrite Forall_forall in T. apply T. unfold ids.
    apply in_map_iff. exists row. now split. }
  split; [exact R|]. split; [lia|].
  rewrite (select_one_ok cid _ Rg), D2. cbn [Store.rows].
  rewrite find_snoc, Q2, find_filter_eq. cbn [Store.id].
  destruct (Z.eqb_spec i cid); [lia | reflexivity].
Qed.

End Excluir.

(** DELETE /consultas/1 on the table of three rows, and the id of a
    successful POST on what is left. *)
Lemma excluir_consulta_spec_witness :
  fst (excluir_consulta 1 (Exemplo.mundo [] tres_linhas))
  = (Excluida 1, 200%Z)
  /\ fst (obter_consulta 1
            (snd (excluir_consulta 1 (Exemplo.mundo [] tres_linhas))))
     = (NaoEncontrada, 404%Z).
Proof.
  destruct (proj1 (excluir_consulta_spec 1 (Exemplo.mundo [] tres_linhas))
              (Exemplo.linha 1 (Some (lit "antiga"))) eq_refl)
    as (H1 & H2 & _).
  split; [exact H1 | now rewrite H2].
Defined.

Lemma id_excluido_nao_volta_witness :
  exists i co cd e1 e2 la1 lo1 la2 lo2 d ts oj,
    fst (distancia_por_cep (RT := Exemplo.runtime) Exemplo.pedido
           (mk_world (remote mundo_feliz) []
              (db (snd (excluir_consulta 3
                          (Exemplo.mundo [] tres_linhas))))
              (utcnow mundo_feliz)))
    = (Criada i co cd e1 e2 la1 lo1 la2 lo2 d ts oj, 200%Z)
    /\ (3 < i)%Z.
Proof.
  destruct (id_excluido_nao_volta (RT := Exemplo.runtime) 3
              (Exemplo.mundo [] tres_linhas)
              (mk_world (remote mundo_feliz) []
                 (db (snd (excluir_consulta 3
                             (Exemplo.mundo [] tres_linhas))))
                 (utcnow mundo_feliz))
              (Exemplo.linha 3 None) Exemplo.pedido
              tabela_ok_tres_linhas eq_refl eq_refl eq_refl)
    as (i & co & cd & e1 & e2 & la1 & lo1 & la2 & lo2 & d & ts & oj
        & R & L & _).
  exists i, co, cd, e1, e2, la1, lo1, la2, lo2, d, ts, oj.
  split; [exact R | exact L].
Defined.

(** ** Pages of GET /consultas *)

Lemma firstn_plus {A : Type} (n m : nat) (l : list A) :
  firstn (n + m) l = firstn n l ++ firstn m (skipn n l).
Proof.
  revert l. induction n as [|n IH]; intros l; [reflexivity|].
  destruct l as [|a l]; simpl; [now rewrite firstn_nil|].
  f_equal. apply IH.
Qed.

Lemma firstn_twice {A : Type} (n o : nat) (l : list A) :
  firstn n (skipn o l) ++ firstn n (skipn (o + n) l)
  = firstn (n + n) (skipn o l).
Proof.
  rewrite (Nat.add_comm o n), <- skipn_skipn. symmetry.
  apply firstn_plus.
Qed.

Lemma NoDup_firstn_skipn {A : Type} (n o : nat) (l : list A) :
  NoDup l -> NoDup (firstn n (skipn o l)).
Proof.
  intros N.
  assert (N1 : NoDup (skipn o l)).
  { rewrite <- (firstn_skipn o l) in N. now apply NoDup_app_remove_l in N. }
  rewrite <- (firstn_skipn n (skipn o l)) in N1.
  now apply NoDup_app_remove_r in N1.
Qed.

Lemma In_firstn_skipn {A : Type} (n o : nat) (l : list A) (x : A) :
  In x (firstn n (skipn o l)) -> In x l.
Proof.
  intros H. rewrite <- (firstn_skipn o l). apply in_or_app. right.
  rewrite <- (firstn_skipn n (skipn o l)). apply in_or_app. now left.
Qed.

Section Paginas.
Context {RT : Runtime}.

(** X6. Consecutive pages. For a limit [l] within 1..200 and an offset
    [o >= 0] with [o + l] below 2^63 (beyond which sqlite3 cannot bind
    the offset), the page at offset [o] followed by the page at offset
    [o + l] is the first [2 l] records after the first [o], newest first:
    paging skips nothing, a page shorter than [l] is followed by an empty
    one, and on a table without repeated ids no record is on both. *)
Theorem paginas_consecutivas (limit off1 off2 : option str) (l o : Z)
  (w : world) :
  int_arg limit 50 = Ok l ->
  int_arg off1 0 = Ok o ->
  int_arg off2 0 = Ok (o + l)%Z ->
  (1 <= l <= 200)%Z -> (0 <= o)%Z ->
  (o + l <= 9223372036854775807)%Z ->
  exists p1 p2,
    fst (listar_consultas limit off1 w) = (Lista (List.length p1) p1, 200%Z)
    /\ fst (listar_consultas limit off2 w)
       = (Lista (List.length p2) p2, 200%Z)
    /\ p1 ++ p2
       = firstn (Z.to_nat (2 * l))
           (skipn (Z.to_nat o)
              (Store.order_by_id_desc (Store.rows (db w))))
    /\ ((List.length p1 < Z.to_nat l)%nat -> p2 = [])
    /\ (NoDup (ids (db w)) -> NoDup (map Store.id (p1 ++ p2))).
Proof.
  intros Hl H1 H2 Bl Bo Bm.
  set (L := Store.order_by_id_desc (Store.rows (db w))).
  exists (firstn (Z.to_nat l) (skipn (Z.to_nat o) L)),
    (firstn (Z.to_nat l) (skipn (Z.to_nat o + Z.to_nat l) L)).
  assert (C1 : clamp_limit l = l) by (unfold clamp_limit; lia).
  assert (C2 : clamp_offset o = o) by (unfold clamp_offset; lia).
  assert (C3 : clamp_offset (o + l) = (o + l)%Z)
    by (unfold clamp_offset; lia).
  assert (E : firstn (Z.to_nat l) (skipn (Z.to_nat o) L)
              ++ firstn (Z.to_nat l) (skipn (Z.to_nat o + Z.to_nat l) L)
              = firstn (Z.to_nat (2 * l)) (skipn (Z.to_nat o) L)).
  { rewrite firstn_twice. f_equal. lia. }
  split; [|split; [|split; [|split]]].
  - unfold listar_consultas. rewrite Hl, H1, C1, C2.
    unfold Store.select_page, Store.limit_offset.
    rewrite !bind_int_ok by lia.
    destruct (Z.ltb_spec l 0); [lia | reflexivity].
  - unfold listar_consultas. rewrite Hl, H2, C1, C3.
    unfold Store.select_page, Store.limit_offset.
    rewrite !bind_int_ok by lia.
    destruct (Z.ltb_spec l 0); [lia|].
    replace (Z.to_nat (o + l)) with (Z.to_nat o + Z.to_nat l)%nat by lia.
    reflexivity.
  - exact E.
  - intros Short. rewrite length_firstn in Short.
    rewrite (Nat.add_comm (Z.to_nat o)), <- skipn_skipn.
    rewrite (skipn_all2 (n := Z.to_nat l)); [apply firstn_nil | lia].
  - intros N. rewrite E, <- firstn_map, <- skipn_map.
    apply NoDup_firstn_skipn.
    eapply Permutation_NoDup; [|exact N].
    apply Permutation_sym, Permutation_map, order_by_id_desc_perm.
Qed.

(** X7. What a page can hold. For an offset below 2^63, every item
    GET /consultas returns is a stored row; with offset 0 (or less) and
    a clamped limit that covers the table it returns all rows, each
    once; with an offset at or beyond the number of rows it returns the
    empty list with status 200. An offset from 2^63 on, which sqlite3
    cannot bind, and a limit or offset that [int()] rejects give 500
    with no list. The world is never changed. *)
Theorem listar_consultas_conteudo (limit offset : option str) (w : world) :
  snd (listar_consultas limit offset w) = w
  /\ (forall l o,
      int_arg limit 50 = Ok l -> int_arg offset 0 = Ok o ->
      (9223372036854775807 < o)%Z ->
      fst (listar_consultas limit offset w)
      = (ErroInesperado OverflowError, 500%Z))
  /\ (forall l o,
      int_arg limit 50 = Ok l -> int_arg offset 0 = Ok o ->
      (o <= 9223372036854775807)%Z ->
      exists itens,
        fst (listar_consultas limit offset w)
        = (Lista (List.length itens) itens, 200%Z)
        /\ (forall r, In r itens -> In r (Store.rows (db w)))
        /\ ((o <= 0)%Z ->
            (Z.of_nat (List.length (Store.rows (db w))) <= clamp_limit l)%Z ->
            Permutation itens (Store.rows (db w)))
        /\ ((Z.of_nat (List.length (Store.rows (db w))) <= o)%Z ->
            itens = []))
  /\ (forall e, int_arg limit 50 = Raise e ->
      fst (listar_consultas limit offset w) = (ErroInesperado e, 500%Z))
  /\ (forall l e, int_arg limit 50 = Ok l -> int_arg offset 0 = Raise e ->
      fst (listar_consultas limit offset w) = (ErroInesperado e, 500%Z))
  /\ (forall s, limit = Some s -> int_of_str s = None ->
      int_arg limit 50 = Raise (ValueError IntLiteral)).
Proof.
  split; [|split; [|split; [|split; [|split]]]].
  - unfold listar_consultas. destruct (int_arg limit 50); [|reflexivity].
    destruct (int_arg offset 0); [|reflexivity].
    now destruct (Store.select_page _ _ _).
  - intros l o Hl Ho Bm. unfold listar_consultas. rewrite Hl, Ho.
    now rewrite (select_page_overflow l o _ Bm).
  - intros l o Hl Ho Bm.
    set (L := Store.order_by_id_desc (Store.rows (db w))).
    pose proof (order_by_id_desc_perm (Store.rows (db w))) as P.
    fold L in P.
    exists (pagina l o (db w)). split; [|split; [|split]].
    + unfold listar_consultas. rewrite Hl, Ho.
      now rewrite (select_page_pagina l o _ Bm).
    + intros r Hin. unfold pagina in Hin.
      apply In_firstn_skipn in Hin.
      eapply Permutation_in; [exact P | exact Hin].
    + intros Hz Hc. unfold pagina. fold L.
      replace (Z.to_nat (Z.max 0 o)) with 0%nat by lia. simpl skipn.
      rewrite firstn_all2; [exact P|].
      rewrite (Permutation_length P). unfold clamp_limit in Hc. lia.
    + intros Hz. unfold pagina. fold L.
      rewrite skipn_all2; [now destruct (Z.to_nat _)|].
      rewrite (Permutation_length P). lia.
  - intros e Hl. unfold listar_consultas. now rewrite Hl.
  - intros l e Hl Ho. unfold listar_consultas. now rewrite Hl, Ho.
  - intros s -> H. unfold int_arg, Py.to_int. now rewrite H.
Qed.

End Paginas.

(** Pages of one record each on the table of three rows, and the full
    list. *)
Lemma paginas_consecutivas_witness :
  exists p1 p2,
    fst (listar_consultas (RT := Exemplo.runtime) (Some (lit "1"))
           (Some (lit "0")) (Exemplo.mundo [] tres_linhas))
    = (Lista (List.length p1) p1, 200%Z)
    /\ fst (listar_consultas (RT := Exemplo.runtime) (Some (lit "1"))
              (Some (lit "1")) (Exemplo.mundo [] tres_linhas))
       = (Lista (List.length p2) p2, 200%Z)
    /\ p1 ++ p2 = [Exemplo.linha 3 None; Exemplo.linha 2 None].
Proof.
  assert (B1 : (1 <= 1 <= 200)%Z) by (split; discriminate).
  assert (B2 : (0 <= 0)%Z) by discriminate.
  assert (B3 : (0 + 1 <= 9223372036854775807)%Z) by discriminate.
  destruct (paginas_consecutivas (RT := Exemplo.runtime) (Some (lit "1"))
              (Some (lit "0")) (Some (lit "1")) 1 0
              (Exemplo.mundo [] tres_linhas) eq_refl eq_refl eq_refl B1 B2
              B3)
    as (p1 & p2 & H1 & H2 & E & _).
  exists p1, p2. split; [exact H1|]. split; [exact H2 | exact E].
Defined.

Lemma listar_consultas_conteudo_witness :
  exists itens,
    fst (listar_consultas (RT := Exemplo.runtime) None None
           (Exemplo.mundo [] tres_linhas))
    = (Lista (List.length itens) itens, 200%Z)
    /\ Permutation itens (Store.rows tres_linhas).
Proof.
  assert (B : (0 <= 9223372036854775807)%Z) by discriminate.
  destruct (proj1 (proj2 (proj2 (listar_consultas_conteudo
                                   (RT := Exemplo.runtime) None None
                                   (Exemplo.mundo [] tres_linhas))))
              50%Z 0%Z eq_refl eq_refl B) as (itens & H & _ & P & _).
  exists itens. split; [exact H|]. apply P; vm_compute; discriminate.
Defined.

(** ** The geocoder beyond the fallback rule *)

Section GeocoderCasos.
Context {RT : Runtime}.





End GeocoderCasos.





(** ** Trimming, splitting and joining *)

Lemma lstrip_head (s : str) :
  match lstrip s with [] => True | c :: _ => is_space c = false end.
Proof.
  induction s as [|c s IH]; simpl; [exact I|].
  destruct (is_space c) eqn:E; [exact IH | exact E].
Qed.

Lemma lstrip_id (s : str) :
  match s with [] => True | c :: _ => is_space c = false end ->
  lstrip s = s.
Proof. destruct s as [|c s]; simpl; [reflexivity|]. now intros ->. Qed.

Lemma lstrip_snoc (s : str) (c : char) :
  is_space c = false -> lstrip (s ++ [c]) = lstrip s ++ [c].
Proof.
  intros H. induction s as [|x s IH]; simpl; [now rewrite H|].
  now destruct (is_space x).
Qed.

Lemma rstrip_cons (c : char) (s : str) :
  is_space c = false -> rstrip (c :: s) = c :: rstrip s.
Proof.
  intros H. unfold rstrip. simpl.
  now rewrite (lstrip_snoc _ _ H), rev_app_distr.
Qed.

Lemma strip_aparado (s : str) : aparado (strip s).
Proof.
  unfold aparado, strip. split.
  - pose proof (lstrip_head s) as H.
    destruct (lstrip s) as [|c r]; [exact I|].
    now rewrite (rstrip_cons c r H).
  - unfold rstrip. rewrite rev_involutive. apply lstrip_head.
Qed.

Lemma strip_id (s : str) : aparado s -> strip s = s.
Proof.
  intros [H1 H2]. unfold strip, rstrip.
  rewrite (lstrip_id s H1), (lstrip_id (rev s) H2).
  apply rev_involutive.
Qed.

Lemma In_lstrip (x : char) (s : str) : In x (lstrip s) -> In x s.
Proof.
  induction s as [|c s IH]; simpl; [tauto|].
  destruct (is_space c); simpl; tauto.
Qed.

Lemma In_strip (x : char) (s : str) : In x (strip s) -> In x s.
Proof.
  unfold strip, rstrip. intros H.
  apply In_lstrip. apply in_rev. apply In_lstrip. now apply in_rev.
Qed.

Lemma remove_char_id (c : char) (s : str) :
  ~ In c s -> remove_char c s = s.
Proof.
  intros H. unfold remove_char. induction s as [|x s IH]; simpl;
    [reflexivity|].
  destruct (N.eqb_spec x c) as [E | E]; simpl.
  - exfalso. apply H. now left.
  - f_equal. apply IH. intros Hin. apply H. now right.
Qed.

Lemma remove_char_hyphens (s : str) :
  Forall (fun x => x = hyphen) s -> remove_char hyphen s = [].
Proof.
  induction 1 as [|x s -> _ IH]; simpl; [reflexivity | exact IH].
Qed.

Section Normalizacao.
Context {RT : Runtime}.

(** X10. What ViaCEP is asked. Whatever string [via_cep] is given, it
    makes exactly one call, and the code in that call has no hyphen and
    neither starts nor ends with whitespace; normalising it again
    changes nothing. A non-empty string of hyphens only, which passes the
    input check of the endpoint, is looked up as the empty code. *)
Theorem via_cep_envia_normalizado (cep : str) (w : world) :
  let c := cep_normalizado cep in
  calls (snd (via_cep cep w)) = calls w ++ [GetViaCep c]
  /\ ~ In hyphen c
  /\ aparado c
  /\ cep_normalizado c = c
  /\ (forall x, In x c -> In x cep)
  /\ (cep <> [] -> Forall (fun x => x = hyphen) cep ->
      is_empty (strip cep) = false /\ c = []).
Proof.
  intros c.
  assert (NH : ~ In hyphen c).
  { unfold c, cep_normalizado, remove_char. intros H.
    apply In_strip, filter_In in H. destruct H as [_ H].
    now rewrite N.eqb_refl in H. }
  assert (A : aparado c) by apply strip_aparado.
  split; [|split; [|split; [|split; [|split]]]].
  - now rewrite via_cep_world.
  - exact NH.
  - exact A.
  - unfold cep_normalizado at 1. rewrite (remove_char_id _ _ NH).
    now apply strip_id.
  - intros x H. unfold c, cep_normalizado, remove_char in H.
    apply In_strip, filter_In in H. tauto.
  - intros N F. split.
    + rewrite strip_id.
      * now destruct cep.
      * split.
        -- destruct F as [|x s -> _]; [exact I | reflexivity].
        -- apply Forall_rev in F.
           destruct F as [|x s -> _]; [exact I | reflexivity].
    + unfold c, cep_normalizado. now rewrite (remove_char_hyphens _ F).
Qed.

End Normalizacao.

(** ** The query builder beyond normalized addresses *)

Lemma strs_of_type_error (l : list json) (v : json) :
  In v l -> (forall s, v <> JStr s) -> strs_of l = Raise TypeError.
Proof.
  intros Hin Hv. induction l as [|a l IH]; [destruct Hin|].
  destruct Hin as [-> | Hin].
  - destruct v; try reflexivity. now elim (Hv s).
  - simpl. destruct a; try reflexivity. now rewrite (IH Hin).
Qed.

Lemma strs_of_snoc (l : list json) (c : str) (r : list str) :
  strs_of (l ++ [JStr c]) = Ok r -> exists r', r = r' ++ [c].
Proof.
  revert r. induction l as [|a l IH]; simpl; intros r.
  - intros [= <-]. now exists [].
  - destruct a; try discriminate.
    destruct (strs_of (l ++ [JStr c])) as [r0|]; [|discriminate].
    intros [= <-]. destruct (IH r0 eq_refl) as (r' & ->).
    now exists (s :: r').
Qed.

Lemma join_snoc (sp : str) (l : list str) (c : str) :
  exists pre, join sp (l ++ [c]) = pre ++ c.
Proof.
  induction l as [|a l IH]; simpl; [now exists []|].
  destruct IH as (pre & E).
  destruct (l ++ [c]) as [|b r] eqn:L; [now destruct l|].
  rewrite E. exists (a ++ sp ++ pre). now rewrite <- !app_assoc.
Qed.

Lemma strs_of_all_str (l : list json) :
  Forall (fun v => exists s, v = JStr s) l -> exists r, strs_of l = Ok r.
Proof.
  induction 1 as [|v l (s & ->) _ (r & IH)]; simpl; [now exists []|].
  rewrite IH. now exists (s :: r).
Qed.

(** X11. The query builder outside normalized addresses. A value that
    is not an object has no [get]: AttributeError. An address field that
    is truthy but not a string (a number, a non-empty list) makes the
    join fail: TypeError. When the builder returns, the query ends with
    "Brazil", so it is never empty; and it does return whenever each of
    the four fields is absent, falsy or a string. *)
Theorem endereco_para_query_bordas :
  (forall v, (forall d, v <> JObj d) ->
     endereco_para_query v = Raise AttributeError)
  /\ (forall d k v, chave_de_endereco k ->
      Py.lookup k d = Some v -> Py.truthy v = true ->
      (forall s, v <> JStr s) ->
      endereco_para_query (JObj d) = Raise TypeError)
  /\ (forall d q, endereco_para_query (JObj d) = Ok q ->
      exists pre, q = pre ++ lit "Brazil")
  /\ (forall d,
      (forall k, chave_de_endereco k ->
         match Py.lookup k d with
         | None => True
         | Some v => Py.truthy v = false \/ exists s, v = JStr s
         end) ->
      exists q, endereco_para_query (JObj d) = Ok q).
Proof.
  split; [|split; [|split]].
  - intros v H. destruct v; try reflexivity. now elim (H fields).
  - intros d k v K L T NS. unfold endereco_para_query, Py.get.
    set (c1 := Py.or_else _ _). set (c2 := Py.or_else _ _).
    set (c3 := Py.or_else _ _). set (c4 := Py.or_else _ _).
    rewrite (strs_of_type_error _ v); [reflexivity | | exact NS].
    apply filter_In. split; [|exact T].
    assert (E : Py.or_else v (JStr []) = v)
      by (unfold Py.or_else; now rewrite T).
    destruct K as [-> | [-> | [-> | ->]]].
    + left. unfold c1. now rewrite L.
    + right. left. unfold c2. now rewrite L.
    + right. right. left. unfold c3. now rewrite L.
    + right. right. right. left. unfold c4. now rewrite L.
  - intros d q. unfold endereco_para_query, Py.get.
    set (c1 := Py.or_else _ _). set (c2 := Py.or_else _ _).
    set (c3 := Py.or_else _ _). set (c4 := Py.or_else _ _).
    change [c1; c2; c3; c4; JStr country]
      with ([c1; c2; c3; c4] ++ [JStr country]).
    rewrite filter_app.
    change (filter Py.truthy [JStr country]) with [JStr country].
    destruct (strs_of _) as [r|] eqn:S; [|discriminate].
    intros [= <-]. apply strs_of_snoc in S. destruct S as (r' & ->).
    apply join_snoc.
  - intros d H. unfold endereco_para_query, Py.get.
    set (c1 := Py.or_else _ _). set (c2 := Py.or_else _ _).
    set (c3 := Py.or_else _ _). set (c4 := Py.or_else _ _).
    assert (G : forall k, chave_de_endereco k ->
                exists s, Py.or_else
                            (match Py.lookup k d with
                             | Some x => x
                             | None => JNull
                             end) (JStr []) = JStr s).
    { intros k K. specialize (H k K). unfold Py.or_else.
      destruct (Py.lookup k d) as [v|]; [|now exists []].
      destruct H as [F | (s & ->)].
      - rewrite F. now exists [].
      - simpl. destruct s; simpl; eauto. }
    destruct (strs_of_all_str (filter Py.truthy
                                 [c1; c2; c3; c4; JStr country]))
      as (r & R).
    { apply Forall_forall. intros v Hin. apply filter_In in Hin.
      destruct Hin as [Hin _].
      destruct Hin as [<- | [<- | [<- | [<- | [<- | []]]]]].
      - apply G. now left.
      - apply G. right. now left.
      - apply G. right. right. now left.
      - apply G. right. right. now right.
      - now exists country. }
    rewrite R. eauto.
Qed.

(** An address whose house number came as a JSON number. *)
Lemma endereco_para_query_bordas_witness :
  endereco_para_query
    (JObj [(lit "logradouro", JInt 12); (lit "uf", JStr (lit "SP"))])
  = Raise TypeError.
Proof.
  apply (proj1 (proj2 endereco_para_query_bordas)
           [(lit "logradouro", JInt 12); (lit "uf", JStr (lit "SP"))]
           (lit "logradouro") (JInt 12)).
  - now left.
  - reflexivity.
  - reflexivity.
  - discriminate.
Defined.

(** The one call of [via_cep] for " 01001-000 ", and the code "--". *)
Lemma via_cep_envia_normalizado_witness :
  calls (snd (via_cep (lit " 01001-000 ") (Exemplo.mundo [] Store.empty)))
  = [GetViaCep (lit "01001000")]
  /\ is_empty (strip (lit "--")) = false
  /\ cep_normalizado (lit "--") = [].
Proof.
  split.
  - exact (proj1 (via_cep_envia_normalizado (lit " 01001-000 ")
                    (Exemplo.mundo [] Store.empty))).
  - apply (proj2 (proj2 (proj2 (proj2 (proj2
             (via_cep_envia_normalizado (lit "--")
                (Exemplo.mundo [] Store.empty))))))).
    + discriminate.
    + repeat constructor.
Defined.

(** ** The outbound calls of POST /distancia-por-cep *)

Lemma estende_refl (w : world) : estende w w [].
Proof. unfold estende. now rewrite app_nil_r. Qed.

Lemma estende_trans (w w1 w2 : world) (l1 l2 : list request) :
  estende w w1 l1 -> estende w1 w2 l2 -> estende w w2 (l1 ++ l2).
Proof.
  intros (R1 & U1 & C1) (R2 & U2 & C2). unfold estende.
  rewrite R2, U2, C2, C1, app_assoc. auto.
Qed.

Lemma estende_registra (rq : request) (w : world) :
  estende w (registra rq w) [rq].
Proof. now unfold estende, registra. Qed.

Lemma traduz_erro_codigos (e : exn) :
  status (traduz_erro e) = 400%Z \/ status (traduz_erro e) = 500%Z
  \/ status (traduz_erro e) = 502%Z.
Proof.
  unfold traduz_erro. destruct (is_ValueError e); [now left|].
  destruct (is_RequestException e); [right; now right | right; now left].
Qed.

Section Roteiro.
Context {RT : Runtime}.

Lemma via_cep_estende (cep : str) (w : world) :
  estende w (snd (via_cep cep w)) [GetViaCep (cep_normalizado cep)].
Proof. rewrite via_cep_world. apply estende_registra. Qed.

Lemma search_estende (q : str) (w : world) :
  estende w (snd (_search q w)) [GetNominatim q].
Proof. rewrite search_world. apply estende_registra. Qed.

(** One or two lookups, and nothing else, whatever the search ends in. *)
Lemma geocode_osm_estende (q : str) (w : world) :
  exists gs,
    estende w (snd (geocode_osm q w)) gs
    /\ forallb e_nominatim gs = true
    /\ (1 <= List.length gs <= 2)%nat.
Proof.
  unfold geocode_osm, bind.
  pose proof (search_estende q w) as E1.
  destruct (_search q w) as [[[c|]|e] w1]; cbn [snd] in E1.
  - exists [GetNominatim q].
    split; [exact E1 | split; [reflexivity | simpl; lia]].
  - destruct (3 <=? _)%nat.
    + pose proof (search_estende (join sep (last_n 3
                     (map strip (split comma q)))) w1) as E2.
      exists ([GetNominatim q]
              ++ [GetNominatim (join sep (last_n 3
                                  (map strip (split comma q))))]).
      split; [|split; [reflexivity | simpl; lia]].
      destruct (_search _ w1) as [[[c|]|e] w2]; cbn [snd] in E2;
        exact (estende_trans _ _ _ _ _ E1 E2).
    + exists [GetNominatim q].
      split; [exact E1 | split; [reflexivity | simpl; lia]].
  - exists [GetNominatim q].
    split; [exact E1 | split; [reflexivity | simpl; lia]].
Qed.

Lemma db_insert_estende (co cd : str) (la1 lo1 la2 lo2 d : float)
  (ts : str) (oj : json) (w : world) :
  estende w (snd (db_insert co cd la1 lo1 la2 lo2 d ts oj w)) [].
Proof.
  unfold db_insert.
  destruct (Store.bind_str co); [|apply estende_refl].
  destruct (Store.bind_str cd); [|apply estende_refl].
  destruct (Store.bind_str ts); [|apply estende_refl].
  destruct (bind_text oj); [|apply estende_refl].
  destruct (Store.insert _ _ _ _ _ _ _ _ _ _) as [[i s]|];
    [|apply estende_refl].
  unfold estende. simpl. now rewrite app_nil_r.
Qed.

Lemma etapas_finais_estende (co cd : str) (e1 e2 : json)
  (la1 lo1 la2 lo2 : float) (oj : json) (w : world) :
  estende w (snd (etapas_finais co cd e1 e2 la1 lo1 la2 lo2 oj w))
    [PostSecundaria la1 lo1 la2 lo2]
  /\ (forall r, fst (etapas_finais co cd e1 e2 la1 lo1 la2 lo2 oj w) = Ok r ->
      status r = 200%Z \/ status r = 502%Z).
Proof.
  unfold etapas_finais, bind.
  pose proof (http_world (PostSecundaria la1 lo1 la2 lo2) w) as H.
  destruct (http (PostSecundaria la1 lo1 la2 lo2) w) as [[r|e] w1];
    cbn [snd] in H; subst w1.
  2:{ split; [apply estende_registra | discriminate]. }
  destruct (negb (status_code r =? 200)%Z).
  { split; [apply estende_registra|]. intros x [= <-]. now right. }
  unfold json_of. destruct (json_body r) as [res|].
  2:{ split; [apply estende_registra | discriminate]. }
  cbn [ret]. unfold lift.
  destruct (Py.get res (lit "distancia_km")) as [v|].
  2:{ split; [apply estende_registra | discriminate]. }
  destruct (Py.to_float v) as [dist|].
  2:{ split; [apply estende_registra | discriminate]. }
  unfold agora.
  match goal with
  | |- context [db_insert ?a ?b ?c ?d ?e ?f ?g ?h ?i ?j] =>
      pose proof (db_insert_estende a b c d e f g h i j) as E;
      destruct (db_insert a b c d e f g h i j) as [[n|x] w2]
  end; cbn [snd] in E;
    pose proof (estende_trans _ _ _ _ _
                  (estende_registra (PostSecundaria la1 lo1 la2 lo2) w) E)
      as E'; (split; [exact E'|]).
  - intros x [= <-]. now left.
  - discriminate.
Qed.

Lemma distancia_por_cep_try_roteiro (req : option json) (w : world) :
  exists vs gs ps,
    estende w (snd (distancia_por_cep_try req w)) (vs ++ gs ++ ps)
    /\ roteiro vs gs ps
    /\ (forall r, fst (distancia_por_cep_try req w) = Ok r ->
        (status r = 200%Z /\ ps <> []) \/ status r = 400%Z
        \/ status r = 502%Z).
Proof.
  remember (distancia_por_cep_try req w) as p eqn:Hp.
  assert (R0 : roteiro [] [] []) by (unfold roteiro; simpl; intuition lia).
  unfold distancia_por_cep_try in Hp.
  unfold bind at 1, lift at 1 in Hp.
  destruct (Py.get_default _ (lit "origem") _) as [o|e].
  2:{ subst p. exists [], [], [].
      split; [apply estende_refl | split; [exact R0 | discriminate]]. }
  unfold bind at 1, lift at 1 in Hp.
  destruct (Py.get_default _ (lit "destino") _) as [dd|e].
  2:{ subst p. exists [], [], [].
      split; [apply estende_refl | split; [exact R0 | discriminate]]. }
  unfold bind at 1, lift at 1 in Hp.
  destruct (Py.get _ (lit "observacoes")) as [oj|e].
  2:{ subst p. exists [], [], [].
      split; [apply estende_refl | split; [exact R0 | discriminate]]. }
  destruct (is_empty _ || is_empty _).
  { subst p. exists [], [], [].
    split; [apply estende_refl | split; [exact R0|]].
    intros r [= <-]. right. now left. }
  set (co := strip (Py.to_str o)) in Hp.
  set (cd := strip (Py.to_str dd)) in Hp.
  set (vs := [GetViaCep (cep_normalizado co);
              GetViaCep (cep_normalizado cd)]).
  unfold bind at 1 in Hp.
  pose proof (via_cep_estende co w) as E1.
  destruct (via_cep co w) as [[e1|e] w1]; cbn [snd] in E1.
  2:{ subst p. exists [GetViaCep (cep_normalizado co)], [], [].
      split; [exact E1 | split; [|discriminate]].
      unfold roteiro; simpl; intuition lia. }
  unfold bind at 1 in Hp.
  pose proof (via_cep_estende cd w1) as E2.
  pose proof (estende_trans _ _ _ _ _ E1 E2) as E12.
  change ([GetViaCep (cep_normalizado co)]
          ++ [GetViaCep (cep_normalizado cd)]) with vs in E12.
  clear E1 E2.
  assert (RV : forall gs, forallb e_nominatim gs = true ->
               (List.length gs <= 4)%nat -> roteiro vs gs [])
    by (intros gs G L; unfold roteiro; simpl; intuition lia).
  assert (RV0 : roteiro vs [] [])
    by (apply RV; [reflexivity | simpl; lia]).
  destruct (via_cep cd w1) as [[e2|e] w2]; cbn [snd] in E12.
  2:{ subst p. exists vs, [], [].
      split; [rewrite app_nil_r; exact E12 | split; [exact RV0|]].
      discriminate. }
  unfold bind at 1, lift at 1 in Hp.
  destruct (endereco_para_query e1) as [q1|e].
  2:{ subst p. exists vs, [], [].
      split; [rewrite app_nil_r; exact E12 | split; [exact RV0|]].
      discriminate. }
  unfold bind at 1, lift at 1 in Hp.
  destruct (endereco_para_query e2) as [q2|e].
  2:{ subst p. exists vs, [], [].
      split; [rewrite app_nil_r; exact E12 | split; [exact RV0|]].
      discriminate. }
  unfold bind at 1 in Hp.
  destruct (geocode_osm_estende q1 w2) as (g1 & G1 & N1 & L1).
  pose proof (estende_trans _ _ _ _ _ E12 G1) as E3.
  destruct (geocode_osm q1 w2) as [[[la1 lo1]|e] w3]; cbn [snd] in G1, E3.
  2:{ subst p. exists vs, g1, [].
      split; [rewrite app_nil_r; exact E3 | split; [|discriminate]].
      apply RV; [exact N1 | lia]. }
  unfold bind at 1 in Hp.
  destruct (geocode_osm_estende q2 w3) as (g2 & G2 & N2 & L2).
  pose proof (estende_trans _ _ _ _ _ G1 G2) as G12.
  pose proof (estende_trans _ _ _ _ _ E12 G12) as E4.
  assert (N12 : forallb e_nominatim (g1 ++ g2) = true)
    by (rewrite forallb_app, N1, N2; reflexivity).
  assert (L12 : (2 <= List.length (g1 ++ g2) <= 4)%nat)
    by (rewrite length_app; lia).
  destruct (geocode_osm q2 w3) as [[[la2 lo2]|e] w4]; cbn [snd] in G2, E4.
  2:{ subst p. exists vs, (g1 ++ g2), [].
      split; [rewrite app_nil_r; exact E4 | split; [|discriminate]].
      apply RV; [exact N12 | lia]. }
  change (p = etapas_finais co cd e1 e2 la1 lo1 la2 lo2 oj w4) in Hp.
  destruct (etapas_finais_estende co cd e1 e2 la1 lo1 la2 lo2 oj w4)
    as (E5 & S5).
  rewrite <- Hp in E5, S5.
  exists vs, (g1 ++ g2), [PostSecundaria la1 lo1 la2 lo2].
  split; [|split].
  - pose proof (estende_trans _ _ _ _ _ E4 E5) as E.
    now rewrite <- app_assoc in E.
  - unfold roteiro. simpl. rewrite N12. intuition lia.
  - intros r Hx. destruct (S5 r Hx) as [H | H].
    + left. split; [exact H | discriminate].
    + right. now right.
Qed.

(** X12. What one POST /distancia-por-cep may do to the outside. For
    every request and world the handler answers 200, 400, 500 or 502,
    leaves the services and the clock as they are, and only appends to
    the call log: at most two postal lookups, then at most four geocoder
    lookups, then at most one call to the delegate, in this order, so
    seven calls at most and none repeated after a failure. A 200 answer
    is never given without the call to the delegate. *)
Theorem distancia_por_cep_roteiro (req : option json) (w : world) :
  let r := fst (distancia_por_cep req w) in
  let w' := snd (distancia_por_cep req w) in
  (status r = 200%Z \/ status r = 400%Z \/ status r = 500%Z
   \/ status r = 502%Z)
  /\ remote w' = remote w
  /\ utcnow w' = utcnow w
  /\ exists vs gs ps,
      calls w' = calls w ++ vs ++ gs ++ ps
      /\ roteiro vs gs ps
      /\ (List.length (vs ++ gs ++ ps) <= 7)%nat
      /\ (status r = 200%Z -> ps <> []).
Proof.
  cbv zeta. unfold distancia_por_cep.
  destruct (distancia_por_cep_try_roteiro req w)
    as (vs & gs & ps & (ER & EU & EC) & Ro & St).
  assert (L : (List.length (vs ++ gs ++ ps) <= 7)%nat).
  { destruct Ro as (_ & _ & _ & L1 & L2 & L3 & _).
    rewrite !length_app. lia. }
  destruct (distancia_por_cep_try req w) as [[r|e] w'];
    cbn [fst snd] in *.
  - split; [|split; [exact ER | split; [exact EU|]]].
    + destruct (St r eq_refl) as [[H _] | [H | H]]; auto.
    + exists vs, gs, ps.
      split; [exact EC | split; [exact Ro | split; [exact L|]]].
      intros H. destruct (St r eq_refl) as [[_ N] | [N | N]];
        [exact N | |]; rewrite H in N; discriminate.
  - split; [|split; [exact ER | split; [exact EU|]]].
    + destruct (traduz_erro_codigos e) as [H | [H | H]]; auto.
    + exists vs, gs, ps.
      split; [exact EC | split; [exact Ro | split; [exact L|]]].
      intros H. now apply traduz_erro_status in H.
Qed.

End Roteiro.

(** The example run follows the script: two postal lookups, two geocoder
    lookups, one call to the delegate. *)
Lemma distancia_por_cep_roteiro_witness :
  exists vs gs ps,
    calls (snd (distancia_por_cep (RT := Exemplo.runtime) Exemplo.pedido
                  mundo_feliz))
    = calls mundo_feliz ++ vs ++ gs ++ ps
    /\ roteiro vs gs ps /\ ps <> [].
Proof.
  destruct (distancia_por_cep_roteiro (RT := Exemplo.runtime)
              Exemplo.pedido mundo_feliz)
    as (_ & _ & _ & vs & gs & ps & C & R & _ & S).
  exists vs, gs, ps. split; [exact C | split; [exact R|]].
  apply S. reflexivity.
Defined.

(** ** The successful run of POST /distancia-por-cep *)



Section Sucesso.
Context {RT : Runtime}.




End Sucesso.




(** ** Geocoding failures at the endpoint *)

Section FalhasDoGeocodificador.
Context {RT : Runtime}.




End FalhasDoGeocodificador.


(** ** The query builder and the geocoder's fallback together *)

Lemma split_cons (c : char) (s : str) : exists h t, split c s = h :: t.
Proof.
  induction s as [|x s (h & t & IH)]; simpl; [now exists [], []|].
  destruct (N.eqb x c); [now exists [], (split c s)|].
  rewrite IH. now exists (x :: h), t.
Qed.

Lemma split_sem (c : char) (s : str) : ~ In c s -> split c s = [s].
Proof.
  induction s as [|x s IH]; simpl; [reflexivity|]. intros H.
  destruct (N.eqb_spec x c) as [E | E]; [exfalso; apply H; now left|].
  rewrite IH; [reflexivity|]. intros Hin. apply H. now right.
Qed.

Lemma split_app_sep (c : char) (a b : str) :
  ~ In c a -> split c (a ++ c :: b) = a :: split c b.
Proof.
  induction a as [|x a IH]; simpl; intros H.
  - now rewrite N.eqb_refl.
  - destruct (N.eqb_spec x c) as [E | E]; [exfalso; apply H; now left|].
    rewrite IH; [reflexivity|]. intros Hin. apply H. now right.
Qed.

Lemma partes_space (s : str) :
  map strip (split comma (32%N :: s)) = map strip (split comma s).
Proof.
  destruct (split_cons comma s) as (h & t & E).
  change (split comma (32%N :: s))
    with (match split comma s with
          | h :: t => (32%N :: h) :: t
          | [] => [[32%N]]
          end).
  rewrite E. reflexivity.
Qed.

(** Cutting a joined list at the commas and trimming gives the trimmed
    items back, when no item has a comma of its own. *)
Lemma partes_join (l : list str) :
  l <> [] -> Forall (fun s => ~ In comma s) l ->
  partes_de (join sep l) = map strip l.
Proof.
  unfold partes_de. induction l as [|p l IH]; [congruence|].
  intros _ F. inversion F as [|? ? Hp Hl]; subst.
  destruct l as [|q r].
  - simpl join. now rewrite (split_sem _ _ Hp).
  - change (join sep (p :: q :: r))
      with (p ++ comma :: 32%N :: join sep (q :: r)).
    rewrite (split_app_sep _ _ _ Hp). cbn [map]. f_equal.
    rewrite partes_space. apply IH; [discriminate | exact Hl].
Qed.

Lemma last_n_app3 {A : Type} (l : list A) (a b c : A) :
  last_n 3 (l ++ [a; b; c]) = [a; b; c].
Proof.
  unfold last_n. rewrite length_app. simpl List.length.
  replace (List.length l + 3 - 3)%nat with (List.length l) by lia.
  rewrite skipn_app, skipn_all, Nat.sub_diag. reflexivity.
Qed.

(** X15. What the fallback lookup asks for an address of ViaCEP. For a
    normalized address whose four fields have no comma of their own, the
    segments the geocoder cuts the built query into are the non-empty
    fields and "Brazil", trimmed, in order; so a fallback lookup is
    possible exactly when at least two of the four fields are non-empty,
    and when locality and region code are both given it asks for
    "<locality>, <region code>, Brazil". *)
Theorem consulta_e_geocodificador (d : list (str * json))
  (s1 s2 s3 s4 : str) :
  campo_texto d (lit "logradouro") s1 ->
  campo_texto d (lit "bairro") s2 ->
  campo_texto d (lit "localidade") s3 ->
  campo_texto d (lit "uf") s4 ->
  Forall (fun s => ~ In comma s) [s1; s2; s3; s4] ->
  exists q,
    endereco_para_query (JObj d) = Ok q
    /\ partes_de q = map strip (filter nao_vazio [s1; s2; s3; s4; country])
    /\ ((3 <= List.length (partes_de q))%nat
        <-> (2 <= List.length (filter nao_vazio [s1; s2; s3; s4]))%nat)
    /\ (nao_vazio s3 = true -> nao_vazio s4 = true ->
        cidade_uf_de q = join sep [strip s3; strip s4; country]).
Proof.
  intros H1 H2 H3 H4 F.
  exists (join sep (filter nao_vazio [s1; s2; s3; s4; country])).
  split; [now apply query_of_fields|].
  assert (P : partes_de (join sep (filter nao_vazio
                                     [s1; s2; s3; s4; country]))
              = map strip (filter nao_vazio [s1; s2; s3; s4; country])).
  { apply partes_join.
    - intros E.
      assert (I : In country (filter nao_vazio [s1; s2; s3; s4; country])).
      { apply filter_In. split; [|reflexivity]. simpl. tauto. }
      rewrite E in I. destruct I.
    - apply Forall_forall. intros s Hs. apply filter_In in Hs.
      destruct Hs as [Hs _].
      assert (F5 : Forall (fun s => ~ In comma s) [s1; s2; s3; s4; country]).
      { change [s1; s2; s3; s4; country]
          with ([s1; s2; s3; s4] ++ [country]).
        apply Forall_app. split; [exact F|]. constructor; [|constructor].
        vm_compute. intuition discriminate. }
      rewrite Forall_forall in F5. now apply F5. }
  split; [exact P|]. split.
  - rewrite P, length_map.
    change [s1; s2; s3; s4; country] with ([s1; s2; s3; s4] ++ [country]).
    rewrite filter_app, length_app. simpl (List.length (filter _ [country])).
    lia.
  - intros N3 N4. unfold cidade_uf_de. rewrite P.
    change [s1; s2; s3; s4; country] with ([s1; s2] ++ [s3; s4; country]).
    rewrite filter_app. cbn [filter]. rewrite N3, N4.
    change (nao_vazio country) with true. cbv iota.
    rewrite map_app. cbn [map]. rewrite last_n_app3. reflexivity.
Qed.

(** The address of Praça da Sé: the fallback asks for the city. *)
Lemma consulta_e_geocodificador_witness :
  exists q,
    endereco_para_query (JObj Exemplo.praca_da_se) = Ok q
    /\ cidade_uf_de q = lit "Sao Paulo, SP, Brazil".
Proof.
  destruct (consulta_e_geocodificador Exemplo.praca_da_se
              (lit "Praca da Se") (lit "Se") (lit "Sao Paulo") (lit "SP")
              eq_refl eq_refl eq_refl eq_refl)
    as (q & Q & _ & _ & C).
  - repeat constructor; vm_compute; intuition discriminate.
  - exists q. split; [exact Q|]. now rewrite C.
Defined.

(** ** The validation of POST /calcular-distancia *)

Section Validacao.
Context {RT : Runtime}.

Lemma calcular_distancia_try_blocos (body : option json)
  (d : list (str * json)) :
  Py.body_or_empty body = JObj d ->
  Secundaria.calcular_distancia_try body
  = match Secundaria.verifica_bloco Secundaria.Origem
            (bloco_de d (lit "origem")) with
    | Some r => Ok r
    | None =>
    match Secundaria.verifica_bloco Secundaria.Destino
            (bloco_de d (lit "destino")) with
    | Some r => Ok r
    | None =>
        Secundaria.bind
          (Py.getitem (bloco_de d (lit "origem")) (lit "lat")) (fun v1 =>
        Secundaria.bind (Py.to_float v1) (fun lat1 =>
        Secundaria.bind
          (Py.getitem (bloco_de d (lit "origem")) (lit "lon")) (fun v2 =>
        Secundaria.bind (Py.to_float v2) (fun lon1 =>
        Secundaria.bind
          (Py.getitem (bloco_de d (lit "destino")) (lit "lat")) (fun v3 =>
        Secundaria.bind (Py.to_float v3) (fun lat2 =>
        Secundaria.bind
          (Py.getitem (bloco_de d (lit "destino")) (lit "lon")) (fun v4 =>
        Secundaria.bind (Py.to_float v4) (fun lon2 =>
        Secundaria.bind (Secundaria.haversine_km lat1 lon1 lat2 lon2)
          (fun distancia =>
        Ok (Secundaria.Distancia lat1 lon1 lat2 lon2
              (py_round distancia 3), 200%Z))))))))))
    end
    end.
Proof.
  intros B. unfold Secundaria.calcular_distancia_try. rewrite B.
  reflexivity.
Qed.

Lemma verifica_bloco_completo (c : Secundaria.campo) (b : json) :
  bloco_completo b -> Secundaria.verifica_bloco c b = None.
Proof.
  intros (o & -> & A & O). unfold Secundaria.verifica_bloco.
  now rewrite A, O.
Qed.

Lemma verifica_bloco_none (c : Secundaria.campo)
  (d : list (str * json)) (k : str) :
  Secundaria.verifica_bloco c (bloco_de d k) = None ->
  exists o va vo,
    Py.lookup k d = Some (JObj o)
    /\ bloco_de d k = JObj o
    /\ Py.lookup (lit "lat") o = Some va
    /\ Py.lookup (lit "lon") o = Some vo.
Proof.
  unfold bloco_de, Py.or_else.
  destruct (Py.lookup k d) as [x|] eqn:L; [|discriminate].
  destruct (Py.truthy x) eqn:T; [|discriminate].
  destruct x; try discriminate.
  unfold Secundaria.verifica_bloco, Py.contains.
  destruct (Py.lookup (lit "lat") fields) as [va|] eqn:A; [|discriminate].
  destruct (Py.lookup (lit "lon") fields) as [vo|] eqn:O; [|discriminate].
  intros _. exists fields, va, vo.
  split; [reflexivity | split; [reflexivity | split; assumption]].
Qed.

(** X16. The shape checks of POST /calcular-distancia, in their
    order. A body that decodes to a non-empty value other than an object
    is answered 500. Otherwise each block is [data.get(k) or {}], the
    origin is checked first and fully, then the destination: a block
    that is not an object gives 400 "must be an object", one without
    "lat" or without "lon" (an absent, null or empty block among them)
    gives 400 "must contain lat and lon". No body at all is answered
    like an origin without coordinates. *)
Theorem calcular_distancia_blocos :
  (forall body, (forall d, Py.body_or_empty body <> JObj d) ->
     Secundaria.calcular_distancia body
     = (Secundaria.ErroInesperado AttributeError, 500%Z))
  /\ (forall body d, Py.body_or_empty body = JObj d ->
      ((forall o, bloco_de d (lit "origem") <> JObj o) ->
       Secundaria.calcular_distancia body
       = (Secundaria.ErroObjeto Secundaria.Origem, 400%Z))
      /\ (forall o, bloco_de d (lit "origem") = JObj o ->
          Py.contains o (lit "lat") && Py.contains o (lit "lon") = false ->
          Secundaria.calcular_distancia body
          = (Secundaria.ErroCampos Secundaria.Origem, 400%Z))
      /\ (bloco_completo (bloco_de d (lit "origem")) ->
          (forall o, bloco_de d (lit "destino") <> JObj o) ->
          Secundaria.calcular_distancia body
          = (Secundaria.ErroObjeto Secundaria.Destino, 400%Z))
      /\ (bloco_completo (bloco_de d (lit "origem")) ->
          forall o, bloco_de d (lit "destino") = JObj o ->
          Py.contains o (lit "lat") && Py.contains o (lit "lon") = false ->
          Secundaria.calcular_distancia body
          = (Secundaria.ErroCampos Secundaria.Destino, 400%Z)))
  /\ Secundaria.calcular_distancia None
     = (Secundaria.ErroCampos Secundaria.Origem, 400%Z).
Proof.
  split; [|split].
  - intros body H. unfold Secundaria.calcular_distancia,
      Secundaria.calcular_distancia_try.
    destruct (Py.body_or_empty body); try reflexivity.
    now elim (H fields).
  - intros body d B. unfold Secundaria.calcular_distancia.
    rewrite (calcular_distancia_try_blocos body d B).
    split; [|split; [|split]].
    + intros H. destruct (bloco_de d (lit "origem")); try reflexivity.
      now elim (H fields).
    + intros o E C. rewrite E. unfold Secundaria.verifica_bloco.
      apply andb_false_iff in C. destruct C as [C | C]; rewrite C;
        [reflexivity|].
      now rewrite orb_true_r.
    + intros K H. rewrite (verifica_bloco_completo _ _ K).
      destruct (bloco_de d (lit "destino")); try reflexivity.
      now elim (H fields).
    + intros K o E C. rewrite (verifica_bloco_completo _ _ K), E.
      unfold Secundaria.verifica_bloco.
      apply andb_false_iff in C. destruct C as [C | C]; rewrite C;
        [reflexivity|].
      now rewrite orb_true_r.
  - reflexivity.
Qed.

Lemma to_float_raise (v : json) (e : exn) :
  Py.to_float v = Raise e ->
  e = ValueError FloatLiteral \/ e = TypeError \/ e = OverflowError.
Proof.
  destruct v; simpl; try discriminate; try (intros [= <-]; tauto).
  - unfold Py.float_of_int. destruct (is_infinity _); [|discriminate].
    intros [= <-]. tauto.
  - destruct (float_of_str s); [discriminate|]. intros [= <-]. tauto.
Qed.

Lemma calcular_distancia_conversoes (body : option json)
  (v1 v2 v3 v4 : json) :
  corpo_com body v1 v2 v3 v4 ->
  Secundaria.calcular_distancia_try body
  = Secundaria.bind (Py.to_float v1) (fun lat1 =>
    Secundaria.bind (Py.to_float v2) (fun lon1 =>
    Secundaria.bind (Py.to_float v3) (fun lat2 =>
    Secundaria.bind (Py.to_float v4) (fun lon2 =>
    Secundaria.bind (Secundaria.haversine_km lat1 lon1 lat2 lon2)
      (fun distancia =>
    Ok (Secundaria.Distancia lat1 lon1 lat2 lon2 (py_round distancia 3),
        200%Z)))))).
Proof.
  intros (d & o & dd & B & O & D & L1 & L2 & L3 & L4).
  rewrite (calcular_distancia_try_blocos body d B).
  unfold bloco_de. rewrite O, D.
  assert (To : Py.or_else (JObj o) (JObj []) = JObj o).
  { unfold Py.or_else. destruct o; [discriminate | reflexivity]. }
  assert (Td : Py.or_else (JObj dd) (JObj []) = JObj dd).
  { unfold Py.or_else. destruct dd; [discriminate | reflexivity]. }
  rewrite To, Td. unfold Secundaria.verifica_bloco, Py.contains.
  rewrite L1, L2, L3, L4. simpl. unfold Py.getitem.
  rewrite L1, L2, L3, L4. reflexivity.
Qed.

(** X17. The values of POST /calcular-distancia. When both blocks are
    objects with "lat" and "lon", the four values are converted with
    [float()] in the order origin lat, origin lon, destination lat,
    destination lon, and the first that is refused decides the answer:
    400 "invalid values" for a string that is no number and for null, a
    list or an object, 500 for an integer beyond the range of a float.
    Conversely the endpoint answers 200 only for a body with both blocks
    and four convertible values on which the distance function returns,
    and then with these four numbers and the rounded distance; and it
    never answers anything but 200, 400 or 500. *)
Theorem calcular_distancia_valores :
  (forall body v1 v2 v3 v4 e,
      corpo_com body v1 v2 v3 v4 ->
      primeira_falha (map Py.to_float [v1; v2; v3; v4]) = Some e ->
      (e = ValueError FloatLiteral \/ e = TypeError \/ e = OverflowError)
      /\ Secundaria.calcular_distancia body
         = match e with
           | OverflowError =>
               (Secundaria.ErroInesperado OverflowError, 500%Z)
           | _ => (Secundaria.ErroValores, 400%Z)
           end)
  /\ (forall body,
      snd (Secundaria.calcular_distancia body) = 200%Z ->
      exists v1 v2 v3 v4 lat1 lon1 lat2 lon2 dist,
        corpo_com body v1 v2 v3 v4
        /\ Py.to_float v1 = Ok lat1 /\ Py.to_float v2 = Ok lon1
        /\ Py.to_float v3 = Ok lat2 /\ Py.to_float v4 = Ok lon2
        /\ Secundaria.haversine_km lat1 lon1 lat2 lon2 = Ok dist
        /\ Secundaria.calcular_distancia body
           = (Secundaria.Distancia lat1 lon1 lat2 lon2 (py_round dist 3),
              200%Z))
  /\ (forall body,
      snd (Secundaria.calcular_distancia body) = 200%Z
      \/ snd (Secundaria.calcular_distancia body) = 400%Z
      \/ snd (Secundaria.calcular_distancia body) = 500%Z).
Proof.
  assert (P1 : forall body v1 v2 v3 v4 e,
             corpo_com body v1 v2 v3 v4 ->
             primeira_falha (map Py.to_float [v1; v2; v3; v4]) = Some e ->
             (e = ValueError FloatLiteral \/ e = TypeError
              \/ e = OverflowError)
             /\ Secundaria.calcular_distancia body
                = match e with
                  | OverflowError =>
                      (Secundaria.ErroInesperado OverflowError, 500%Z)
                  | _ => (Secundaria.ErroValores, 400%Z)
                  end).
  { intros body v1 v2 v3 v4 e C PF.
    unfold Secundaria.calcular_distancia.
    rewrite (calcular_distancia_conversoes body v1 v2 v3 v4 C).
    unfold Secundaria.bind. cbn [map primeira_falha] in PF.
    assert (K : forall v, Py.to_float v = Raise e ->
                (e = ValueError FloatLiteral \/ e = TypeError
                 \/ e = OverflowError)
                /\ (if is_ValueError e
                    then (Secundaria.ErroValores, 400%Z)
                    else match e with
                         | TypeError => (Secundaria.ErroValores, 400%Z)
                         | _ => (Secundaria.ErroInesperado e, 500%Z)
                         end)
                   = match e with
                     | OverflowError =>
                         (Secundaria.ErroInesperado OverflowError, 500%Z)
                     | _ => (Secundaria.ErroValores, 400%Z)
                     end).
    { intros v F. pose proof (to_float_raise v e F) as T.
      split; [exact T|]. destruct T as [-> | [-> | ->]]; reflexivity. }
    destruct (Py.to_float v1) as [x1|e1] eqn:F1;
      [|injection PF as ->; exact (K v1 F1)].
    destruct (Py.to_float v2) as [x2|e2] eqn:F2;
      [|injection PF as ->; exact (K v2 F2)].
    destruct (Py.to_float v3) as [x3|e3] eqn:F3;
      [|injection PF as ->; exact (K v3 F3)].
    destruct (Py.to_float v4) as [x4|e4] eqn:F4;
      [|injection PF as ->; exact (K v4 F4)].
    discriminate. }
  split; [exact P1|]. split.
  - intros body H.
    assert (C : exists v1 v2 v3 v4, corpo_com body v1 v2 v3 v4).
    { unfold Secundaria.calcular_distancia in H.
      destruct (Py.body_or_empty body) as [| | | | | |d] eqn:B;
        try (unfold Secundaria.calcular_distancia_try in H;
             rewrite B in H; simpl in H; discriminate).
      rewrite (calcular_distancia_try_blocos body d B) in H.
      destruct (Secundaria.verifica_bloco Secundaria.Origem _)
        as [r|] eqn:V1.
      { unfold Secundaria.verifica_bloco in V1.
        destruct (bloco_de d (lit "origem")); try (injection V1 as <-);
          try discriminate.
        destruct (negb _ || negb _); [injection V1 as <-|]; discriminate. }
      destruct (Secundaria.verifica_bloco Secundaria.Destino _)
        as [r|] eqn:V2.
      { unfold Secundaria.verifica_bloco in V2.
        destruct (bloco_de d (lit "destino")); try (injection V2 as <-);
          try discriminate.
        destruct (negb _ || negb _); [injection V2 as <-|]; discriminate. }
      apply verifica_bloco_none in V1, V2.
      destruct V1 as (o & v1 & v2 & O & _ & L1 & L2).
      destruct V2 as (dd & v3 & v4 & D & _ & L3 & L4).
      exists v1, v2, v3, v4, d, o, dd. repeat split; assumption. }
    destruct C as (v1 & v2 & v3 & v4 & C).
    destruct (primeira_falha (map Py.to_float [v1; v2; v3; v4]))
      as [e|] eqn:PF.
    { destruct (P1 body v1 v2 v3 v4 e C PF) as [_ E]. rewrite E in H.
      destruct e; discriminate. }
    cbn [map primeira_falha] in PF.
    destruct (Py.to_float v1) as [x1|] eqn:F1; [|discriminate].
    destruct (Py.to_float v2) as [x2|] eqn:F2; [|discriminate].
    destruct (Py.to_float v3) as [x3|] eqn:F3; [|discriminate].
    destruct (Py.to_float v4) as [x4|] eqn:F4; [|discriminate].
    pose proof (calcular_distancia_run body v1 v2 v3 v4 x1 x2 x3 x4
                  C F1 F2 F3 F4) as R.
    destruct (Secundaria.haversine_km x1 x2 x3 x4) as [dist|e] eqn:Hv.
    + exists v1, v2, v3, v4, x1, x2, x3, x4, dist. repeat split; auto.
    + rewrite R in H. destruct e; discriminate.
  - intros body. unfold Secundaria.calcular_distancia.
    destruct (Secundaria.calcular_distancia_try body) as [r|e] eqn:T.
    + unfold Secundaria.calcular_distancia_try in T.
      unfold Secundaria.bind in T.
      destruct (Py.get _ (lit "origem")); [|discriminate].
      destruct (Py.get _ (lit "destino")); [|discriminate].
      destruct (Secundaria.verifica_bloco Secundaria.Origem _) as [r1|] eqn:V1.
      { injection T as <-. unfold Secundaria.verifica_bloco in V1.
        destruct (Py.or_else _ _); try (injection V1 as <-; auto).
        destruct (negb _ || negb _); [injection V1 as <-; auto|].
        discriminate. }
      destruct (Secundaria.verifica_bloco Secundaria.Destino _) as [r2|] eqn:V2.
      { injection T as <-. unfold Secundaria.verifica_bloco in V2.
        destruct (Py.or_else a0 _); try (injection V2 as <-; auto).
        destruct (negb _ || negb _); [injection V2 as <-; auto|].
        discriminate. }
      repeat match type of T with
             | match ?x with _ => _ end = _ =>
                 destruct x; [|discriminate]
             end.
      injection T as <-. now left.
    + destruct (is_ValueError e); [right; now left|].
      destruct e; simpl; auto.
Qed.

End Validacao.

(** A body whose origin is a string, then one whose origin has no
    longitude. *)
Lemma calcular_distancia_blocos_witness :
  Secundaria.calcular_distancia (RT := Exemplo.runtime)
    (Some (JObj [(lit "origem", JStr (lit "aqui"))]))
  = (Secundaria.ErroObjeto Secundaria.Origem, 400%Z)
  /\ Secundaria.calcular_distancia (RT := Exemplo.runtime)
       (Some (JObj [(lit "origem", JObj [(lit "lat", JInt 1)])]))
     = (Secundaria.ErroCampos Secundaria.Origem, 400%Z).
Proof.
  split.
  - apply (proj1 (proj1 (proj2 (calcular_distancia_blocos
                                  (RT := Exemplo.runtime)))
                    (Some (JObj [(lit "origem", JStr (lit "aqui"))]))
                    [(lit "origem", JStr (lit "aqui"))] eq_refl)).
    discriminate.
  - apply (proj1 (proj2 (proj1 (proj2 (calcular_distancia_blocos
                                         (RT := Exemplo.runtime)))
                    (Some (JObj [(lit "origem", JObj [(lit "lat", JInt 1)])]))
                    [(lit "origem", JObj [(lit "lat", JInt 1)])] eq_refl))
             [(lit "lat", JInt 1)]); reflexivity.
Defined.

(** A null longitude of the destination. *)
Lemma calcular_distancia_valores_witness :
  Secundaria.calcular_distancia (RT := Exemplo.runtime)
    (Some (JObj [(lit "origem", JObj [(lit "lat", JInt 1);
                                      (lit "lon", JInt 2)]);
                 (lit "destino", JObj [(lit "lat", JInt 3);
                                       (lit "lon", JNull)])]))
  = (Secundaria.ErroValores, 400%Z).
Proof.
  refine (proj2 (proj1 (calcular_distancia_valores (RT := Exemplo.runtime))
                   _ (JInt 1) (JInt 2) (JInt 3) JNull TypeError _ _)).
  - do 3 eexists. repeat split; reflexivity.
  - vm_compute. reflexivity.
Defined.

(** ** The distance function on swapped and on infinite coordinates *)

Section Trocas.
Context {RT : Runtime}.
Local Open Scope float_scope.

Lemma corpo_com_corpo_de (lat1 lon1 lat2 lon2 : float) :
  corpo_com (corpo_de lat1 lon1 lat2 lon2) (JFloat lat1) (JFloat lon1)
    (JFloat lat2) (JFloat lon2).
Proof. do 3 eexists. repeat split; reflexivity. Qed.

(** X18. With a C library whose sine is odd, the distance depends on
    the two latitudes and on the two longitudes as unordered pairs:
    exchanging only the longitudes of the two points, or only their
    latitudes, changes neither the value nor the exception of
    [haversine_km]. At the endpoint, exchanging origin and destination
    of a body of four floats exchanges the two points of the answer and
    leaves its distance and status as they are; an error answer is the
    same. *)
Theorem haversine_km_trocas (lat1 lon1 lat2 lon2 : float) :
  (forall x, libm_sin (- x) = - libm_sin x) ->
  Secundaria.haversine_km lat1 lon2 lat2 lon1
  = Secundaria.haversine_km lat1 lon1 lat2 lon2
  /\ Secundaria.haversine_km lat2 lon1 lat1 lon2
     = Secundaria.haversine_km lat1 lon1 lat2 lon2
  /\ Secundaria.calcular_distancia (corpo_de lat2 lon2 lat1 lon1)
     = match Secundaria.calcular_distancia (corpo_de lat1 lon1 lat2 lon2)
       with
       | (Secundaria.Distancia a b c d x, s) =>
           (Secundaria.Distancia c d a b x, s)
       | r => r
       end.
Proof.
  intros Hs. split; [|split].
  - rewrite !haversine_km_nucleo.
    now rewrite (meio_seno_quadrado_swap (Secundaria.radians lon1)
                   (Secundaria.radians lon2) Hs).
  - rewrite !haversine_km_nucleo.
    rewrite (meio_seno_quadrado_swap (Secundaria.radians lat1)
               (Secundaria.radians lat2) Hs).
    apply nucleo_swap; intros e; apply math_1_raise.
  - rewrite (calcular_distancia_run _ _ _ _ _ lat2 lon2 lat1 lon1
               (corpo_com_corpo_de lat2 lon2 lat1 lon1)
               eq_refl eq_refl eq_refl eq_refl).
    rewrite (calcular_distancia_run _ _ _ _ _ lat1 lon1 lat2 lon2
               (corpo_com_corpo_de lat1 lon1 lat2 lon2)
               eq_refl eq_refl eq_refl eq_refl).
    rewrite (haversine_km_sym lat2 lon2 lat1 lon1 Hs).
    destruct (Secundaria.haversine_km lat1 lon1 lat2 lon2) as [x|e];
      [reflexivity|].
    destruct e; reflexivity.
Qed.

Lemma is_infinity_SF (x : float) :
  is_infinity x = true <-> exists s, Prim2SF x = S754_infinity s.
Proof.
  unfold is_infinity. rewrite eqb_spec, abs_spec.
  change (Prim2SF infinity) with (S754_infinity false).
  destruct (Prim2SF x) as [s|s| |s m e]; simpl; split;
    try discriminate; try (intros [? ?]; discriminate); eauto.
Qed.

Lemma SF_is_nan (x : float) : Prim2SF x = S754_nan -> is_nan x = true.
Proof. intros H. unfold is_nan. now rewrite eqb_spec, H. Qed.

Lemma is_infinity_not_nan (x : float) :
  is_infinity x = true -> is_nan x = false.
Proof.
  intros H. apply is_infinity_SF in H. destruct H as [s H].
  unfold is_nan. rewrite eqb_spec, H. now destruct s.
Qed.

Lemma radians_infinity (x : float) :
  is_infinity x = true -> is_infinity (Secundaria.radians x) = true.
Proof.
  rewrite !is_infinity_SF. intros [s H]. unfold Secundaria.radians.
  rewrite mul_spec, H. unfold SF64mul.
  change (Prim2SF Secundaria.degToRad)
    with (S754_finite false 5030569068109113 (-58)).
  simpl. eauto.
Qed.

(** Half the difference of two numbers one of which is infinite is
    infinite, or it is NaN. *)
Lemma meia_diferenca (a b : float) :
  is_infinity a = true \/ is_infinity b = true ->
  is_infinity ((b - a) / 2) = true \/ is_nan ((b - a) / 2) = true.
Proof.
  assert (D : forall t,
             (exists s, t = S754_infinity s) \/ t = S754_nan ->
             (exists s, SFdiv prec emax t (Prim2SF 2) = S754_infinity s)
             \/ SFdiv prec emax t (Prim2SF 2) = S754_nan).
  { change (Prim2SF 2) with (S754_finite false 4503599627370496 (-51)).
    intros t [[s ->] | ->]; simpl; eauto. }
  assert (K : (exists s, Prim2SF ((b - a) / 2) = S754_infinity s)
              \/ Prim2SF ((b - a) / 2) = S754_nan ->
              is_infinity ((b - a) / 2) = true
              \/ is_nan ((b - a) / 2) = true).
  { intros [H | H]; [left; now apply is_infinity_SF|].
    right. now apply SF_is_nan. }
  intros H. apply K. rewrite div_spec, sub_spec. unfold SF64div, SF64sub.
  apply D. rewrite !is_infinity_SF in H. destruct H as [[s H] | [s H]];
    rewrite H.
  - destruct (Prim2SF b) as [sb|sb| |sb mb eb]; try destruct sb;
      destruct s; simpl; eauto.
  - destruct (Prim2SF a) as [sa|sa| |sa ma ea]; try destruct sa;
      destruct s; simpl; eauto.
Qed.

Lemma math_1_infinity (f : float -> float) (x : float) :
  is_infinity x = true -> is_nan (f x) = true ->
  Secundaria.math_1 f false x = Raise (ValueError MathDomain).
Proof.
  intros I N. unfold Secundaria.math_1.
  now rewrite N, (is_infinity_not_nan x I).
Qed.

Lemma math_1_nan (f : float -> float) (b : bool) (x : float) :
  is_nan x = true -> Secundaria.math_1 f b x = Ok (f x).
Proof.
  intros N. unfold Secundaria.math_1, is_finite. rewrite N. simpl.
  now rewrite !andb_false_r.
Qed.

(** X19. An infinite latitude is refused. With a C library whose sine
    and cosine give NaN on an infinity and whose sine gives NaN on NaN,
    [haversine_km] raises the math domain error whenever one of the two
    latitudes is infinite, whatever the other three numbers are; so a
    body with both blocks and four values [float()] accepts, one of the
    latitudes being read as an infinity, is answered 400 "invalid
    values". *)
Theorem latitude_infinita (lat1 lon1 lat2 lon2 : float) :
  (forall x, is_infinity x = true -> is_nan (libm_sin x) = true) ->
  (forall x, is_nan x = true -> is_nan (libm_sin x) = true) ->
  (forall x, is_infinity x = true -> is_nan (libm_cos x) = true) ->
  is_infinity lat1 = true \/ is_infinity lat2 = true ->
  Secundaria.haversine_km lat1 lon1 lat2 lon2
  = Raise (ValueError MathDomain)
  /\ (forall body v1 v2 v3 v4,
      corpo_com body v1 v2 v3 v4 ->
      Py.to_float v1 = Ok lat1 -> Py.to_float v2 = Ok lon1 ->
      Py.to_float v3 = Ok lat2 -> Py.to_float v4 = Ok lon2 ->
      Secundaria.calcular_distancia body = (Secundaria.ErroValores, 400%Z)).
Proof.
  intros Hsi Hsn Hci I.
  assert (H : Secundaria.haversine_km lat1 lon1 lat2 lon2
              = Raise (ValueError MathDomain)).
  { unfold Secundaria.haversine_km, Secundaria.bind, Secundaria.sin,
      Secundaria.cos.
    assert (I' : is_infinity (Secundaria.radians lat1) = true
                 \/ is_infinity (Secundaria.radians lat2) = true)
      by (destruct I as [I | I]; [left | right];
          now apply radians_infinity).
    destruct (meia_diferenca _ _ I') as [Ti | Tn].
    - now rewrite (math_1_infinity libm_sin _ Ti (Hsi _ Ti)).
    - rewrite (math_1_nan libm_sin false _ Tn).
      unfold Secundaria.pow2 at 1. rewrite (Hsn _ Tn).
      destruct I' as [I1 | I2].
      + now rewrite (math_1_infinity libm_cos _ I1 (Hci _ I1)).
      + rewrite (math_1_infinity libm_cos _ I2 (Hci _ I2)).
        destruct (Secundaria.math_1 libm_cos false _) as [c1|e] eqn:C1;
          [reflexivity|].
        now rewrite (math_1_raise _ _ _ C1). }
  split; [exact H|].
  intros body v1 v2 v3 v4 C F1 F2 F3 F4.
  rewrite (calcular_distancia_run body v1 v2 v3 v4 _ _ _ _ C F1 F2 F3 F4).
  now rewrite H.
Qed.

End Trocas.

(** São Paulo and Rio with the longitudes exchanged, under the runtime
    of the examples. *)
Lemma haversine_km_trocas_witness :
  Secundaria.haversine_km (RT := Exemplo.runtime)
    (-22.90625) (-46.6328125) (-23.546875) (-43.171875)
  = Secundaria.haversine_km (RT := Exemplo.runtime)
      (-22.90625) (-43.171875) (-23.546875) (-46.6328125).
Proof.
  apply (proj1 (haversine_km_trocas (RT := Exemplo.runtime)
                  (-22.90625) (-43.171875) (-23.546875) (-46.6328125)
                  (fun x => eq_refl))).
Defined.

(** An origin at latitude +infinity. *)
Lemma latitude_infinita_witness :
  Secundaria.calcular_distancia (RT := runtime_c)
    (corpo_de infinity (-43.171875) (-23.546875) (-46.6328125))
  = (Secundaria.ErroValores, 400%Z).
Proof.
  refine (proj2 (latitude_infinita (RT := runtime_c)
                   infinity (-43.171875) (-23.546875) (-46.6328125)
                   _ _ _ (or_introl eq_refl))
            _ (JFloat infinity) (JFloat (-43.171875))
            (JFloat (-23.546875)) (JFloat (-46.6328125))
            _ eq_refl eq_refl eq_refl eq_refl).
  - intros x I. cbn [libm_sin runtime_c]. unfold is_finite.
    rewrite I, orb_true_r. reflexivity.
  - intros x N. cbn [libm_sin runtime_c]. unfold is_finite.
    rewrite N. reflexivity.
  - intros x I. cbn [libm_cos runtime_c]. unfold is_finite.
    rewrite I, orb_true_r. reflexivity.
  - do 3 eexists. repeat split; reflexivity.
Defined.

(** ** PUT after PUT, and the errors of PUT *)

Lemma update_twice (o1 o2 : option str) (i : Z) (s : Store.t) :
  com_observacoes o2 i (com_observacoes o1 i s) = com_observacoes o2 i s.
Proof.
  unfold com_observacoes. simpl. f_equal. rewrite map_map.
  apply map_ext. intros r.
  destruct (Store.id r =? i)%Z eqn:E; [|now rewrite E].
  simpl. now rewrite E.
Qed.

Lemma update_comm (o1 o2 : option str) (i j : Z) (s : Store.t) :
  i <> j ->
  com_observacoes o2 j (com_observacoes o1 i s)
  = com_observacoes o1 i (com_observacoes o2 j s).
Proof.
  intros N. unfold com_observacoes. simpl. f_equal.
  rewrite !map_map. apply map_ext. intros r.
  destruct (Store.id r =? i)%Z eqn:Ei, (Store.id r =? j)%Z eqn:Ej;
    simpl; rewrite ?Ei, ?Ej; try reflexivity.
  apply Z.eqb_eq in Ei, Ej. congruence.
Qed.

Section AtualizarDuasVezes.
Context {RT : Runtime}.

Lemma atualizar_consulta_mundo (cid : Z) (req : option json)
  (d : list (str * json)) (obs : option str) (w : world) :
  Py.body_or_empty req = JObj d ->
  bind_text (observacoes_do_corpo d) = Ok obs ->
  (- 9223372036854775808 <= cid <= 9223372036854775807)%Z ->
  snd (atualizar_consulta cid req w)
  = mk_world (remote w) (calls w) (com_observacoes obs cid (db w))
      (utcnow w).
Proof.
  intros B T R. rewrite (atualizar_consulta_run cid req d obs w B T).
  cbv zeta. rewrite (select_one_ok cid _ R). now destruct (find _ _).
Qed.

Lemma atualizar_consulta_fora (cid : Z) (req : option json)
  (d : list (str * json)) (obs : option str) (w : world) :
  Py.body_or_empty req = JObj d ->
  bind_text (observacoes_do_corpo d) = Ok obs ->
  (cid < - 9223372036854775808 \/ 9223372036854775807 < cid)%Z ->
  atualizar_consulta cid req w = ((ErroInterno OverflowError, 500%Z), w).
Proof.
  intros B T R. rewrite (atualizar_consulta_run cid req d obs w B T).
  cbv zeta. now rewrite (select_one_raise cid _ R).
Qed.

(** X20. PUT composes as an assignment. For bodies that are objects
    with notes sqlite3 accepts: a PUT on an id after another PUT on the
    same id gives the answer and the world the second alone would have
    given, so the last write wins and repeating a PUT changes nothing;
    and two PUTs on different ids leave the same world in either
    order. *)
Theorem atualizar_consulta_composicao (req1 req2 : option json)
  (d1 d2 : list (str * json)) (o1 o2 : option str) (w : world) :
  Py.body_or_empty req1 = JObj d1 ->
  bind_text (observacoes_do_corpo d1) = Ok o1 ->
  Py.body_or_empty req2 = JObj d2 ->
  bind_text (observacoes_do_corpo d2) = Ok o2 ->
  (forall cid,
     atualizar_consulta cid req2 (snd (atualizar_consulta cid req1 w))
     = atualizar_consulta cid req2 w)
  /\ (forall cid,
      atualizar_consulta cid req1 (snd (atualizar_consulta cid req1 w))
      = atualizar_consulta cid req1 w)
  /\ (forall c1 c2, c1 <> c2 ->
      snd (atualizar_consulta c2 req2 (snd (atualizar_consulta c1 req1 w)))
      = snd (atualizar_consulta c1 req1
               (snd (atualizar_consulta c2 req2 w)))).
Proof.
  intros B1 T1 B2 T2.
  assert (A : forall req d o req' d' o' cid,
             Py.body_or_empty req = JObj d ->
             bind_text (observacoes_do_corpo d) = Ok o ->
             Py.body_or_empty req' = JObj d' ->
             bind_text (observacoes_do_corpo d') = Ok o' ->
             atualizar_consulta cid req' (snd (atualizar_consulta cid req w))
             = atualizar_consulta cid req' w).
  { intros req d o req' d' o' cid B T B' T'.
    destruct (int64_or_not cid) as [R | R].
    - rewrite (atualizar_consulta_mundo cid req d o w B T R).
      rewrite !(atualizar_consulta_run cid req' d' o' _ B' T').
      cbv zeta. cbn [db remote calls utcnow]. rewrite update_twice.
      rewrite !(select_one_ok cid _ R).
      unfold com_observacoes at 1. cbn [Store.rows]. rewrite find_update.
      now destruct (find _ (Store.rows (db w))).
    - now rewrite (atualizar_consulta_fora cid req d o w B T R). }
  split; [|split].
  - intros cid. exact (A req1 d1 o1 req2 d2 o2 cid B1 T1 B2 T2).
  - intros cid. exact (A req1 d1 o1 req1 d1 o1 cid B1 T1 B1 T1).
  - intros c1 c2 N.
    destruct (int64_or_not c1) as [R1 | R1];
      destruct (int64_or_not c2) as [R2 | R2].
    + rewrite (atualizar_consulta_mundo c1 req1 d1 o1 w B1 T1 R1).
      rewrite (atualizar_consulta_mundo c2 req2 d2 o2 w B2 T2 R2).
      rewrite (atualizar_consulta_mundo c2 req2 d2 o2 _ B2 T2 R2).
      rewrite (atualizar_consulta_mundo c1 req1 d1 o1 _ B1 T1 R1).
      cbn [db remote calls utcnow].
      now rewrite (update_comm o1 o2 c1 c2 _ N).
    + rewrite (atualizar_consulta_fora c2 req2 d2 o2 _ B2 T2 R2).
      now rewrite (atualizar_consulta_fora c2 req2 d2 o2 _ B2 T2 R2).
    + rewrite (atualizar_consulta_fora c1 req1 d1 o1 w B1 T1 R1).
      now rewrite (atualizar_consulta_fora c1 req1 d1 o1 _ B1 T1 R1).
    + rewrite (atualizar_consulta_fora c1 req1 d1 o1 w B1 T1 R1).
      now rewrite (atualizar_consulta_fora c1 req1 d1 o1 _ B1 T1 R1).
Qed.

(** X21. The answers of PUT /consultas/<id>. The handler answers 200,
    404 or 500 and nothing else. It answers 500 only when it has
    written nothing, and for one of three reasons: a body that decodes
    to a non-empty value other than an object fails on [get]; notes
    sqlite3 cannot bind fail on the UPDATE; an id outside 64 bits (from
    2^63 on, for the ids a URL can carry) fails on the UPDATE as well.
    In each case the world is unchanged. The row read back after a
    successful UPDATE is always there. *)
Theorem atualizar_consulta_erros (cid : Z) (req : option json)
  (w : world) :
  let r := fst (atualizar_consulta cid req w) in
  let w' := snd (atualizar_consulta cid req w) in
  (status r = 200%Z \/ status r = 404%Z \/ status r = 500%Z)
  /\ ((forall d, Py.body_or_empty req <> JObj d) ->
      r = (ErroInterno AttributeError, 500%Z) /\ w' = w)
  /\ (forall d e, Py.body_or_empty req = JObj d ->
      bind_text (observacoes_do_corpo d) = Raise e ->
      r = (ErroInterno e, 500%Z) /\ w' = w)
  /\ (forall d obs, Py.body_or_empty req = JObj d ->
      bind_text (observacoes_do_corpo d) = Ok obs ->
      (9223372036854775807 < cid)%Z ->
      r = (ErroInterno OverflowError, 500%Z) /\ w' = w)
  /\ (status r = 500%Z ->
      w' = w
      /\ ((forall d, Py.body_or_empty req <> JObj d)
          \/ (exists d e, Py.body_or_empty req = JObj d
                          /\ bind_text (observacoes_do_corpo d) = Raise e)
          \/ (cid < - 9223372036854775808
              \/ 9223372036854775807 < cid)%Z)).
Proof.
  cbv zeta.
  destruct (Py.body_or_empty req) as [| | | | | |d] eqn:B;
    try (unfold atualizar_consulta; rewrite B; cbn;
         split; [tauto|]; split; [intros _; now split|];
         split; [intros d e D; discriminate|];
         split; [intros d e D; discriminate|];
         intros _; split; [reflexivity | left; intros d; discriminate]).
  destruct (bind_text (observacoes_do_corpo d)) as [obs|e] eqn:T.
  - rewrite (atualizar_consulta_run cid req d obs w B T). cbv zeta.
    destruct (int64_or_not cid) as [R | R].
    + rewrite (select_one_ok cid _ R).
      destruct (find (fun r => (Store.id r =? cid)%Z) (Store.rows (db w)))
        as [row|]; cbn.
      * split; [tauto|]. split; [intros H; now elim (H d)|].
        split; [intros d0 e [= <-]; congruence|].
        split; [intros d0 o0 _ _ H; lia | discriminate].
      * split; [tauto|]. split; [intros H; now elim (H d)|].
        split; [intros d0 e [= <-]; congruence|].
        split; [intros d0 o0 _ _ H; lia | discriminate].
    + rewrite (select_one_raise cid _ R). cbn.
      split; [tauto|]. split; [intros H; now elim (H d)|].
      split; [intros d0 e [= <-]; congruence|].
      split; [intros d0 o0 _ _ _; now split|].
      intros _. split; [reflexivity|]. right. now right.
  - unfold atualizar_consulta. rewrite B. unfold Py.get.
    fold (observacoes_do_corpo d). rewrite T. cbn.
    split; [tauto|]. split; [intros H; now elim (H d)|].
    split; [|split].
    + intros d0 e0 [= <-] T0. rewrite T in T0. injection T0 as <-.
      now split.
    + intros d0 o0 [= <-] T0. rewrite T in T0. discriminate.
    + intros _. split; [reflexivity|]. right. left. now exists d, e.
Qed.

End AtualizarDuasVezes.

(** Two PUTs on row 1 of the table of three rows, then the second
    alone. *)
Lemma atualizar_consulta_composicao_witness :
  atualizar_consulta (RT := Exemplo.runtime) 1
    (Some (JObj [(lit "observacoes", JStr (lit "segunda"))]))
    (snd (atualizar_consulta (RT := Exemplo.runtime) 1
            (Some (JObj [(lit "observacoes", JStr (lit "primeira"))]))
            (Exemplo.mundo [] tres_linhas)))
  = atualizar_consulta (RT := Exemplo.runtime) 1
      (Some (JObj [(lit "observacoes", JStr (lit "segunda"))]))
      (Exemplo.mundo [] tres_linhas).
Proof.
  apply (proj1 (atualizar_consulta_composicao (RT := Exemplo.runtime)
                  (Some (JObj [(lit "observacoes", JStr (lit "primeira"))]))
                  (Some (JObj [(lit "observacoes", JStr (lit "segunda"))]))
                  [(lit "observacoes", JStr (lit "primeira"))]
                  [(lit "observacoes", JStr (lit "segunda"))]
                  (Some (lit "primeira")) (Some (lit "segunda"))
                  (Exemplo.mundo [] tres_linhas)
                  eq_refl eq_refl eq_refl eq_refl)).
Defined.

(** Notes given as a list, which the sqlite3 of the examples refuses. *)
Lemma atualizar_consulta_erros_witness :
  atualizar_consulta (RT := Exemplo.runtime) 1
    (Some (JObj [(lit "observacoes", JArr [JInt 1])]))
    (Exemplo.mundo [] tres_linhas)
  = ((ErroInterno DatabaseError, 500%Z), Exemplo.mundo [] tres_linhas).
Proof.
  destruct (proj1 (proj2 (proj2 (atualizar_consulta_erros
                                   (RT := Exemplo.runtime) 1
                                   (Some (JObj [(lit "observacoes",
                                                 JArr [JInt 1])]))
                                   (Exemplo.mundo [] tres_linhas))))
              [(lit "observacoes", JArr [JInt 1])] DatabaseError
              eq_refl eq_refl) as [R W].
  now rewrite (surjective_pairing (atualizar_consulta _ _ _)), R, W.
Defined.

(** ** How POST /distancia-por-cep reads its input *)

Lemma so_acrescenta_bind {A B : Type} (m : M A) (k : A -> M B) :
  so_acrescenta m -> (forall a, so_acrescenta (k a)) ->
  so_acrescenta (bind m k).
Proof.
  intros Hm Hk w. unfold bind. destruct (Hm w) as (l1 & E1).
  destruct (m w) as [[a|e] w1]; cbn [snd] in *.
  - destruct (Hk a w1) as (l2 & E2). exists (l1 ++ l2).
    exact (estende_trans _ _ _ _ _ E1 E2).
  - now exists l1.
Qed.

Lemma so_acrescenta_puro {A : Type} (m : M A) :
  (forall w, snd (m w) = w) -> so_acrescenta m.
Proof. intros H w. exists []. rewrite H. apply estende_refl. Qed.

Section Entrada.
Context {RT : Runtime}.

Lemma so_acrescenta_etapas (co cd : str) (e1 e2 : json)
  (la1 lo1 la2 lo2 : float) (oj : json) :
  so_acrescenta (etapas_finais co cd e1 e2 la1 lo1 la2 lo2 oj).
Proof.
  intros w. exists [PostSecundaria la1 lo1 la2 lo2].
  apply etapas_finais_estende.
Qed.

Lemma so_acrescenta_geocode (q : str) : so_acrescenta (geocode_osm q).
Proof.
  intros w. destruct (geocode_osm_estende q w) as (gs & E & _).
  now exists gs.
Qed.

Lemma so_acrescenta_via_cep (cep : str) : so_acrescenta (via_cep cep).
Proof. intros w. eexists. apply via_cep_estende. Qed.

(** X22. How POST /distancia-por-cep reads its input. A body that
    decodes to a non-empty value other than an object is answered 500
    with the world unchanged. A request that passes the input check
    always leads to a postal lookup of the normalised origin as the
    first call. And the check is on [str()] of the value: a null origin
    reads as the text "None", passes the check when the destination is
    not empty, and "None" is what the postal service is asked. *)
Theorem distancia_por_cep_entrada (req : option json) (w : world) :
  ((forall d, Py.body_or_empty req <> JObj d) ->
   distancia_por_cep req w = ((ErroInesperado AttributeError, 500%Z), w))
  /\ (forall d, entrada_valida req d ->
      exists resto,
        calls (snd (distancia_por_cep req w))
        = calls w
          ++ GetViaCep (cep_normalizado (cep_do_corpo d (lit "origem")))
             :: resto)
  /\ (forall d, Py.body_or_empty req = JObj d ->
      Py.lookup (lit "origem") d = Some JNull ->
      is_empty (cep_do_corpo d (lit "destino")) = false ->
      exists resto,
        fst (distancia_por_cep req w) <> (ErroEntrada, 400%Z)
        /\ calls (snd (distancia_por_cep req w))
           = calls w ++ GetViaCep (lit "None") :: resto).
Proof.
  assert (P2 : forall d, entrada_valida req d ->
               exists resto,
                 calls (snd (distancia_por_cep req w))
                 = calls w
                   ++ GetViaCep (cep_normalizado
                                   (cep_do_corpo d (lit "origem")))
                      :: resto).
  { intros d (B & O & D). unfold distancia_por_cep.
    rewrite (distancia_por_cep_try_corpo req d w B), O, D.
    cbn [orb].
    set (co := cep_do_corpo d (lit "origem")).
    set (cd := cep_do_corpo d (lit "destino")).
    match goal with
    | |- context [bind (via_cep co) ?k w] =>
        assert (K : forall a, so_acrescenta (k a))
    end.
    { intros e1.
      apply so_acrescenta_bind; [apply so_acrescenta_via_cep|]. intros e2.
      apply so_acrescenta_bind; [now apply so_acrescenta_puro|]. intros q1.
      apply so_acrescenta_bind; [now apply so_acrescenta_puro|]. intros q2.
      apply so_acrescenta_bind; [apply so_acrescenta_geocode|].
      intros [la1 lo1].
      apply so_acrescenta_bind; [apply so_acrescenta_geocode|].
      intros [la2 lo2].
      apply so_acrescenta_etapas. }
    unfold bind at 1.
    pose proof (via_cep_estende co w) as (_ & _ & E1).
    destruct (via_cep co w) as [[e1|e] w1]; cbn [snd] in E1.
    - destruct (K e1 w1) as (l & _ & _ & E2).
      match goal with
      | |- context [bind ?m ?k w1] => destruct (bind m k w1) as [[r|e] w2]
      end; cbn [snd] in *; exists l; now rewrite E2, E1, <- app_assoc.
    - exists []. exact E1. }
  split; [|split; [exact P2|]].
  - intros H. unfold distancia_por_cep, distancia_por_cep_try.
    destruct (Py.body_or_empty req); try reflexivity.
    now elim (H fields).
  - intros d B L D.
    assert (O : cep_do_corpo d (lit "origem") = lit "None")
      by (unfold cep_do_corpo; now rewrite L).
    assert (EV : entrada_valida req d)
      by (split; [exact B | split; [now rewrite O | exact D]]).
    destruct (P2 d EV) as (resto & C). rewrite O in C.
    exists resto. split; [|exact C].
    intros E.
    pose proof (f_equal (fun l => List.length l) C) as Len.
    cbn beta in Len. rewrite length_app in Len. simpl in Len.
    assert (W : snd (distancia_por_cep req w) = w).
    { unfold distancia_por_cep in *.
      pose proof (persiste_try req w) as P.
      destruct (distancia_por_cep_try req w) as [[r|e] w1] eqn:T;
        cbn [fst snd] in *.
      - exfalso. subst r.
        rewrite (distancia_por_cep_try_corpo req d w B) in T.
        rewrite O, D in T. cbn [orb is_empty lit] in T.
        change (is_empty (lit "None")) with false in T. cbn [orb] in T.
        unfold bind at 1 in T.
        destruct (via_cep (lit "None") w) as [[e1|e] w0]; [|discriminate].
        unfold bind at 1 in T.
        destruct (via_cep _ w0) as [[e2|e] w2]; [|discriminate].
        unfold bind at 1, lift at 1 in T.
        destruct (endereco_para_query e1) as [q1|e]; [|discriminate].
        unfold bind at 1, lift at 1 in T.
        destruct (endereco_para_query e2) as [q2|e]; [|discriminate].
        unfold bind at 1 in T.
        destruct (geocode_osm q1 w2) as [[[la1 lo1]|e] w3]; [|discriminate].
        unfold bind at 1 in T.
        destruct (geocode_osm q2 w3) as [[[la2 lo2]|e] w4]; [|discriminate].
        pose proof (proj2 (etapas_finais_estende
                             (lit "None") (cep_do_corpo d (lit "destino"))
                             e1 e2 la1 lo1 la2 lo2
                             (observacoes_do_corpo d) w4)
                      (ErroEntrada, 400%Z)) as S.
        unfold etapas_finais, observacoes_do_corpo in S.
        rewrite T in S. destruct (S eq_refl); discriminate.
      - exfalso. unfold traduz_erro in E.
        destruct (is_ValueError e); [discriminate|].
        destruct (is_RequestException e); discriminate. }
    rewrite W in Len. lia.
Qed.

(** X23. Insert, then delete. After a 200 answer of POST
    /distancia-por-cep on a table in the AUTOINCREMENT state, DELETE of
    the id just given answers 200 and leaves exactly the rows there
    were before the POST; only the id counter stays advanced. *)
Theorem post_depois_excluir (req : option json) (w : world) :
  tabela_ok (db w) ->
  status (fst (distancia_por_cep req w)) = 200%Z ->
  let w1 := snd (distancia_por_cep req w) in
  let i := (Store.seq (db w) + 1)%Z in
  excluir_consulta i w1
  = ((Excluida i, 200%Z),
     mk_world (remote w1) (calls w1) (Store.mk (Store.rows (db w)) i)
       (utcnow w1)).
Proof.
  intros T S w1 i.
  destruct (post_200 req w S)
    as (j & co & cd & e1 & e2 & la1 & lo1 & la2 & lo2 & d & ts & oj & obs
        & _ & _ & J & Rg & D).
  fold w1 in D. fold i in J. subst j.
  rewrite (excluir_consulta_run i w1 Rg). unfold sem_linha.
  rewrite D. cbn [Store.rows Store.seq].
  rewrite !filter_app.
  destruct (filter_id_nil i (Store.rows (db w))
              (find_id_none i _ (abaixo_do_novo _ T))) as [F G].
  rewrite F, G. cbn [filter Store.id]. rewrite Z.eqb_refl. cbn.
  now rewrite app_nil_r.
Qed.

End Entrada.

(** A body with a null origin: the lookup of "None" is the first call. *)
Lemma distancia_por_cep_entrada_witness :
  exists resto,
    calls (snd (distancia_por_cep (RT := Exemplo.runtime)
                  (Some (JObj [(lit "origem", JNull);
                               (lit "destino", JStr (lit "20040-020"))]))
                  (Exemplo.mundo [] Store.empty)))
    = GetViaCep (lit "None") :: resto.
Proof.
  destruct (proj2 (proj2 (distancia_por_cep_entrada (RT := Exemplo.runtime)
                            (Some (JObj [(lit "origem", JNull);
                                         (lit "destino",
                                          JStr (lit "20040-020"))]))
                            (Exemplo.mundo [] Store.empty)))
              [(lit "origem", JNull);
               (lit "destino", JStr (lit "20040-020"))]
              eq_refl eq_refl eq_refl) as (resto & _ & C).
  exists resto. exact C.
Defined.

(** The successful run of the examples, then DELETE /consultas/1. *)
Lemma post_depois_excluir_witness :
  fst (excluir_consulta 1
         (snd (distancia_por_cep (RT := Exemplo.runtime) Exemplo.pedido
                 mundo_feliz)))
  = (Excluida 1, 200%Z)
  /\ Store.rows (db (snd (excluir_consulta 1
                            (snd (distancia_por_cep (RT := Exemplo.runtime)
                                    Exemplo.pedido mundo_feliz)))))
     = [].
Proof.
  pose proof (post_depois_excluir (RT := Exemplo.runtime) Exemplo.pedido
                mundo_feliz tabela_ok_empty eq_refl) as H.
  cbv zeta in H. change (Store.seq (db mundo_feliz) + 1)%Z with 1%Z in H.
  rewrite H. split; reflexivity.
Defined.
